(** * gosei: event broker, compose operations, watcher and status reconciliation

    A shallow embedding of the Go sources of the dashboard's core:
    - [internal/sse/broker.go]: the SSE broker (membership table, fan-out,
      shutdown) and its event payloads;
    - package [docker]: container records, the compose client and the mock
      compose client (composite "update");
    - package [project]: the scanner's project store;
    - package [handler]: the compose-operation runner and its status update;
    - package [main]: the Docker event watcher, [mapActionToState] and the
      watcher-side [updateProjectStatus].

    Conventions.  A Go [string] is a byte string, as is Rocq's [string].  A Go
    [int] is a [Z] (the counts below are lengths of slices and never wrap).
    A Go [error] is [option error]: [None] is [nil], [Some msg] is an error
    whose [Error()] text is [msg].  A pointer to a struct owned by a Go map is
    the key under which the map holds it.  Channels live in a heap indexed by
    references, because clients are shared by pointer.  Code that can panic or
    block returns an [Outcome]. *)

From Stdlib Require Import String Ascii ZArith List Lia Bool.
From stdpp Require Import base option list gmap strings fin_maps pretty.
From Stdlib Require Import Sorted.

Open Scope string_scope.
Open Scope list_scope.
Open Scope Z_scope.

(** ** Go runtime primitives *)

Module Go.

(** The text of a non-nil [error]. *)
Definition error := string.

(** What a statement can do besides finishing: panic, or block for ever
    (a channel operation nobody completes). *)
Inductive Outcome (A : Type) : Type :=
| Ok (a : A)
| Blocked
| Panic.
Arguments Ok {A} a.
Arguments Blocked {A}.
Arguments Panic {A}.

Definition bind {A B : Type} (m : Outcome A) (k : A -> Outcome B) : Outcome B :=
  match m with
  | Ok a => k a
  | Blocked => Blocked
  | Panic => Panic
  end.

(** [s[:n]]: the first [n] bytes of [s]; a slice bound beyond [len(s)] is a
    run-time panic. *)
Definition slice_to (n : nat) (s : string) : Outcome string :=
  if (n <=? String.length s)%nat then Ok (String.substring 0 n s) else Panic.

(** [strings.Contains(s, substr)]. *)
Fixpoint Contains (s substr : string) : bool :=
  String.prefix substr s ||
  match s with
  | EmptyString => false
  | String _ rest => Contains rest substr
  end.

(** [fmt.Sprintf("%d", n)] for a non-negative integer. *)
Definition Sprint_d (n : nat) : string := pretty n.

(** [fmt.Sprintf("%.1f", x)] for [x] a whole number of tenths (the mock's
    durations [0.3 + i*0.2] and the like round to exactly that tenth). *)
Definition Sprint_tenths (t : nat) : string :=
  pretty (t / 10)%nat +:+ "." +:+ pretty (t mod 10)%nat.

(** A map lookup [m[k]] on a [map[string]string]: the zero value [""] for a
    missing key. *)
Definition index_map (m : gmap string string) (k : string) : string :=
  default "" (m !! k).

(** A buffered channel: contents, capacity, closed flag. *)
Record Chan (A : Type) : Type := mkChan
  { buf : list A; cap : nat; closed : bool }.
Arguments mkChan {A} buf cap closed.
Arguments buf {A} c.
Arguments cap {A} c.
Arguments closed {A} c.

(** [make(chan A, n)]. *)
Definition make_chan {A : Type} (n : nat) : Chan A := mkChan [] n false.

(** [ch <- x]: panics on a closed channel, blocks on a full buffer. *)
Definition send {A : Type} (x : A) (c : Chan A) : Outcome (Chan A) :=
  if closed c then Panic
  else if (length (buf c) <? cap c)%nat then Ok (mkChan (buf c ++ [x]) (cap c) false)
  else Blocked.

(** [close(ch)]: closing a closed channel panics. *)
Definition close {A : Type} (c : Chan A) : Outcome (Chan A) :=
  if closed c then Panic else Ok (mkChan (buf c) (cap c) true).

(** [x, ok := <-ch]: buffered values first; a closed and drained channel
    yields [ok = false]; an open empty one blocks. *)
Definition recv {A : Type} (c : Chan A) : Outcome (option A * Chan A) :=
  match buf c with
  | x :: rest => Ok (Some x, mkChan rest (cap c) (closed c))
  | [] => if closed c then Ok (None, c) else Blocked
  end.

(** [context.Context] as the callee sees it: the number of polls of
    [ctx.Done()] that still find it open ([None]: never cancelled, as for
    [context.Background()]), and the text of [ctx.Err()] afterwards. *)
Record Context : Type := mkContext
  { cancel_after : option nat; ctx_err : error }.

Definition Background : Context := mkContext None "".

(** The [k]-th poll (from 0) of [select { case <-ctx.Done(): ...; default: }]. *)
Definition done_at (ctx : Context) (k : nat) : bool :=
  match cancel_after ctx with
  | None => false
  | Some n => (n <=? k)%nat
  end.

End Go.

Import Go.

(** ** Package docker: records *)

Module PortMapping.
Record t : Type := mk
  { HostIP : string; HostPort : string; ContainerPort : string; Protocol : string }.
End PortMapping.

Module ContainerInfo.
Record t : Type := mk
  { ID : string;
    Name : string;
    Image : string;
    ImageID : string;
    Status : string;
    State : string;
    Health : string;
    Created : Z;
    Ports : list PortMapping.t;
    Labels : gmap string string;
    ProjectName : string;
    ServiceName : string;
    ComposeFile : string;
    WorkingDir : string }.

Definition with_state (state status : string) (c : t) : t :=
  mk (ID c) (Name c) (Image c) (ImageID c) status state (Health c) (Created c)
     (Ports c) (Labels c) (ProjectName c) (ServiceName c) (ComposeFile c)
     (WorkingDir c).
End ContainerInfo.

Module ContainerEvent.
Record t : Type := mk
  { ID : string;
    Action : string;
    Name : string;
    Image : string;
    Project : string;
    Service : string;
    Timestamp : Z }.
End ContainerEvent.

(** The Docker SDK's [types.Port] and [types.Container], with the fields
    [containerToInfo] reads. *)
Module SDKPort.
Record t : Type := mk
  { IP : string; PrivatePort : N; PublicPort : N; Type_ : string }.
End SDKPort.

Module SDKContainer.
Record t : Type := mk
  { ID : string;
    Names : list string;
    Image : string;
    ImageID : string;
    Status : string;
    State : string;
    Created : Z;
    Ports : list SDKPort.t;
    Labels : gmap string string }.
End SDKContainer.

Module ComposeOutput.
Record t : Type := mk { Line : string; Stream : string }.
End ComposeOutput.

Module ComposeResult.
Record t : Type := mk { Success : bool; Message : string }.
End ComposeResult.

(** ** Package sse: event payloads *)

Module ContainerStatusEvent.
Record t : Type := mk
  { ID : string;
    Name : string;
    Status : string;
    State : string;
    Health : string;
    Project : string;
    Service : string }.
End ContainerStatusEvent.

Module ProjectStatusEvent.
Record t : Type := mk
  { ID : string; Name : string; Status : string; Running : Z; Total : Z }.
End ProjectStatusEvent.

Module ComposeOutputEvent.
Record t : Type := mk
  { ProjectID : string; Operation : string; Line : string; Stream : string }.
End ComposeOutputEvent.

Module ComposeCompleteEvent.
Record t : Type := mk
  { ProjectID : string; Operation : string; Success : bool; Message : string }.
End ComposeCompleteEvent.

(** ** Package docker: [containerToInfo] *)

Module Docker.

(** [Client.containerToInfo].  The only partial step is [ctr.ID[:12]]. *)
Definition containerToInfo (ctr : SDKContainer.t) : Outcome ContainerInfo.t :=
  let name :=
    match SDKContainer.Names ctr with
    | [] => ""
    | n0 :: _ =>
        match n0 with
        | String "/" rest => rest
        | _ => n0
        end
    end in
  let st := SDKContainer.Status ctr in
  let health :=
    if Contains st "health" then
      if Contains st "unhealthy" then "unhealthy"
      else if Contains st "healthy" then "healthy"
      else if Contains st "starting" then "starting"
      else ""
    else "" in
  let ports :=
    map (fun p => PortMapping.mk (SDKPort.IP p)
                    (Sprint_d (N.to_nat (SDKPort.PublicPort p)))
                    (Sprint_d (N.to_nat (SDKPort.PrivatePort p)))
                    (SDKPort.Type_ p))
        (SDKContainer.Ports ctr) in
  let labels := SDKContainer.Labels ctr in
  bind (slice_to 12 (SDKContainer.ID ctr)) (fun id =>
  Ok (ContainerInfo.mk id name (SDKContainer.Image ctr) (SDKContainer.ImageID ctr)
        st (SDKContainer.State ctr) health (SDKContainer.Created ctr) ports labels
        (index_map labels "com.docker.compose.project")
        (index_map labels "com.docker.compose.service")
        (index_map labels "com.docker.compose.project.config_files")
        (index_map labels "com.docker.compose.project.working_dir"))).

End Docker.

(** ** Package sse: the broker *)

Module SSE.

(** [Event.Data] is an [interface{}]; every producer in this program stores
    the JSON text of one of the four payload structs ([BroadcastJSON]), and
    encoding such a struct (strings, ints, bools) cannot fail.  The payload is
    kept as the struct the text encodes; [NilData] is the nil interface of a
    zero [Event]. *)
Inductive Payload : Type :=
| NilData
| ContainerStatusData (d : ContainerStatusEvent.t)
| ProjectStatusData (d : ProjectStatusEvent.t)
| ComposeOutputData (d : ComposeOutputEvent.t)
| ComposeCompleteData (d : ComposeCompleteEvent.t).

Record Event : Type := mkEvent { Type_ : string; Data : Payload }.

(** A reference to a [chan Event] in the channel heap. *)
Definition chan_ref := nat.

(** [Client]: [Events] is a reference, since clients are handled by pointer
    and two pointers to one client share its channel.  The [Done] channel,
    which nothing reads or writes, is left out. *)
Record Client : Type := mkClient
  { ID : string; Events : chan_ref; LastSeen : Z }.

(** [Broker].  [register] and [unregister] are unbuffered channels: a send on
    them is a rendezvous with the [run] loop and holds no state.  [broadcast]
    is the buffered intake.  [ctx_done] is the cancellation of [b.ctx].
    Beyond the struct's fields the state holds the channel heap of the
    clients' mailboxes, whether the [run] goroutine has returned, and the
    lines written with [log.Printf]. *)
Record Broker : Type := mkBroker
  { clients : gmap string Client;
    broadcast : Chan Event;
    ctx_done : bool;
    heap : gmap chan_ref (Chan Event);
    returned : bool;
    logged : list string }.

Definition set_clients (m : gmap string Client) (b : Broker) : Broker :=
  mkBroker m (broadcast b) (ctx_done b) (heap b) (returned b) (logged b).
Definition set_broadcast (q : Chan Event) (b : Broker) : Broker :=
  mkBroker (clients b) q (ctx_done b) (heap b) (returned b) (logged b).
Definition set_heap (h : gmap chan_ref (Chan Event)) (b : Broker) : Broker :=
  mkBroker (clients b) (broadcast b) (ctx_done b) h (returned b) (logged b).
Definition set_returned (r : bool) (b : Broker) : Broker :=
  mkBroker (clients b) (broadcast b) (ctx_done b) (heap b) r (logged b).
Definition log_Printf (line : string) (b : Broker) : Broker :=
  mkBroker (clients b) (broadcast b) (ctx_done b) (heap b) (returned b)
           (logged b ++ [line]).

(** [NewBroker]: empty table, intake of capacity 256, [run] started. *)
Definition NewBroker : Broker :=
  mkBroker ∅ (make_chan 256) false ∅ false [].

(** Channel operations through a reference.  A reference outside the heap is
    a nil channel: sending on it blocks, closing it panics. *)
Definition heap_send (e : Event) (r : chan_ref) (h : gmap chan_ref (Chan Event))
  : Outcome (gmap chan_ref (Chan Event)) :=
  match h !! r with
  | None => Blocked
  | Some c => bind (send e c) (fun c' => Ok (<[r := c']> h))
  end.

Definition heap_close (r : chan_ref) (h : gmap chan_ref (Chan Event))
  : Outcome (gmap chan_ref (Chan Event)) :=
  match h !! r with
  | None => Panic
  | Some c => bind (close c) (fun c' => Ok (<[r := c']> h))
  end.

(** The body of the fan-out loop for one client:
    [select { case client.Events <- event: default: log.Printf(...) }]. *)
Definition offer (e : Event) (c : Client) (b : Broker) : Outcome Broker :=
  match heap_send e (Events c) (heap b) with
  | Ok h' => Ok (set_heap h' b)
  | Blocked =>
      Ok (log_Printf ("SSE client " +:+ ID c +:+ " buffer full, skipping event") b)
  | Panic => Panic
  end.

(** [for _, client := range ...] over the clients in the order [order]. *)
Fixpoint fanout (e : Event) (order : list Client) (b : Broker) : Outcome Broker :=
  match order with
  | [] => Ok b
  | c :: rest => bind (offer e c b) (fanout e rest)
  end.

(** The shutdown loop: [close(client.Events)] for every client. *)
Fixpoint close_all (order : list Client) (b : Broker) : Outcome Broker :=
  match order with
  | [] => Ok b
  | c :: rest =>
      bind (heap_close (Events c) (heap b)) (fun h' => close_all rest (set_heap h' b))
  end.

(** The clients of the table in the order [range b.clients] visits them.  Go
    leaves that order unspecified; the model takes the map's enumeration, and
    [fanout_order_irrelevant] and [close_all_order_irrelevant] below show that
    no other order gives another result. *)
Definition range_clients (b : Broker) : list Client := (map_to_list (clients b)).*2.

(** The case of [run]'s [select] that fires. *)
Inductive Case : Type :=
| Register (client : Client)
| Unregister (client : Client)
| Intake
| Done.

Definition connected_line (c : Client) (b : Broker) : string :=
  "SSE client connected: " +:+ ID c +:+ " (total: " +:+ Sprint_d (size (clients b)) +:+ ")".
Definition disconnected_line (c : Client) (b : Broker) : string :=
  "SSE client disconnected: " +:+ ID c +:+ " (total: " +:+ Sprint_d (size (clients b)) +:+ ")".

(** One iteration of [run]'s loop with the case [k] chosen.  [Blocked] when
    that case is not ready: the intake is empty, the context is not
    cancelled, or the loop has returned and receives nothing any more. *)
Definition run (k : Case) (b : Broker) : Outcome Broker :=
  if returned b then Blocked else
  match k with
  | Register client =>
      let b1 := set_clients (<[ID client := client]> (clients b)) b in
      Ok (log_Printf (connected_line client b1) b1)
  | Unregister client =>
      bind
        (match clients b !! ID client with
         | Some _ =>
             let b1 := set_clients (delete (ID client) (clients b)) b in
             bind (heap_close (Events client) (heap b1)) (fun h' => Ok (set_heap h' b1))
         | None => Ok b
         end)
        (fun b2 => Ok (log_Printf (disconnected_line client b2) b2))
  | Intake =>
      bind (recv (broadcast b)) (fun '(got, q) =>
      let event := default (mkEvent "" NilData) got in
      let b1 := set_broadcast q b in
      fanout event (range_clients b1) b1)
  | Done =>
      if ctx_done b then
        bind (close_all (range_clients b) b) (fun b1 =>
        Ok (set_returned true (set_clients ∅ b1)))
      else Blocked
  end.

(** [Broker.Close]: cancels the context. *)
Definition Close (b : Broker) : Broker :=
  mkBroker (clients b) (broadcast b) true (heap b) (returned b) (logged b).

(** [Broker.Broadcast]:
    [select { case b.broadcast <- Event{...}: default: log.Printf(...) }]. *)
Definition Broadcast (eventType : string) (data : Payload) (b : Broker) : Outcome Broker :=
  match send (mkEvent eventType data) (broadcast b) with
  | Ok q => Ok (set_broadcast q b)
  | Blocked =>
      Ok (log_Printf ("Broadcast channel full, dropping event: " +:+ eventType) b)
  | Panic => Panic
  end.

(** [Broker.BroadcastJSON]: marshals, then [Broadcast]; the marshalling error
    it could return does not arise for the payload structs. *)
Definition BroadcastJSON (eventType : string) (data : Payload) (b : Broker)
  : Outcome (Broker * option error) :=
  bind (Broadcast eventType data b) (fun b' => Ok (b', None)).

(** The part of [ServeHTTP] that concerns membership: a fresh client with a
    mailbox of capacity 64 at the unused reference [r], then the rendezvous
    [b.register <- client]. *)
Definition new_client (clientID : string) (now : Z) (r : chan_ref) (b : Broker)
  : Client * Broker :=
  (mkClient clientID r now, set_heap (<[r := make_chan 64]> (heap b)) b).

Definition serve_register (clientID : string) (now : Z) (r : chan_ref) (b : Broker)
  : Outcome (Client * Broker) :=
  let '(c, b1) := new_client clientID now r b in
  bind (run (Register c) b1) (fun b2 => Ok (c, b2)).

(** What the parties around the broker can do to it. *)
Inductive Action : Type :=
| Loop (k : Case)
| CallBroadcast (eventType : string) (data : Payload)
| CallClose.

Definition act (a : Action) (b : Broker) : Outcome Broker :=
  match a with
  | Loop k => run k b
  | CallBroadcast t d => Broadcast t d b
  | CallClose => Ok (Close b)
  end.

(** A schedule of actions.  An action that blocks leaves the state as it is
    (its caller waits; the others go on); a panic ends the run. *)
Fixpoint acts (l : list Action) (b : Broker) : Outcome Broker :=
  match l with
  | [] => Ok b
  | a :: rest =>
      match act a b with
      | Ok b' => acts rest b'
      | Blocked => acts rest b
      | Panic => Panic
      end
  end.

(** The mailbox invariant, as a check: every client of the table has an open
    mailbox in the heap, and no two clients of the table share one.
    [ServeHTTP] gives each client a channel of its own, and a channel is
    closed only when its client leaves the table. *)
Definition mailbox_open (h : gmap chan_ref (Chan Event)) (c : Client) : bool :=
  match h !! Events c with
  | Some ch => negb (closed ch)
  | None => false
  end.

Definition mailboxes_ok (b : Broker) : bool :=
  forallb (mailbox_open (heap b)) (range_clients b)
  && bool_decide (NoDup (Events <$> range_clients b)).

(** [Broker.ClientCount]. *)
Definition ClientCount (b : Broker) : nat := size (clients b).

End SSE.

(** ** Package project: the scanner's store *)

Module BuildInfo.
Record t : Type := mk { Context : string; Dockerfile : string }.
End BuildInfo.

Module ServiceInfo.
Record t : Type := mk
  { Name : string;
    Image : string;
    Build : option BuildInfo.t;
    Ports : list string;
    Volumes : list string;
    Environment : gmap string string;
    DependsOn : list string;
    Labels : gmap string string }.
End ServiceInfo.

Module Project.
Record t : Type := mk
  { ID : string;
    Name : string;
    Path : string;
    ComposeFile : string;
    Services : list ServiceInfo.t;
    Status : string;
    Running : Z;
    Total : Z;
    LastUpdated : Z;
    EnvFiles : list string;
    Labels : gmap string string }.

Definition set_Status (v : string) (p : t) : t :=
  mk (ID p) (Name p) (Path p) (ComposeFile p) (Services p) v (Running p) (Total p)
     (LastUpdated p) (EnvFiles p) (Labels p).
Definition set_Running (v : Z) (p : t) : t :=
  mk (ID p) (Name p) (Path p) (ComposeFile p) (Services p) (Status p) v (Total p)
     (LastUpdated p) (EnvFiles p) (Labels p).
Definition set_LastUpdated (v : Z) (p : t) : t :=
  mk (ID p) (Name p) (Path p) (ComposeFile p) (Services p) (Status p) (Running p)
     (Total p) v (EnvFiles p) (Labels p).
End Project.

Module Scanner.

(** [Scanner.projects] is a [map[string]*Project]; the table owns the
    projects, so a [*Project] handed out by the scanner is the key of its
    entry ([ptr]), and a write through the pointer is a write to the entry. *)
Record t : Type := mk { baseDir : string; projects : gmap string Project.t }.

Abbreviation ptr := string.

Definition deref (s : t) (p : ptr) : option Project.t := projects s !! p.

(** An assignment [p.field = v] through a pointer. *)
Definition assign (p : ptr) (f : Project.t -> Project.t) (s : t) : t :=
  mk (baseDir s) (alter f p (projects s)).

(** [Scanner.GetProject]. *)
Definition GetProject (id : string) (s : t) : option ptr :=
  match projects s !! id with
  | Some _ => Some id
  | None => None
  end.

(** Insertion of a pointer into a list ordered by [Name]. *)
Fixpoint insert_by_name (s : t) (p : ptr) (l : list ptr) : list ptr :=
  match l with
  | [] => [p]
  | q :: rest =>
      match deref s p, deref s q with
      | Some pp, Some qq =>
          if String.leb (Project.Name pp) (Project.Name qq) then p :: l
          else q :: insert_by_name s p rest
      | _, _ => p :: l
      end
  end.

(** [Scanner.ListProjects]: all projects, sorted by [Name] (bytewise, as Go
    compares strings).  The order among equal names is unspecified in Go (map
    iteration, unstable sort); the model fixes one. *)
Definition ListProjects (s : t) : list ptr :=
  foldr (insert_by_name s) [] (map_to_list (projects s)).*1.

(** [Scanner.UpdateProjectStatus] at time [now]. *)
Definition UpdateProjectStatus (id : string) (running : Z) (status : string)
    (now : Z) (s : t) : t :=
  match projects s !! id with
  | Some _ =>
      assign id (fun p => Project.set_LastUpdated now
                            (Project.set_Status status (Project.set_Running running p))) s
  | None => s
  end.

End Scanner.

(** ** Package docker: the collaborator interfaces *)

(** What a compose operation has done so far: the state of the world it acts
    on, the lines it has sent on its output channel, and how often it has
    polled its context. *)
Record Proc (W : Type) : Type := mkProc
  { world : W; sent : list ComposeOutput.t; polls : nat }.
Arguments mkProc {W} world sent polls.
Arguments world {W} p.
Arguments sent {W} p.
Arguments polls {W} p.

(** The [outputCh] argument: [true] for a channel, [false] for [nil]. *)
Definition OutputCh := bool.

(** An operation that returns a [ComposeResult] pointer and an [error]. *)
Definition composeOp (W : Type) : Type :=
  Context -> string -> OutputCh -> Proc W ->
  (option ComposeResult.t * option error) * Proc W.

(** [ComposeExecutor]. *)
Class ComposeExecutor (W : Type) : Type :=
  { Up : composeOp W;
    Down : composeOp W;
    Pull : composeOp W;
    Restart : composeOp W;
    Update : composeOp W }.

(** [DockerClient], as far as the core uses it. *)
Class DockerClient (W : Type) : Type :=
  { ListContainers : W -> string -> Outcome (list ContainerInfo.t * option error) }.

(** [outputCh <- ComposeOutput{...}] guarded by [outputCh != nil].  The
    channel has a buffer of 100 that a relay goroutine drains, so the sender
    may wait but the line is sent. *)
Definition send_line {W : Type} (outputCh : OutputCh) (line stream : string)
    (p : Proc W) : Proc W :=
  if outputCh then mkProc (world p) (sent p ++ [ComposeOutput.mk line stream]) (polls p)
  else p.

(** [select { case <-ctx.Done(): ...; default: }]: the next poll. *)
Definition poll_done {W : Type} (ctx : Context) (p : Proc W) : bool * Proc W :=
  (done_at ctx (polls p), mkProc (world p) (sent p) (S (polls p))).

(** ** Package docker: [ComposeClient] on a Docker host *)

Module Host.

(** What running one [docker compose] command does. *)
Inductive Command : Type :=
| StdoutPipeFails (e : error)
| StderrPipeFails (e : error)
| StartFails (e : error)
| Runs (lines : list ComposeOutput.t) (wait : option error).

(** The host outside the program: which paths [os.Stat] finds, what the
    [n]-th [docker] command started in a directory with given arguments
    does (its output lines in the order they reach the channel, and the
    result of [cmd.Wait]), what the Docker API lists for a project.  [calls]
    records the argument lists [runCompose] was invoked with. *)
Record t : Type := mk
  { stat : string -> bool;
    command : nat -> string -> list string -> Command;
    containerList : string -> list SDKContainer.t * option error;
    calls : list (list string) }.

Definition record_call (args : list string) (h : t) : t :=
  mk (stat h) (command h) (containerList h) (calls h ++ [args]).

End Host.

Module ComposeClient.

(** The elements of a path between its separators. *)
Fixpoint split_path (s : string) : list string :=
  match s with
  | EmptyString => [EmptyString]
  | String c rest =>
      match split_path rest with
      | hd :: tl => if Ascii.eqb c "/" then EmptyString :: hd :: tl else String c hd :: tl
      | [] => [String c EmptyString]
      end
  end.

(** The elements [filepath.Clean] keeps, the last one first in [kept]: empty
    elements and [.] go; [..] takes the element before it with it, stays at
    the start of a path that is not rooted, and goes at the root. *)
Fixpoint clean_elems (rooted : bool) (kept : list string) (elems : list string)
  : list string :=
  match elems with
  | [] => rev kept
  | e :: rest =>
      if String.eqb e "" || String.eqb e "." then clean_elems rooted kept rest
      else if String.eqb e ".." then
        match kept with
        | top :: below =>
            if String.eqb top ".." then clean_elems rooted (e :: kept) rest
            else clean_elems rooted below rest
        | [] => if rooted then clean_elems rooted [] rest
                else clean_elems rooted [e] rest
        end
      else clean_elems rooted (e :: kept) rest
  end.

(** [filepath.Clean] for slash-separated paths. *)
Definition Clean (path : string) : string :=
  if String.eqb path "" then "." else
  let rooted := String.prefix "/" path in
  let out := String.concat "/" (clean_elems rooted [] (split_path path)) in
  if rooted then "/" +:+ out
  else if String.eqb out "" then "." else out.

(** [filepath.Join(dir, name)]: empty elements are ignored, the rest is
    joined with a separator and cleaned. *)
Definition Join (dir name : string) : string :=
  if String.eqb dir "" then (if String.eqb name "" then "" else Clean name)
  else Clean (dir +:+ "/" +:+ name).

(** [findComposeFile]. *)
Definition findComposeFile (h : Host.t) (dir : string) : string * option error :=
  match find (fun name => Host.stat h (Join dir name))
             ["compose.yaml"; "compose.yml"; "docker-compose.yaml"; "docker-compose.yml"] with
  | Some name => (Join dir name, None)
  | None => ("", Some ("no compose file found in " +:+ dir))
  end.

Definition failed (e : error) : ComposeResult.t * option error :=
  (ComposeResult.mk false e, Some e).

(** [streamOutput] for both pipes: each line goes to the channel unless the
    channel is nil. *)
Definition streamOutput (outputCh : OutputCh) (lines : list ComposeOutput.t)
    (p : Proc Host.t) : Proc Host.t :=
  foldl (fun p o => send_line outputCh (ComposeOutput.Line o) (ComposeOutput.Stream o) p)
        p lines.

(** [ComposeClient.runCompose]. *)
Definition runCompose (ctx : Context) (projectDir : string) (args : list string)
    (outputCh : OutputCh) (p0 : Proc Host.t)
  : (ComposeResult.t * option error) * Proc Host.t :=
  let p := mkProc (Host.record_call args (world p0)) (sent p0) (polls p0) in
  let h := world p in
  match findComposeFile h projectDir with
  | (_, Some e) => (failed e, p)
  | (composeFile, None) =>
      let cmdArgs := ["compose"; "-f"; composeFile] ++ args in
      match Host.command h (length (Host.calls h)) projectDir cmdArgs with
      | Host.StdoutPipeFails e => (failed e, p)
      | Host.StderrPipeFails e => (failed e, p)
      | Host.StartFails e => (failed e, p)
      | Host.Runs lines wait =>
          let p1 := streamOutput outputCh lines p in
          match wait with
          | Some e => ((ComposeResult.mk false ("Command failed: " +:+ e), None), p1)
          | None => ((ComposeResult.mk true "Operation completed successfully", None), p1)
          end
      end
  end.

Definition ret (r : (ComposeResult.t * option error) * Proc Host.t)
  : (option ComposeResult.t * option error) * Proc Host.t :=
  ((Some r.1.1, r.1.2), r.2).

Definition Up : composeOp Host.t := fun ctx projectDir outputCh p =>
  ret (runCompose ctx projectDir ["up"; "-d"; "--remove-orphans"] outputCh p).
Definition Down : composeOp Host.t := fun ctx projectDir outputCh p =>
  ret (runCompose ctx projectDir ["down"; "--remove-orphans"] outputCh p).
Definition Pull : composeOp Host.t := fun ctx projectDir outputCh p =>
  ret (runCompose ctx projectDir ["pull"] outputCh p).
Definition Restart : composeOp Host.t := fun ctx projectDir outputCh p =>
  ret (runCompose ctx projectDir ["restart"] outputCh p).

(** [ComposeClient.Update]: pull, then recreate with up. *)
Definition Update : composeOp Host.t := fun ctx projectDir outputCh p =>
  let '((result, err), p1) := runCompose ctx projectDir ["pull"] outputCh p in
  match err with
  | Some _ => ((Some result, err), p1)
  | None =>
      if negb (ComposeResult.Success result) then ((Some result, None), p1)
      else ret (runCompose ctx projectDir
                  ["up"; "-d"; "--remove-orphans"; "--force-recreate"] outputCh p1)
  end.

End ComposeClient.

Module Client.

(** [Client.ListContainers]: the listed containers converted with
    [containerToInfo], in order. *)
Fixpoint convert (l : list SDKContainer.t) : Outcome (list ContainerInfo.t) :=
  match l with
  | [] => Ok []
  | ctr :: rest =>
      bind (Docker.containerToInfo ctr) (fun info =>
      bind (convert rest) (fun infos => Ok (info :: infos)))
  end.

Definition ListContainers (h : Host.t) (projectName : string)
  : Outcome (list ContainerInfo.t * option error) :=
  match Host.containerList h projectName with
  | (_, Some e) => Ok ([], Some ("failed to list containers: " +:+ e))
  | (containers, None) => bind (convert containers) (fun result => Ok (result, None))
  end.

End Client.

#[export] Instance host_compose : ComposeExecutor Host.t :=
  {| Up := ComposeClient.Up;
     Down := ComposeClient.Down;
     Pull := ComposeClient.Pull;
     Restart := ComposeClient.Restart;
     Update := ComposeClient.Update |}.

#[export] Instance host_docker : DockerClient Host.t :=
  {| ListContainers := Client.ListContainers |}.

(** ** Package docker: the mock client and the mock compose client

    The mock's [time.Sleep] calls only delay it and are left out. *)

Module MockClient.

(** [MockClient]: the containers by ID and the subscribers' event channels
    (capacity 10 each, made by [WatchEvents]); [clock] is what [time.Now()]
    reads.  The closed-on-[Close] [eventCh] is never read and is left out. *)
Record t : Type := mk
  { containers : gmap string ContainerInfo.t;
    eventSubs : list (Chan ContainerEvent.t);
    clock : Z }.

(** [MockClient.ListContainers]; it never fails. *)
Definition ListContainers (m : t) (projectName : string)
  : Outcome (list ContainerInfo.t * option error) :=
  Ok (filter (fun c => String.eqb projectName "" = true
                       ∨ String.eqb (ContainerInfo.ProjectName c) projectName = true)
             (map_to_list (containers m)).*2,
      None).

(** [select { case ch <- event: default: }] on a subscriber's channel; a
    subscriber is taken off [eventSubs] before its channel is closed, so the
    send meets an open channel. *)
Definition offer (event : ContainerEvent.t) (ch : Chan ContainerEvent.t)
  : Chan ContainerEvent.t :=
  match send event ch with
  | Ok ch' => ch'
  | _ => ch
  end.

(** [MockClient.emitEvent]. *)
Definition emitEvent (c : ContainerInfo.t) (action : string) (m : t) : t :=
  let event :=
    ContainerEvent.mk (ContainerInfo.ID c) action (ContainerInfo.Name c)
      (ContainerInfo.Image c) (ContainerInfo.ProjectName c)
      (ContainerInfo.ServiceName c) (clock m) in
  mk (containers m) (offer event <$> eventSubs m) (clock m).

(** [MockClient.SetAllContainersState]. *)
Definition SetAllContainersState (projectName state status : string) (m : t) : t :=
  foldl (fun m '(cid, c) =>
           if String.eqb (ContainerInfo.ProjectName c) projectName then
             let c' := ContainerInfo.with_state state status c in
             let action := if String.eqb state "exited" then "stop" else "start" in
             emitEvent c' action (mk (<[cid := c']> (containers m)) (eventSubs m) (clock m))
           else m)
        m (map_to_list (containers m)).

(** [MockClient.findContainer]: the first container, in the order [range]
    visits the map, whose ID is [id] or starts with [id]; the key stands for
    the pointer it returns.  Go leaves the order unspecified; it matters only
    when [id] is a prefix of several IDs. *)
Definition findContainer (m : t) (id : string) : option (string * ContainerInfo.t) :=
  find (fun '(cid, _) => String.eqb cid id || String.prefix id cid)
       (map_to_list (containers m)).

(** [MockClient.GetContainer]: a copy of the container found, or an error. *)
Definition GetContainer (m : t) (id : string) : option ContainerInfo.t * option error :=
  match findContainer m id with
  | Some (_, c) => (Some c, None)
  | None => (None, Some ("container not found: " +:+ id))
  end.

(** The common body of [StartContainer], [StopContainer] and
    [RestartContainer]: the container found gets the state and status, and
    the event with the action is emitted. *)
Definition change_state (id state status action : string) (m : t) : t * option error :=
  match findContainer m id with
  | None => (m, Some ("container not found: " +:+ id))
  | Some (cid, c) =>
      let c' := ContainerInfo.with_state state status c in
      (emitEvent c' action (mk (<[cid := c']> (containers m)) (eventSubs m) (clock m)),
       None)
  end.

(** [MockClient.StartContainer]. *)
Definition StartContainer (id : string) (m : t) : t * option error :=
  change_state id "running" "Up Less than a second" "start" m.

(** [MockClient.StopContainer]; the timeout is not used. *)
Definition StopContainer (id : string) (timeout : Z) (m : t) : t * option error :=
  change_state id "exited" "Exited (0) Less than a second ago" "stop" m.

(** [MockClient.RestartContainer]; the timeout is not used. *)
Definition RestartContainer (id : string) (timeout : Z) (m : t) : t * option error :=
  change_state id "running" "Up Less than a second" "restart" m.

(** [MockClient.SetContainerState]. *)
Definition SetContainerState (id state status : string) (m : t) : t :=
  match findContainer m id with
  | None => m
  | Some (cid, c) =>
      let c' := ContainerInfo.with_state state status c in
      let action := if String.eqb state "exited" then "stop" else "start" in
      emitEvent c' action (mk (<[cid := c']> (containers m)) (eventSubs m) (clock m))
  end.

(** [MockClient.WatchEvents]: a new event channel of capacity 10 joins the
    subscribers (the error channel stays empty; the context of the watcher is
    never cancelled, so the channel is never taken off again). *)
Definition WatchEvents (m : t) : t :=
  mk (containers m) (eventSubs m ++ [make_chan 10]) (clock m).

End MockClient.

Module MockComposeClient.

Definition is_slash (a : ascii) : bool := Ascii.eqb a "/".

Fixpoint drop_slashes (l : list ascii) : list ascii :=
  match l with
  | a :: rest => if is_slash a then drop_slashes rest else l
  | [] => []
  end.

Fixpoint until_slash (l : list ascii) : list ascii :=
  match l with
  | a :: rest => if is_slash a then [] else a :: until_slash rest
  | [] => []
  end.

(** [filepath.Base]: the last element of the path, trailing slashes removed;
    ["."] for the empty path and ["/"] for a path of slashes only. *)
Definition Base (path : string) : string :=
  if String.eqb path "" then "."
  else
    match drop_slashes (rev (list_ascii_of_string path)) with
    | [] => "/"
    | l => string_of_list_ascii (rev (until_slash l))
    end.

(** [projectNameFromDir]. *)
Definition projectNameFromDir (dir : string) : string :=
  if String.eqb dir "" then "unknown" else Base dir.

(** [MockComposeClient.sendOutput]. *)
Definition sendOutput (outputCh : OutputCh) (line : string) (p : Proc MockClient.t)
  : Proc MockClient.t :=
  send_line outputCh line "stdout" p.

(** [MockComposeClient.getProjectServices]: the distinct non-empty service
    names of the project's containers (in the enumeration order of the set,
    where Go's is unspecified), or [["app"]] when there are none. *)
Definition getProjectServices (m : MockClient.t) (projectName : string) : list string :=
  let containers :=
    match MockClient.ListContainers m projectName with
    | Ok (l, _) => l
    | _ => []
    end in
  let services : gset string :=
    list_to_set (filter (fun s => s ≠ "") (ContainerInfo.ServiceName <$> containers)) in
  match elements services with
  | [] => ["app"]
  | result => result
  end.

(** The common shape of the loops over the services: poll the context, leave
    with [true] when it is done, else run the body for index [i]. *)
Fixpoint each_service (ctx : Context)
    (body : nat -> string -> Proc MockClient.t -> Proc MockClient.t)
    (i : nat) (services : list string) (p : Proc MockClient.t)
  : bool * Proc MockClient.t :=
  match services with
  | [] => (false, p)
  | svc :: rest =>
      let '(done, p1) := poll_done ctx p in
      if done then (true, p1)
      else each_service ctx body (S i) rest (body i svc p1)
  end.

(** The operations build their [ComposeResult] in place ([&ComposeResult{...}]),
    so the pointer they return is never nil. *)
Definition returns : Type := (ComposeResult.t * option error) * Proc MockClient.t.

Definition ret (r : returns)
  : (option ComposeResult.t * option error) * Proc MockClient.t :=
  ((Some r.1.1, r.1.2), r.2).

Definition cancelled (ctx : Context) (p : Proc MockClient.t) : returns :=
  ((ComposeResult.mk false "Operation cancelled", Some (ctx_err ctx)), p).

Definition succeeded (message : string) (p : Proc MockClient.t) : returns :=
  ((ComposeResult.mk true message, None), p).

Definition on_world (f : MockClient.t -> MockClient.t) (p : Proc MockClient.t)
  : Proc MockClient.t :=
  mkProc (f (world p)) (sent p) (polls p).

Definition running_line (i n : nat) : string :=
  "[+] Running " +:+ Sprint_d i +:+ "/" +:+ Sprint_d n.

Definition container_line (projectName svc what : string) : string :=
  " ✔ Container " +:+ projectName +:+ "-" +:+ svc +:+ "-1  " +:+ what.

Definition timed_line (projectName svc what : string) (tenths : nat) : string :=
  container_line projectName svc what +:+ "   " +:+ Sprint_tenths tenths +:+ "s".

(** [MockComposeClient.Up]. *)
Definition Up : composeOp MockClient.t := fun ctx projectDir outputCh p => ret (
  let projectName := projectNameFromDir projectDir in
  let services := getProjectServices (world p) projectName in
  let n := length services in
  let p := sendOutput outputCh (running_line 0 n) p in
  let '(done, p) :=
    each_service ctx (fun i svc p =>
      let p := sendOutput outputCh (container_line projectName svc "Starting") p in
      let p := sendOutput outputCh (timed_line projectName svc "Started" (3 + i * 2)) p in
      sendOutput outputCh (running_line (i + 1) n) p) 0 services p in
  if done then cancelled ctx p
  else
    succeeded "Started successfully"
      (on_world (MockClient.SetAllContainersState projectName "running"
                   "Up Less than a second") p)).

(** [MockComposeClient.Down]. *)
Definition Down : composeOp MockClient.t := fun ctx projectDir outputCh p => ret (
  let projectName := projectNameFromDir projectDir in
  let services := getProjectServices (world p) projectName in
  let n := length services in
  let p := sendOutput outputCh (running_line 0 n) p in
  let '(done, p) :=
    each_service ctx (fun i svc p =>
      let p := sendOutput outputCh (container_line projectName svc "Stopping") p in
      let p := sendOutput outputCh (timed_line projectName svc "Stopped" (4 + i * 2)) p in
      sendOutput outputCh (running_line (i + 1) n) p) 0 services p in
  if done then cancelled ctx p
  else
    let p := sendOutput outputCh (" ✔ Network " +:+ projectName +:+ "_default  Removed") p in
    succeeded "Stopped successfully"
      (on_world (MockClient.SetAllContainersState projectName "exited"
                   "Exited (0) Less than a second ago") p)).

(** The progress lines of one pull: 0, 25, 50, 75 and 100 percent. *)
Definition pull_progress (outputCh : OutputCh) (svc : string) (p : Proc MockClient.t)
  : Proc MockClient.t :=
  foldl (fun p pct =>
           sendOutput outputCh ("[+] " +:+ svc +:+ " Pulling  " +:+ Sprint_d pct +:+ "%") p)
        p [0; 25; 50; 75; 100]%nat.

(** The body of [MockComposeClient.Pull]. *)
Definition pull (ctx : Context) (projectDir : string) (outputCh : OutputCh)
    (p : Proc MockClient.t) : returns :=
  let projectName := projectNameFromDir projectDir in
  let services := getProjectServices (world p) projectName in
  let '(done, p) :=
    each_service ctx (fun _ svc p =>
      let p := sendOutput outputCh ("[+] Pulling " +:+ svc) p in
      let p := pull_progress outputCh svc p in
      sendOutput outputCh ("[+] " +:+ svc +:+ " Pulled") p) 0 services p in
  if done then cancelled ctx p
  else succeeded "Pulled successfully" p.

(** [MockComposeClient.Pull]. *)
Definition Pull : composeOp MockClient.t := fun ctx projectDir outputCh p =>
  ret (pull ctx projectDir outputCh p).

(** [MockComposeClient.Restart]. *)
Definition Restart : composeOp MockClient.t := fun ctx projectDir outputCh p => ret (
  let projectName := projectNameFromDir projectDir in
  let services := getProjectServices (world p) projectName in
  let p := sendOutput outputCh
             ("[+] Restarting " +:+ Sprint_d (length services) +:+ " services") p in
  let '(done, p) :=
    each_service ctx (fun i svc p =>
      let p := sendOutput outputCh (container_line projectName svc "Restarting") p in
      sendOutput outputCh (timed_line projectName svc "Restarted" (6 + i * 2)) p)
      0 services p in
  if done then cancelled ctx p
  else
    succeeded "Restarted successfully"
      (on_world (MockClient.SetAllContainersState projectName "running"
                   "Up Less than a second") p)).

(** The second half of [MockComposeClient.Update], after a successful pull. *)
Definition recreate (ctx : Context) (projectDir : string) (outputCh : OutputCh)
    (p : Proc MockClient.t) : returns :=
  let p := sendOutput outputCh "" p in
  let p := sendOutput outputCh "[+] Recreating containers..." p in
  let projectName := projectNameFromDir projectDir in
  let services := getProjectServices (world p) projectName in
  let '(done, p) :=
    each_service ctx (fun i svc p =>
      let p := sendOutput outputCh (container_line projectName svc "Recreating") p in
      sendOutput outputCh (timed_line projectName svc "Recreated" (4 + i * 2)) p)
      0 services p in
  if done then cancelled ctx p
  else
    succeeded "Updated successfully"
      (on_world (MockClient.SetAllContainersState projectName "running"
                   "Up Less than a second") p).

(** [MockComposeClient.Update]: [if err != nil || !result.Success] returns
    the pull's result and error as they are. *)
Definition Update : composeOp MockClient.t := fun ctx projectDir outputCh p =>
  let '((result, err), p1) := pull ctx projectDir outputCh p in
  if bool_decide (err ≠ None) || negb (ComposeResult.Success result)
  then ret ((result, err), p1)
  else ret (recreate ctx projectDir outputCh p1).

End MockComposeClient.

#[export] Instance mock_compose : ComposeExecutor MockClient.t :=
  {| Up := MockComposeClient.Up;
     Down := MockComposeClient.Down;
     Pull := MockComposeClient.Pull;
     Restart := MockComposeClient.Restart;
     Update := MockComposeClient.Update |}.

#[export] Instance mock_docker : DockerClient MockClient.t :=
  {| ListContainers := MockClient.ListContainers |}.

(** ** The running program: collaborators, scanner, broker *)

Module App.

(** What the handlers and the watcher share: the world behind the Docker and
    compose clients, the scanner, the broker, and the clock of [time.Now()].
    [published] records every event handed to [BroadcastJSON], whether the
    broker's intake took it or dropped it. *)
Record Sys (W : Type) : Type := mkSys
  { backend : W;
    scanner : Scanner.t;
    broker : SSE.Broker;
    now : Z;
    published : list SSE.Event }.
Arguments mkSys {W} backend scanner broker now published.
Arguments backend {W} s.
Arguments scanner {W} s.
Arguments broker {W} s.
Arguments now {W} s.
Arguments published {W} s.

Definition set_world {W : Type} (w : W) (s : Sys W) : Sys W :=
  mkSys w (scanner s) (broker s) (now s) (published s).
Definition set_scanner {W : Type} (sc : Scanner.t) (s : Sys W) : Sys W :=
  mkSys (backend s) sc (broker s) (now s) (published s).

(** A call [broker.BroadcastJSON(eventType, data)] whose error is dropped. *)
Definition publish {W : Type} (eventType : string) (data : SSE.Payload) (s : Sys W)
  : Outcome (Sys W) :=
  bind (SSE.BroadcastJSON eventType data (broker s)) (fun '(b, _) =>
  Ok (mkSys (backend s) (scanner s) b (now s)
            (published s ++ [SSE.mkEvent eventType data]))).

(** The loop [for _, c := range containers { if c.State == "running" { running++ } }]. *)
Definition count_running (containers : list ContainerInfo.t) : Z :=
  foldl (fun running c =>
           if String.eqb (ContainerInfo.State c) "running" then running + 1 else running)
        0 containers.

End App.

Import App.

(** ** Package handler: compose operations and the status update *)

Module Handler.

Section WithClients.
Context {W : Type} `{!DockerClient W}.

(** [ProjectHandler.updateProjectStatus].  The pointer comes from the
    scanner's table; a pointer to nothing is a nil dereference. *)
Definition updateProjectStatus (p : Scanner.ptr) (s : Sys W) : Outcome (Sys W) :=
  match Scanner.deref (scanner s) p with
  | None => Panic
  | Some proj =>
      bind (ListContainers (backend s) (Project.Name proj)) (fun '(containers, err) =>
      match err with
      | Some _ =>
          Ok (set_scanner (Scanner.assign p (Project.set_Status "unknown") (scanner s)) s)
      | None =>
          let running := count_running containers in
          let sc1 := Scanner.assign p (Project.set_Running running) (scanner s) in
          let status :=
            if running =? 0 then "stopped"
            else if running =? Project.Total proj then "running"
            else "partial" in
          let sc2 := Scanner.assign p (Project.set_Status status) sc1 in
          Ok (set_scanner
                (Scanner.UpdateProjectStatus (Project.ID proj) running status (now s) sc2) s)
      end)
  end.

(** The [project:status] payload read through a pointer. *)
Definition status_of (proj : Project.t) : SSE.Payload :=
  SSE.ProjectStatusData
    (ProjectStatusEvent.mk (Project.ID proj) (Project.Name proj) (Project.Status proj)
       (Project.Running proj) (Project.Total proj)).

(** The end of the operation goroutine: the project is looked up again, its
    status is updated, and a [project:status] event with the fields read
    through the pointer is published. *)
Definition reconcile_after (id : string) (s : Sys W) : Outcome (Sys W) :=
  match Scanner.GetProject id (scanner s) with
  | Some p =>
      bind (updateProjectStatus p s) (fun s =>
      match Scanner.deref (scanner s) p with
      | Some proj => publish "project:status" (status_of proj) s
      | None => Panic
      end)
  | None => Ok s
  end.

(** The goroutine of [runComposeOperation] that runs the operation: the call
    of [op] with a background context and the project's path, the
    [compose:complete] event, then the status update and its
    [project:status] event.  It returns with the lines [op] sent on
    [outputCh], which the deferred [close(outputCh)] leaves to the relay. *)
Definition run_operation (id operation : string) (op : composeOp W) (p : Scanner.ptr)
    (s : Sys W) : Outcome (Sys W * list ComposeOutput.t) :=
  match Scanner.deref (scanner s) p with
  | None => Panic
  | Some proj =>
      let '((result, err), proc) := op Background (Project.Path proj) true
                                       (mkProc (backend s) [] 0%nat) in
      let s := set_world (world proc) s in
      let success :=
        match err, result with
        | None, Some r => ComposeResult.Success r
        | _, _ => false
        end in
      let message :=
        match err, result with
        | Some e, _ => e
        | None, Some r =>
            if negb (ComposeResult.Success r) then ComposeResult.Message r
            else "Operation completed"
        | None, None => "Operation completed"
        end in
      bind (publish "compose:complete"
              (SSE.ComposeCompleteData
                 (ComposeCompleteEvent.mk id operation success message)) s) (fun s =>
      bind (reconcile_after id s) (fun s => Ok (s, sent proc)))
  end.

(** The relay goroutine: [for output := range outputCh], one
    [compose:output] event per line. *)
Fixpoint relay (id operation : string) (lines : list ComposeOutput.t) (s : Sys W)
  : Outcome (Sys W) :=
  match lines with
  | [] => Ok s
  | output :: rest =>
      bind (publish "compose:output"
              (SSE.ComposeOutputData
                 (ComposeOutputEvent.mk id operation (ComposeOutput.Line output)
                    (ComposeOutput.Stream output))) s)
           (relay id operation rest)
  end.

(** What the handler starts with [go]. *)
Inductive Goroutine : Type :=
| Relay (id operation : string)
| Operation (id operation : string) (op : composeOp W) (p : Scanner.ptr).

(** [writeJSON(w, status, map[string]string{...})]. *)
Record Response : Type := mkResponse
  { status : nat; body : gmap string string }.

Definition writeError (code : nat) (message : string) : Response :=
  mkResponse code {[ "error" := message ]}.

(** [ProjectHandler.runComposeOperation] for the URL parameter [id]: the
    response written, and the goroutines started on the way.  The handler
    itself does not call [op]. *)
Definition runComposeOperation (id operation : string) (op : composeOp W) (s : Sys W)
  : Response * list Goroutine :=
  match Scanner.GetProject id (scanner s) with
  | None => (writeError 404 "Project not found", [])
  | Some p =>
      (mkResponse 202
         (<["status" := "started"]>
            (<["operation" := operation]> {[ "projectId" := id ]})),
       [Relay id operation; Operation id operation op p])
  end.

(** One schedule of the goroutines of an operation: the operation runs, then
    the relay drains the channel.  What each goroutine publishes, and in
    which order among its own events, is the same on every schedule; module
    [Operation] below has the goroutines step by step, with the channel
    between them. *)
Definition go_all (gs : list Goroutine) (s : Sys W) : Outcome (Sys W) :=
  match gs with
  | [Relay id operation; Operation id' operation' op p] =>
      bind (run_operation id' operation' op p s) (fun '(s, lines) =>
      relay id operation lines s)
  | _ => Ok s
  end.

End WithClients.

(** The five handlers pass the executor's method of their name. *)
Section Handlers.
Context {W : Type} `{!DockerClient W} `{!ComposeExecutor W}.

Definition Up (id : string) (s : Sys W) := runComposeOperation id "up" Up s.
Definition Down (id : string) (s : Sys W) := runComposeOperation id "down" Down s.
Definition Pull (id : string) (s : Sys W) := runComposeOperation id "pull" Pull s.
Definition Restart (id : string) (s : Sys W) := runComposeOperation id "restart" Restart s.
Definition Update (id : string) (s : Sys W) := runComposeOperation id "update" Update s.

End Handlers.

End Handler.

(** ** Package handler: the goroutines of an operation, step by step *)

Module Operation.

Section WithClients.
Context {W : Type} `{!DockerClient W}.

(** Where the operation goroutine of [runComposeOperation] stands: [op] is
    running; [op] has returned and [compose:complete] is published; the
    status is updated and [project:status] is published; the goroutine has
    returned, which closes the channel. *)
Inductive Stage : Type := Running | Completed | Reported | Returned.

(** The two goroutines around [outputCh].  [op] is a sender of lines: it
    sends [pending] one by one with [outputCh <- ...], then returns
    [returns] and leaves the world [leaves]; the relay is the only other
    party, and it touches neither the world nor the scanner.  [in_hand] is
    the line the relay has received and not yet published. *)
Record t : Type := mk
  { sys : Sys W;
    stage : Stage;
    pending : list ComposeOutput.t;
    returns : option ComposeResult.t * option error;
    leaves : W;
    outputCh : Chan ComposeOutput.t;
    in_hand : option ComposeOutput.t;
    relay_returned : bool }.

Definition set_sys (s : Sys W) (r : t) : t :=
  mk s (stage r) (pending r) (returns r) (leaves r) (outputCh r) (in_hand r)
     (relay_returned r).
Definition set_stage (g : Stage) (r : t) : t :=
  mk (sys r) g (pending r) (returns r) (leaves r) (outputCh r) (in_hand r)
     (relay_returned r).
Definition set_pending (l : list ComposeOutput.t) (r : t) : t :=
  mk (sys r) (stage r) l (returns r) (leaves r) (outputCh r) (in_hand r)
     (relay_returned r).
Definition set_outputCh (ch : Chan ComposeOutput.t) (r : t) : t :=
  mk (sys r) (stage r) (pending r) (returns r) (leaves r) ch (in_hand r)
     (relay_returned r).
Definition set_in_hand (o : option ComposeOutput.t) (r : t) : t :=
  mk (sys r) (stage r) (pending r) (returns r) (leaves r) (outputCh r) o
     (relay_returned r).
Definition set_relay_returned (d : bool) (r : t) : t :=
  mk (sys r) (stage r) (pending r) (returns r) (leaves r) (outputCh r) (in_hand r) d.

(** The state in which [runComposeOperation] leaves its goroutines:
    [outputCh := make(chan docker.ComposeOutput, 100)], and [op] called with
    a background context and the project's path. *)
Definition start (op : composeOp W) (p : Scanner.ptr) (s : Sys W) : Outcome t :=
  match Scanner.deref (scanner s) p with
  | None => Panic
  | Some proj =>
      let '(returned, proc) := op Background (Project.Path proj) true
                                  (mkProc (backend s) [] 0%nat) in
      Ok (mk s Running (sent proc) returned (world proc) (make_chan 100) None false)
  end.

(** The payload of [compose:complete] for what [op] returned. *)
Definition completion (id operation : string)
    (returned : option ComposeResult.t * option error) : SSE.Payload :=
  let '(result, err) := returned in
  let success :=
    match err, result with
    | None, Some r => ComposeResult.Success r
    | _, _ => false
    end in
  let message :=
    match err, result with
    | Some e, _ => e
    | None, Some r =>
        if negb (ComposeResult.Success r) then ComposeResult.Message r
        else "Operation completed"
    | None, None => "Operation completed"
    end in
  SSE.ComposeCompleteData (ComposeCompleteEvent.mk id operation success message).

(** The payload of [compose:output] for a line. *)
Definition output (id operation : string) (o : ComposeOutput.t) : SSE.Payload :=
  SSE.ComposeOutputData
    (ComposeOutputEvent.mk id operation (ComposeOutput.Line o) (ComposeOutput.Stream o)).

Inductive Turn : Type := OperationTurn | RelayTurn.

(** The next step of one goroutine; [Blocked] when it cannot move: the
    sender at a full channel, the relay at an empty open one, a goroutine
    that has returned. *)
Definition step (id operation : string) (turn : Turn) (r : t) : Outcome t :=
  match turn with
  | OperationTurn =>
      match stage r with
      | Running =>
          match pending r with
          | o :: rest =>
              bind (send o (outputCh r)) (fun ch =>
              Ok (set_pending rest (set_outputCh ch r)))
          | [] =>
              bind (publish "compose:complete" (completion id operation (returns r))
                      (set_world (leaves r) (sys r))) (fun s =>
              Ok (set_stage Completed (set_sys s r)))
          end
      | Completed =>
          bind (Handler.reconcile_after id (sys r)) (fun s =>
          Ok (set_stage Reported (set_sys s r)))
      | Reported =>
          bind (close (outputCh r)) (fun ch =>
          Ok (set_stage Returned (set_outputCh ch r)))
      | Returned => Blocked
      end
  | RelayTurn =>
      if relay_returned r then Blocked else
      match in_hand r with
      | Some o =>
          bind (publish "compose:output" (output id operation o) (sys r)) (fun s =>
          Ok (set_in_hand None (set_sys s r)))
      | None =>
          bind (recv (outputCh r)) (fun '(got, ch) =>
          match got with
          | Some o => Ok (set_in_hand (Some o) (set_outputCh ch r))
          | None => Ok (set_relay_returned true r)
          end)
      end
  end.

(** A schedule: whose turn it is, turn after turn.  A goroutine that cannot
    move at its turn waits; a panic ends the run. *)
Fixpoint exec (id operation : string) (turns : list Turn) (r : t) : Outcome t :=
  match turns with
  | [] => Ok r
  | turn :: rest =>
      match step id operation turn r with
      | Ok r' => exec id operation rest r'
      | Blocked => exec id operation rest r
      | Panic => Panic
      end
  end.

(** Both goroutines have returned. *)
Definition finished (r : t) : bool :=
  match stage r with
  | Returned => relay_returned r
  | _ => false
  end.

End WithClients.

Arguments t W : clear implicits.

End Operation.

(** ** Package handler: the page handler's status update *)

Module PageHandler.

Section WithClient.
Context {W : Type} `{!DockerClient W}.

(** The body of the loop of [PageHandler.updateProjectStatuses] for one
    project: a failed query skips the project ([continue]); otherwise
    [Running] and [Status] are written through the pointer.  The scanner's
    [UpdateProjectStatus] is not called here. *)
Definition update_one (p : Scanner.ptr) (s : Sys W) : Outcome (Sys W) :=
  match Scanner.deref (scanner s) p with
  | None => Panic
  | Some proj =>
      bind (ListContainers (backend s) (Project.Name proj)) (fun '(containers, err) =>
      match err with
      | Some _ => Ok s
      | None =>
          let running := count_running containers in
          let sc1 := Scanner.assign p (Project.set_Running running) (scanner s) in
          let status :=
            if running =? 0 then "stopped"
            else if running =? Project.Total proj then "running"
            else "partial" in
          Ok (set_scanner (Scanner.assign p (Project.set_Status status) sc1) s)
      end)
  end.

(** [PageHandler.updateProjectStatuses]. *)
Fixpoint updateProjectStatuses (projects : list Scanner.ptr) (s : Sys W)
  : Outcome (Sys W) :=
  match projects with
  | [] => Ok s
  | p :: rest => bind (update_one p s) (updateProjectStatuses rest)
  end.

End WithClient.

End PageHandler.

(** ** Package main: the Docker event watcher *)

Module Main.

(** [mapActionToState]. *)
Definition mapActionToState (action : string) : string :=
  if String.eqb action "start" then "running"
  else if String.eqb action "stop" || String.eqb action "die" || String.eqb action "kill"
  then "exited"
  else if String.eqb action "pause" then "paused"
  else if String.eqb action "unpause" then "running"
  else if String.eqb action "restart" then "restarting"
  else action.

(** The [sse.ContainerStatusEvent] literal built in [watchDockerEvents] for a
    received event ([Health] keeps its zero value). *)
Definition containerStatusOf (event : ContainerEvent.t) : Outcome ContainerStatusEvent.t :=
  bind (slice_to 12 (ContainerEvent.ID event)) (fun id =>
  Ok (ContainerStatusEvent.mk id
        (ContainerEvent.Name event)
        (ContainerEvent.Action event)
        (mapActionToState (ContainerEvent.Action event))
        ""
        (ContainerEvent.Project event)
        (ContainerEvent.Service event))).

Section WithClient.
Context {W : Type} `{!DockerClient W}.

(** The search at the head of [updateProjectStatus]: the first project of
    [scanner.ListProjects()] whose [Name] is [projectName]. *)
Definition find_project (projectName : string) (sc : Scanner.t) : option Project.t :=
  find (fun p => match Scanner.deref sc p with
                 | Some proj => String.eqb (Project.Name proj) projectName
                 | None => false
                 end) (Scanner.ListProjects sc)
  ≫= Scanner.deref sc.

(** [updateProjectStatus] of package main. *)
Definition updateProjectStatus (projectName : string) (s : Sys W) : Outcome (Sys W) :=
  match find_project projectName (scanner s) with
  | None => Ok s
  | Some proj =>
      bind (ListContainers (backend s) projectName) (fun '(containers, err) =>
      match err with
      | Some _ => Ok s
      | None =>
          let running := count_running containers in
          let status :=
            if (0 <? running) && (running =? Project.Total proj) then "running"
            else if 0 <? running then "partial"
            else "stopped" in
          let s := set_scanner
                     (Scanner.UpdateProjectStatus (Project.ID proj) running status (now s)
                        (scanner s)) s in
          publish "project:status"
            (SSE.ProjectStatusData
               (ProjectStatusEvent.mk (Project.ID proj) (Project.Name proj) status running
                  (Project.Total proj))) s
      end)
  end.

(** What the watcher's [select] receives: an event or the close of the event
    channel, an error (possibly nil) or the close of the error channel. *)
Inductive Received : Type :=
| GotEvent (event : ContainerEvent.t)
| EventsClosed
| GotErr (err : option error)
| ErrsClosed.

(** What the watcher does besides publishing: subscribe
    ([client.WatchEvents]), log, sleep (in nanoseconds, as a
    [time.Duration]). *)
Inductive Effect : Type :=
| Subscribed
| Logged (line : string)
| Slept (d : Z).

Definition Second : Z := 1000000000.

Record Watcher : Type := mkWatcher { sys : Sys W; did : list Effect }.

Definition does (e : Effect) (w : Watcher) : Watcher :=
  mkWatcher (sys w) (did w ++ [e]).

(** One round of the inner [select]: the new state, and whether the round
    ended in [goto reconnect]. *)
Definition receive (r : Received) (w : Watcher) : Outcome (bool * Watcher) :=
  match r with
  | GotEvent event =>
      bind (containerStatusOf event) (fun data =>
      bind (publish "container:status" (SSE.ContainerStatusData data) (sys w)) (fun s =>
      bind (if negb (String.eqb (ContainerEvent.Project event) "")
            then updateProjectStatus (ContainerEvent.Project event) s
            else Ok s) (fun s =>
      Ok (false, mkWatcher s (did w)))))
  | EventsClosed => Ok (true, w)
  | GotErr None => Ok (false, w)
  | GotErr (Some e) => Ok (true, does (Logged ("Docker events error: " +:+ e)) w)
  | ErrsClosed => Ok (true, w)
  end.

(** The label [reconnect]: log, sleep five seconds, and back to the top of
    the outer loop, which subscribes again. *)
Definition reconnect (w : Watcher) : Watcher :=
  does Subscribed
    (does (Slept (5 * Second))
       (does (Logged "Docker events disconnected, reconnecting in 5s...") w)).

(** The loops of [watchDockerEvents] over what the feeds deliver.  The
    function has no return statement: after any finite [feed] the watcher is
    in a state [Ok w], waiting in its [select], unless a statement on the way
    panicked. *)
Fixpoint consume (feed : list Received) (w : Watcher) : Outcome Watcher :=
  match feed with
  | [] => Ok w
  | r :: rest =>
      bind (receive r w) (fun '(again, w1) =>
      consume rest (if again : bool then reconnect w1 else w1))
  end.

(** [watchDockerEvents]. *)
Definition watchDockerEvents (feed : list Received) (s : Sys W) : Outcome Watcher :=
  consume feed (does Subscribed (mkWatcher s [])).

End WithClient.

End Main.

(** ** Package project: fields of a compose file *)

Module Yaml.

(** What the YAML decoder stores in an [interface{}]: nil, a string, another
    scalar (a number or a boolean, kept with the text that [%v] prints for
    it), a list, or a map with string keys. *)
#[warnings="-register-all"]
Inductive value : Type :=
| Nil
| Str (s : string)
| Scalar (printed : string)
| Seq (items : list value)
| Map (entries : gmap string value).

End Yaml.

Module ProjectFile.

(** [isComposeFile]. *)
Definition isComposeFile (name : string) : bool :=
  existsb (fun cn => String.eqb name cn)
          ["compose.yaml"; "compose.yml"; "docker-compose.yaml"; "docker-compose.yml"].

(** [strings.SplitN(s, sep, 2)] for a one-byte separator: [s] cut at the
    first separator, or [s] alone when it has none. *)
Fixpoint cut (sep : ascii) (s : string) : option (string * string) :=
  match s with
  | EmptyString => None
  | String c rest =>
      if Ascii.eqb c sep then Some (EmptyString, rest)
      else match cut sep rest with
           | Some (before, after) => Some (String c before, after)
           | None => None
           end
  end.

Definition SplitN2 (s : string) (sep : ascii) : list string :=
  match cut sep s with
  | Some (before, after) => [before; after]
  | None => [s]
  end.

Section Fields.

(** [fmt.Sprintf("%v", v)]. *)
Variable Sprint_v : Yaml.value -> string.

(** The body of the loop over a list: [KEY=VALUE] or [KEY]; items that are
    not strings are skipped. *)
Definition add_item (result : gmap string string) (item : Yaml.value) : gmap string string :=
  match item with
  | Yaml.Str str =>
      match SplitN2 str "=" with
      | [key; val] => <[key := val]> result
      | parts => <[nth 0 parts "" := ""]> result
      end
  | _ => result
  end.

(** The value stored for a key of a map. *)
Definition text_of (v : Yaml.value) : string :=
  match v with
  | Yaml.Nil => ""
  | _ => Sprint_v v
  end.

(** [parseEnvironment]. *)
Definition parseEnvironment (env : Yaml.value) : gmap string string :=
  match env with
  | Yaml.Seq e => foldl add_item ∅ e
  | Yaml.Map e => text_of <$> e
  | _ => ∅
  end.

(** [parseLabels]. *)
Definition parseLabels (labels : Yaml.value) : gmap string string :=
  match labels with
  | Yaml.Seq l => foldl add_item ∅ l
  | Yaml.Map l => text_of <$> l
  | _ => ∅
  end.

End Fields.

End ProjectFile.

(** * Tables and sample data used in the statements below *)

(** The actions [mapActionToState] has a case for. *)
Definition action_table : list string :=
  ["start"; "stop"; "die"; "kill"; "pause"; "unpause"; "restart"].

(** Watch events and listed containers with a long and with a short raw ID. *)
Definition long_event : ContainerEvent.t :=
  ContainerEvent.mk "abc123def4567890" "start" "webapp-web-1" "nginx:alpine" "webapp" "web" 0.
Definition short_event : ContainerEvent.t :=
  ContainerEvent.mk "abc123" "start" "webapp-web-1" "nginx:alpine" "webapp" "web" 0.
Definition long_container : SDKContainer.t :=
  SDKContainer.mk "abc123def4567890" ["/webapp-web-1"] "nginx:alpine" "sha256:a1"
    "Up 2 hours (healthy)" "running" 0 [SDKPort.mk "0.0.0.0" 80%N 8080%N "tcp"]
    {[ "com.docker.compose.project" := "webapp" ]}.
Definition short_container : SDKContainer.t :=
  SDKContainer.mk "abc123" [] "nginx:alpine" "sha256:a1" "Exited" "exited" 0 [] ∅.

(** What "the result reports failure" means for a returned
    [(result, err)]: a non-nil error, or a result whose [Success] is false. *)
Definition reports_failure (r : option ComposeResult.t * option error) : Prop :=
  r.2 ≠ None \/ exists res, r.1 = Some res /\ ComposeResult.Success res = false.

(** A host without any compose file, and one whose [docker compose pull]
    exits with an error. *)
Definition bare_host : Host.t :=
  Host.mk (fun _ => false) (fun _ _ _ => Host.Runs [] None) (fun _ => ([], None)) [].
Definition failing_pull_host : Host.t :=
  Host.mk (fun path => String.eqb path "/srv/app/compose.yaml")
    (fun _ _ args =>
       if bool_decide (args = ["compose"; "-f"; "/srv/app/compose.yaml"; "pull"])
       then Host.Runs [ComposeOutput.mk "pull access denied" "stderr"] (Some "exit status 1")
       else Host.Runs [ComposeOutput.mk "Container app-1  Started" "stderr"] None)
    (fun _ => ([], None)) [].

(** The mock with two containers of project webapp, one of them running. *)
Definition sample_container (id name projectName serviceName state : string)
  : ContainerInfo.t :=
  ContainerInfo.mk id name "nginx:alpine" "sha256:a1b2c3d4e5f6" "Up 2 hours" state ""
    0 [] ∅ projectName serviceName "" "/projects/webapp".
Definition sample_mock : MockClient.t :=
  MockClient.mk
    (<["abc123def456" :=
         sample_container "abc123def456" "webapp-web-1" "webapp" "web" "running"]>
       {[ "bcd234efg567" :=
            sample_container "bcd234efg567" "webapp-api-1" "webapp" "api" "exited" ]})
    [make_chan 10] 0.
Definition cancelled_ctx : Context := mkContext (Some 1%nat) "context canceled".

(** What a non-blocking send makes of an open mailbox: the event is appended
    when there is room, and the mailbox is left as it is when it is full. *)
Definition deliver (e : SSE.Event) (ch : Chan SSE.Event) : Chan SSE.Event :=
  if (length (buf ch) <? cap ch)%nat then mkChan (buf ch ++ [e]) (cap ch) (closed ch)
  else ch.

(** A broker with two clients: the mailbox of [slow] (capacity 2) is full,
    that of [fast] is empty; one event waits in the intake. *)
Definition tick : SSE.Event :=
  SSE.mkEvent "project:status"
    (SSE.ProjectStatusData (ProjectStatusEvent.mk "p1" "webapp" "running" 3 3)).
Definition tock : SSE.Event :=
  SSE.mkEvent "compose:complete"
    (SSE.ComposeCompleteData (ComposeCompleteEvent.mk "p1" "up" true "Operation completed")).
Definition slow : SSE.Client := SSE.mkClient "1700000000000000001" 1%nat 0.
Definition fast : SSE.Client := SSE.mkClient "1700000000000000002" 2%nat 0.
Definition two_clients : SSE.Broker :=
  SSE.mkBroker
    (<[SSE.ID slow := slow]> {[ SSE.ID fast := fast ]})
    (mkChan [tock] 256 false)
    false
    (<[1%nat := mkChan [tick; tick] 2 false]> {[ 2%nat := make_chan 64 ]})
    false [].

(** A member counts as running when its [State] is ["running"]. *)
Definition is_running (c : ContainerInfo.t) : Prop := ContainerInfo.State c = "running".

#[export] Instance is_running_dec (c : ContainerInfo.t) : Decision (is_running c).
Proof. unfold is_running. apply _. Defined.

(** The status rule: stopped without a running member, running when the
    running members make up the total, partial otherwise. *)
Definition status_rule (running total : Z) : string :=
  if running =? 0 then "stopped"
  else if running =? total then "running"
  else "partial".

(** The reconciliation as the specification words it: running is the number
    of running members, total the number of members. *)
Definition spec_reconcile (members : list ContainerInfo.t) : Z * Z * string :=
  let running := Z.of_nat (length (filter is_running members)) in
  let total := Z.of_nat (length members) in
  (running, total, status_rule running total).

(** Project webapp as its compose file with [total] services declares it,
    and a system around a backend [w]. *)
Definition webapp (total : Z) : Project.t :=
  Project.mk "p1" "webapp" "/projects/webapp" "/projects/webapp/compose.yaml" []
    "running" 0 total 0 [] ∅.
Definition sample_sys {W : Type} (w : W) (total : Z) : Sys W :=
  mkSys w (Scanner.mk "/projects" {[ "p1" := webapp total ]}) SSE.NewBroker 1700000000 [].

(** The mock with five containers of project webapp, three of them running. *)
Definition five_members : MockClient.t :=
  MockClient.mk
    (<["a00000000001" := sample_container "a00000000001" "webapp-web-1" "webapp" "web" "running"]>
    (<["a00000000002" := sample_container "a00000000002" "webapp-api-1" "webapp" "api" "running"]>
    (<["a00000000003" := sample_container "a00000000003" "webapp-db-1" "webapp" "db" "running"]>
    (<["a00000000004" := sample_container "a00000000004" "webapp-cache-1" "webapp" "cache" "exited"]>
       {[ "a00000000005" :=
            sample_container "a00000000005" "webapp-worker-1" "webapp" "worker" "paused" ]}))))
    [] 0.

(** A host whose Docker API refuses to list containers. *)
Definition unreachable_host : Host.t :=
  Host.mk (fun _ => false) (fun _ _ _ => Host.StartFails "exec: docker: not found")
    (fun _ => ([], Some "Cannot connect to the Docker daemon")) [].

(** The terminal event of an operation is the one of type
    ["compose:complete"]. *)
Definition is_complete (e : SSE.Event) : Prop := SSE.Type_ e = "compose:complete".

#[export] Instance is_complete_dec (e : SSE.Event) : Decision (is_complete e).
Proof. unfold is_complete. apply _. Defined.


(** The feed items that end a subscription: a closed channel or a non-nil
    error. *)
Definition is_failure (r : Main.Received) : bool :=
  match r with
  | Main.EventsClosed | Main.ErrsClosed | Main.GotErr (Some _) => true
  | Main.GotEvent _ | Main.GotErr None => false
  end.

(** What the watcher does, besides publishing, on a feed item: nothing on an
    event or a nil error; on a failure (after the log line of an error) the
    reconnect line, a sleep of five seconds, and the next subscription. *)
Definition after_receive (r : Main.Received) : list Main.Effect :=
  let again :=
    [Main.Logged "Docker events disconnected, reconnecting in 5s...";
     Main.Slept 5000000000; Main.Subscribed] in
  match r with
  | Main.GotEvent _ | Main.GotErr None => []
  | Main.EventsClosed | Main.ErrsClosed => again
  | Main.GotErr (Some e) => Main.Logged ("Docker events error: " +:+ e) :: again
  end.

#[export] Instance effect_eq_dec : EqDecision Main.Effect.
Proof. solve_decision. Defined.

(** A watch event has a well-formed ID when [ID[:12]] is in range. *)
Definition long_id (r : Main.Received) : Prop :=
  match r with
  | Main.GotEvent event => (12 <= String.length (ContainerEvent.ID event))%nat
  | _ => True
  end.

(** Three failures in a row: the event channel closes, an error arrives, the
    error channel closes. *)
Definition three_failures : list Main.Received :=
  [Main.EventsClosed; Main.GotErr (Some "unexpected EOF"); Main.ErrsClosed].

(** The names [findComposeFile] tries, in its order of preference. *)
Definition compose_names : list string :=
  ["compose.yaml"; "compose.yml"; "docker-compose.yaml"; "docker-compose.yml"].

(** A host with two compose files in /srv/app, whose commands all succeed
    with one line of output. *)
Definition two_files_host : Host.t :=
  Host.mk (fun path => String.eqb path "/srv/app/docker-compose.yml"
                       || String.eqb path "/srv/app/compose.yml")
    (fun _ _ args => Host.Runs [ComposeOutput.mk (String.concat " " args) "stdout"] None)
    (fun _ => ([], None)) [].

(** What [SetAllContainersState] makes of one container. *)
Definition set_in_project (projectName state status : string) (c : ContainerInfo.t)
  : ContainerInfo.t :=
  if String.eqb (ContainerInfo.ProjectName c) projectName
  then ContainerInfo.with_state state status c else c.

(** [ServeHTTP] makes a channel for every client, so the mailbox of the
    client it sends is no mailbox of an entry the table holds under another
    ID. *)
Definition own_mailbox (c : SSE.Client) (b : SSE.Broker) : Prop :=
  forall id other, SSE.clients b !! id = Some other ->
    SSE.Events other = SSE.Events c -> id = SSE.ID c.

(** When a message to the [run] loop respects how [ServeHTTP] uses the
    broker: the client it registers or unregisters has a mailbox of its
    own, open when it registers.  Whether the table holds the client that
    unregisters, nothing under its ID, or another client under its ID, is
    left open. *)
Definition well_sent (k : SSE.Case) (b : SSE.Broker) : Prop :=
  match k with
  | SSE.Register c => SSE.mailbox_open (SSE.heap b) c = true /\ own_mailbox c b
  | SSE.Unregister c => own_mailbox c b
  | SSE.Intake | SSE.Done => True
  end.

(** Broadcasting the events of a list one after the other, the loop taking
    each from the intake before the next is sent. *)
Definition deliveries (events : list SSE.Event) : list SSE.Action :=
  flat_map (fun e => [SSE.CallBroadcast (SSE.Type_ e) (SSE.Data e); SSE.Loop SSE.Intake])
           events.

(** A second client with the ID of [slow] and a mailbox of its own. *)
Definition twin : SSE.Client := SSE.mkClient "1700000000000000001" 3%nat 0.

(** The broker of [two_clients] after [twin] has connected in the nanosecond
    of [slow]: the table holds [twin] under the ID of both, and the mailbox
    of [slow] is open outside the table. *)
Definition collided : SSE.Broker :=
  SSE.mkBroker
    (<[SSE.ID twin := twin]> {[ SSE.ID fast := fast ]})
    (mkChan [tock] 256 false)
    false
    (<[3%nat := make_chan 64]>
       (<[1%nat := mkChan [tick; tick] 2 false]> {[ 2%nat := make_chan 64 ]}))
    false [].

(** The name of the project behind a pointer, and the order of
    [ListProjects]: by name, bytewise. *)
Definition name_of (sc : Scanner.t) (p : Scanner.ptr) : string :=
  default "" (Project.Name <$> Scanner.deref sc p).

Definition by_name (sc : Scanner.t) (p q : Scanner.ptr) : Prop :=
  String.leb (name_of sc p) (name_of sc q) = true.

(** Two projects agree on everything the status update does not write. *)
Definition same_but_status (a b : Project.t) : Prop :=
  Project.set_Status "" (Project.set_Running 0 a)
  = Project.set_Status "" (Project.set_Running 0 b).

(** An event of a container whose project the scanner does not know. *)
Definition stray_event : ContainerEvent.t :=
  ContainerEvent.mk "fff000fff000ffff" "die" "tools-shell-1" "alpine:3" "tools" "shell" 0.

(** The event [emitEvent] builds for a container. *)
Definition event_of (action : string) (clock : Z) (c : ContainerInfo.t) : ContainerEvent.t :=
  ContainerEvent.mk (ContainerInfo.ID c) action (ContainerInfo.Name c)
    (ContainerInfo.Image c) (ContainerInfo.ProjectName c) (ContainerInfo.ServiceName c) clock.

(** Offering the events of a list to a subscriber, one after the other. *)
Definition offer_all (events : list ContainerEvent.t) (ch : Chan ContainerEvent.t)
  : Chan ContainerEvent.t :=
  foldl (fun ch e => MockClient.offer e ch) ch events.

(** A burst of broadcasts that the loop does not get to take in between. *)
Definition burst (events : list SSE.Event) : list SSE.Action :=
  (fun e => SSE.CallBroadcast (SSE.Type_ e) (SSE.Data e)) <$> events.

Definition drop_line (e : SSE.Event) : string :=
  "Broadcast channel full, dropping event: " +:+ SSE.Type_ e.

(** One entry of an [environment] or [labels] list, written [KEY=VALUE], or
    [KEY] alone. *)
Definition assignment (kv : string * option string) : Yaml.value :=
  Yaml.Str (match kv.2 with
            | Some v => kv.1 +:+ "=" +:+ v
            | None => kv.1
            end).

(** The entries of a list that are strings, in order. *)
Definition strings_of (items : list Yaml.value) : list Yaml.value :=
  List.filter (fun item => match item with Yaml.Str _ => true | _ => false end) items.

Definition has_equals (s : string) : bool :=
  existsb (fun c => Ascii.eqb c "=") (list_ascii_of_string s).

(** A host whose daemon lists the given containers for every project. *)
Definition listing_host (containers : list SDKContainer.t) : Host.t :=
  Host.mk (fun _ => false) (fun _ _ _ => Host.StartFails "exec: docker: not found")
    (fun _ => (containers, None)) [].

(** What the host did with one invocation of [runCompose]: the command did
    not run, with the error of the compose file search, of a pipe or of the
    start; or it ran, wrote its lines and ended with what [cmd.Wait]
    returned. *)
Inductive Invocation : Type :=
| NotRun (e : error)
| Ran (file : string) (lines : list ComposeOutput.t) (wait : option error).

(** What the host does with the invocation [runCompose dir args] in the
    world [w]: the compose file search, then the command. *)
Definition invocation (dir : string) (args : list string) (w : Host.t) : Invocation :=
  let h := Host.record_call args w in
  match ComposeClient.findComposeFile h dir with
  | (_, Some e) => NotRun e
  | (file, None) =>
      match Host.command h (length (Host.calls h)) dir (["compose"; "-f"; file] ++ args) with
      | Host.StdoutPipeFails e | Host.StderrPipeFails e | Host.StartFails e => NotRun e
      | Host.Runs lines wait => Ran file lines wait
      end
  end.

(** The events of the relay are those of type ["compose:output"]. *)
Definition is_output (e : SSE.Event) : Prop := SSE.Type_ e = "compose:output".

#[export] Instance is_output_dec (e : SSE.Event) : Decision (is_output e).
Proof. unfold is_output. apply _. Defined.

(** The lines on their way through the relay: in its hand, then in the
    channel, then those the operation has yet to send. *)
Definition in_flight {W : Type} (r : Operation.t W) : list ComposeOutput.t :=
  option_list (Operation.in_hand r) ++ buf (Operation.outputCh r) ++ Operation.pending r.

(** How many steps the two goroutines have left at most. *)
Definition steps_left {W : Type} (r : Operation.t W) : nat :=
  3 * length (Operation.pending r) + 2 * length (buf (Operation.outputCh r))
  + length (option_list (Operation.in_hand r))
  + match Operation.stage r with
    | Operation.Running => 3 | Operation.Completed => 2
    | Operation.Reported => 1 | Operation.Returned => 0
    end
  + (if Operation.relay_returned r then 0 else 1).

(** A schedule on which the operation moves whenever it can and the relay
    in between. *)
Definition alternate (n : nat) : list Operation.Turn :=
  concat (replicate n [Operation.OperationTurn; Operation.RelayTurn]).

(** What the goroutines of an operation have published when they stand at
    [r], having started in the system [s0] with the lines [lines] to send.
    The [compose:output] events are those of the lines the relay has passed
    on, one for each and in the order of the lines; the lines not passed on
    yet are in flight in that order.  The other events are those of the
    operation goroutine: none while [op] runs, [compose:complete] once it has
    sent all its lines and returned, and behind it [project:status] with the
    project as the scanner holds it then. *)
Definition in_order {W : Type} (id operation : string) (s0 : Sys W)
    (lines : list ComposeOutput.t) (r : Operation.t W) : Prop :=
  exists trace relayed,
    published (Operation.sys r) = published s0 ++ trace
    /\ relayed ++ in_flight r = lines
    /\ filter is_output trace
       = (fun o => SSE.mkEvent "compose:output" (Operation.output id operation o))
         <$> relayed
    /\ let complete :=
         SSE.mkEvent "compose:complete"
           (Operation.completion id operation (Operation.returns r)) in
       match Operation.stage r with
       | Operation.Running => filter (fun e => ~ is_output e) trace = []
       | Operation.Completed =>
           Operation.pending r = []
           /\ filter (fun e => ~ is_output e) trace = [complete]
       | Operation.Reported | Operation.Returned =>
           Operation.pending r = []
           /\ exists proj',
                Scanner.deref (scanner (Operation.sys r)) id = Some proj'
                /\ filter (fun e => ~ is_output e) trace
                   = [complete; SSE.mkEvent "project:status" (Handler.status_of proj')]
       end.

(** What else holds of the goroutines on their way: the intake of the broker
    is open, the channel is the one of capacity 100 and is closed exactly
    when the operation goroutine has returned, the relay returns only from
    the closed and empty channel, and the scanner is not written before the
    status update. *)
Definition on_course {W : Type} (s0 : Sys W)
    (returned : option ComposeResult.t * option error) (after : W)
    (r : Operation.t W) : Prop :=
  closed (SSE.broadcast (broker (Operation.sys r))) = false
  /\ Operation.returns r = returned /\ Operation.leaves r = after
  /\ cap (Operation.outputCh r) = 100%nat
  /\ closed (Operation.outputCh r)
     = match Operation.stage r with Operation.Returned => true | _ => false end
  /\ (Operation.relay_returned r = true ->
      Operation.stage r = Operation.Returned
      /\ Operation.in_hand r = None /\ buf (Operation.outputCh r) = [])
  /\ match Operation.stage r with
     | Operation.Running => scanner (Operation.sys r) = scanner s0
     | Operation.Completed =>
         scanner (Operation.sys r) = scanner s0 /\ backend (Operation.sys r) = after
     | _ => True
     end.

(** * Properties *)

(** ** Action normalisation *)

Section Normalisation.

Lemma eqb_false_of_ne (a b : string) : a ≠ b -> String.eqb a b = false.
Proof. intros Hne. apply String.eqb_neq. exact Hne. Qed.

(** C5.  [mapActionToState] sends start to running, stop, die and kill to
    exited, pause to paused, unpause to running and restart to restarting;
    every action outside this table comes back unchanged. *)
Theorem mapActionToState_table (action : string) :
  (action = "start" -> Main.mapActionToState action = "running")
  /\ (action ∈ ["stop"; "die"; "kill"] -> Main.mapActionToState action = "exited")
  /\ (action = "pause" -> Main.mapActionToState action = "paused")
  /\ (action = "unpause" -> Main.mapActionToState action = "running")
  /\ (action = "restart" -> Main.mapActionToState action = "restarting")
  /\ (action ∉ action_table -> Main.mapActionToState action = action).
Proof.
  repeat split.
  - intros ->. reflexivity.
  - intros Hin. repeat (apply elem_of_cons in Hin as [-> | Hin]; [reflexivity |]).
    by apply elem_of_nil in Hin.
  - intros ->. reflexivity.
  - intros ->. reflexivity.
  - intros ->. reflexivity.
  - intros Hout. unfold Main.mapActionToState, action_table in *.
    repeat (apply not_elem_of_cons in Hout as [Hne Hout];
            rewrite (eqb_false_of_ne _ _ Hne); clear Hne).
    reflexivity.
Qed.

Lemma mapActionToState_table_witness :
  Main.mapActionToState "die" = "exited"
  /\ Main.mapActionToState "destroy" = "destroy".
Proof.
  split.
  - apply (mapActionToState_table "die"). set_solver.
  - apply (mapActionToState_table "destroy"). unfold action_table.
    rewrite !not_elem_of_cons. repeat split; try discriminate. apply not_elem_of_nil.
Defined.

End Normalisation.

(** ** The 12-byte container ID *)

Section ShortID.

Lemma substring_prefix (n : nat) (s : string) :
  (n <= String.length s)%nat ->
  exists rest, s = String.substring 0 n s +:+ rest
               /\ String.length (String.substring 0 n s) = n.
Proof.
  revert s. induction n as [| n IH]; intros s Hlen.
  - exists s. destruct s; simpl; auto.
  - destruct s as [| a s]; simpl in *; [lia |].
    destruct (IH s) as [rest [Heq Hl]]; [lia |].
    exists rest. split; [| by rewrite Hl].
    unfold String.app. simpl. f_equal. exact Heq.
Qed.

Lemma slice_to_ok (n : nat) (s : string) :
  (n <= String.length s)%nat -> slice_to n s = Ok (String.substring 0 n s).
Proof.
  intros H. unfold slice_to. by apply Nat.leb_le in H as ->.
Qed.

Lemma slice_to_panic (n : nat) (s : string) :
  (String.length s < n)%nat -> slice_to n s = Panic.
Proof.
  intros H. unfold slice_to. by apply Nat.leb_gt in H as ->.
Qed.

(** C10.  The status event of a watch event and the [ContainerInfo] of a
    listed container carry as ID the first 12 bytes of the raw ID when the raw
    ID has at least 12 bytes; on a shorter raw ID the slice [ID[:12]] is out
    of range and the construction panics. *)
Theorem id_is_first_12_bytes (event : ContainerEvent.t) (ctr : SDKContainer.t) :
  ((12 <= String.length (ContainerEvent.ID event))%nat ->
     exists d rest,
       Main.containerStatusOf event = Ok d
       /\ ContainerEvent.ID event = ContainerStatusEvent.ID d +:+ rest
       /\ String.length (ContainerStatusEvent.ID d) = 12%nat)
  /\ ((String.length (ContainerEvent.ID event) < 12)%nat ->
        Main.containerStatusOf event = Panic)
  /\ ((12 <= String.length (SDKContainer.ID ctr))%nat ->
        exists info rest,
          Docker.containerToInfo ctr = Ok info
          /\ SDKContainer.ID ctr = ContainerInfo.ID info +:+ rest
          /\ String.length (ContainerInfo.ID info) = 12%nat)
  /\ ((String.length (SDKContainer.ID ctr) < 12)%nat ->
        Docker.containerToInfo ctr = Panic).
Proof.
  repeat split.
  - intros Hlen. destruct (substring_prefix 12 _ Hlen) as [rest [Heq Hl]].
    unfold Main.containerStatusOf. rewrite (slice_to_ok _ _ Hlen).
    eexists _, rest. split; [reflexivity |]. split; assumption.
  - intros Hlen. unfold Main.containerStatusOf. by rewrite (slice_to_panic _ _ Hlen).
  - intros Hlen. destruct (substring_prefix 12 _ Hlen) as [rest [Heq Hl]].
    unfold Docker.containerToInfo. rewrite (slice_to_ok _ _ Hlen).
    eexists _, rest. split; [reflexivity |]. split; assumption.
  - intros Hlen. unfold Docker.containerToInfo. by rewrite (slice_to_panic _ _ Hlen).
Qed.

Lemma id_is_first_12_bytes_witness :
  (exists d rest,
      Main.containerStatusOf long_event = Ok d
      /\ ContainerEvent.ID long_event = ContainerStatusEvent.ID d +:+ rest
      /\ String.length (ContainerStatusEvent.ID d) = 12%nat)
  /\ Main.containerStatusOf short_event = Panic
  /\ (exists info rest,
        Docker.containerToInfo long_container = Ok info
        /\ SDKContainer.ID long_container = ContainerInfo.ID info +:+ rest
        /\ String.length (ContainerInfo.ID info) = 12%nat)
  /\ Docker.containerToInfo short_container = Panic.
Proof.
  pose proof (id_is_first_12_bytes long_event long_container) as (H1 & _ & H3 & _).
  pose proof (id_is_first_12_bytes short_event short_container) as (_ & H2 & _ & H4).
  split; [apply H1; simpl; lia |].
  split; [apply H2; simpl; lia |].
  split; [apply H3; simpl; lia |].
  apply H4; simpl; lia.
Defined.

End ShortID.

(** ** The composite update *)

Section CompositeUpdate.

Lemma runCompose_calls ctx dir args ch (p : Proc Host.t) :
  Host.calls (world (ComposeClient.runCompose ctx dir args ch p).2)
  = Host.calls (world p) ++ [args].
Proof.
  assert (Hstream : forall lines (q : Proc Host.t),
             world (ComposeClient.streamOutput ch lines q) = world q).
  { unfold ComposeClient.streamOutput.
    induction lines as [| o lines IH]; intros q; simpl; [reflexivity |].
    rewrite IH. unfold send_line. by destruct ch. }
  unfold ComposeClient.runCompose.
  destruct (ComposeClient.findComposeFile _ dir) as [file [e |]]; simpl; [reflexivity |].
  destruct (Host.command _ _ _ _) as [e | e | e | lines [e |]]; simpl;
    rewrite ?Hstream; reflexivity.
Qed.

(** C1.  [Update] invokes the pull first.  When the pull reports failure,
    [Update] returns what the pull returned, result and error, and leaves
    what the pull left: on the host no command but the pull was invoked, and
    the mock sent no line and changed no container beyond the pull's. *)
Theorem update_aborts_when_pull_fails :
  (forall ctx dir ch (p : Proc Host.t),
      exists more,
        Host.calls (world (ComposeClient.Update ctx dir ch p).2)
        = Host.calls (world p) ++ ["pull"] :: more)
  /\ (forall ctx dir ch (p : Proc Host.t),
        reports_failure (ComposeClient.Pull ctx dir ch p).1 ->
        ComposeClient.Update ctx dir ch p = ComposeClient.Pull ctx dir ch p
        /\ Host.calls (world (ComposeClient.Update ctx dir ch p).2)
           = Host.calls (world p) ++ [["pull"]])
  /\ (forall ctx dir ch (p : Proc MockClient.t),
        exists more,
          sent (MockComposeClient.Update ctx dir ch p).2
          = sent (MockComposeClient.Pull ctx dir ch p).2 ++ more)
  /\ (forall ctx dir ch (p : Proc MockClient.t),
        reports_failure (MockComposeClient.Pull ctx dir ch p).1 ->
        MockComposeClient.Update ctx dir ch p = MockComposeClient.Pull ctx dir ch p).
Proof.
  split; [| split; [| split]].
  - intros ctx dir ch p. unfold ComposeClient.Update.
    pose proof (runCompose_calls ctx dir ["pull"] ch p) as Hpull.
    destruct (ComposeClient.runCompose ctx dir ["pull"] ch p) as [[result err] p1].
    simpl in Hpull.
    destruct err as [e |]; [exists []; exact Hpull |].
    destruct (ComposeResult.Success result); simpl; [| exists []; exact Hpull].
    eexists. unfold ComposeClient.ret. simpl. rewrite runCompose_calls, Hpull.
    rewrite <- app_assoc. reflexivity.
  - intros ctx dir ch p Hfail.
    pose proof (runCompose_calls ctx dir ["pull"] ch p) as Hpull.
    unfold ComposeClient.Update, ComposeClient.Pull, ComposeClient.ret in *.
    destruct (ComposeClient.runCompose ctx dir ["pull"] ch p) as [[result err] p1].
    simpl in *.
    destruct err as [e |]; [split; [reflexivity | exact Hpull] |].
    destruct Hfail as [Herr | [res [[= <-] Hres]]]; [done |].
    rewrite Hres. simpl. split; [reflexivity | exact Hpull].
  - intros ctx dir ch p. unfold MockComposeClient.Update, MockComposeClient.Pull.
    destruct (MockComposeClient.pull ctx dir ch p) as [[result err] p1]. simpl.
    destruct (bool_decide (err ≠ None) || negb (ComposeResult.Success result)); simpl.
    + exists []. by rewrite app_nil_r.
    + assert (Hsend : forall line (q : Proc MockClient.t),
                 exists l, sent (MockComposeClient.sendOutput ch line q) = sent q ++ l).
      { intros line q. unfold MockComposeClient.sendOutput, send_line.
        destruct ch; simpl; [by eexists | exists []; by rewrite app_nil_r]. }
      assert (Heach : forall body,
                 (forall i svc (q : Proc MockClient.t), exists l, sent (body i svc q) = sent q ++ l) ->
                 forall services i (q : Proc MockClient.t),
                   exists l, sent (MockComposeClient.each_service ctx body i services q).2
                             = sent q ++ l).
      { intros body Hbody services.
        induction services as [| svc services IH]; intros i q; simpl.
        - exists []. by rewrite app_nil_r.
        - destruct (done_at ctx (polls q)); simpl.
          + exists []. by rewrite app_nil_r.
          + destruct (Hbody i svc (mkProc (world q) (sent q) (S (polls q)))) as [l1 Hl1].
            destruct (IH (S i) (body i svc (mkProc (world q) (sent q) (S (polls q)))))
              as [l2 Hl2].
            exists (l1 ++ l2). rewrite Hl2, Hl1. simpl. by rewrite app_assoc. }
      unfold MockComposeClient.recreate.
      destruct (Hsend "" p1) as [l1 Hl1].
      set (q1 := MockComposeClient.sendOutput ch "" p1) in *.
      destruct (Hsend "[+] Recreating containers..." q1) as [l2 Hl2].
      set (q2 := MockComposeClient.sendOutput ch "[+] Recreating containers..." q1) in *.
      match goal with
      | |- context [MockComposeClient.each_service ctx ?body 0%nat ?svcs q2] =>
          destruct (Heach body) with (services := svcs) (i := 0%nat) (q := q2) as [l3 Hl3];
          [| destruct (MockComposeClient.each_service ctx body 0%nat svcs q2) as [done q3]]
      end.
      { intros i svc q.
        destruct (Hsend (MockComposeClient.container_line
                           (MockComposeClient.projectNameFromDir dir) svc "Recreating") q)
          as [la Hla].
        match goal with
        | |- context [MockComposeClient.sendOutput ch ?line (MockComposeClient.sendOutput ch ?l0 q)] =>
            destruct (Hsend line (MockComposeClient.sendOutput ch l0 q)) as [lb Hlb]
        end.
        exists (la ++ lb). rewrite Hlb, Hla. by rewrite app_assoc. }
      simpl in Hl3.
      exists (l1 ++ l2 ++ l3).
      destruct done; simpl; rewrite Hl3, Hl2, Hl1; by rewrite <- !app_assoc.
  - intros ctx dir ch p Hfail.
    unfold MockComposeClient.Update, MockComposeClient.Pull, MockComposeClient.ret in *.
    destruct (MockComposeClient.pull ctx dir ch p) as [[result err] p1]. simpl in *.
    destruct Hfail as [Herr | [res [[= <-] Hres]]].
    + rewrite (bool_decide_eq_true_2 _ Herr). reflexivity.
    + rewrite Hres, orb_true_r. reflexivity.
Qed.

Lemma update_aborts_when_pull_fails_witness :
  reports_failure
    (ComposeClient.Pull Background "/srv/app" true (mkProc failing_pull_host [] 0%nat)).1
  /\ ComposeClient.Update Background "/srv/app" true (mkProc failing_pull_host [] 0%nat)
     = ComposeClient.Pull Background "/srv/app" true (mkProc failing_pull_host [] 0%nat)
  /\ Host.calls
       (world (ComposeClient.Update Background "/srv/app" true
                 (mkProc failing_pull_host [] 0%nat)).2)
     = [["pull"]]
  /\ reports_failure
       (MockComposeClient.Pull cancelled_ctx "/projects/webapp" true
          (mkProc sample_mock [] 0%nat)).1
  /\ MockComposeClient.Update cancelled_ctx "/projects/webapp" true
       (mkProc sample_mock [] 0%nat)
     = MockComposeClient.Pull cancelled_ctx "/projects/webapp" true
         (mkProc sample_mock [] 0%nat).
Proof.
  destruct update_aborts_when_pull_fails as (_ & Hhost & _ & Hmock).
  assert (H1 : reports_failure
                 (ComposeClient.Pull Background "/srv/app" true
                    (mkProc failing_pull_host [] 0%nat)).1).
  { right. eexists. split; [vm_compute; reflexivity | reflexivity]. }
  assert (H2 : reports_failure
                 (MockComposeClient.Pull cancelled_ctx "/projects/webapp" true
                    (mkProc sample_mock [] 0%nat)).1).
  { left. vm_compute. discriminate. }
  split; [exact H1 |].
  split; [exact (proj1 (Hhost _ _ _ _ H1)) |].
  split; [exact (proj2 (Hhost _ _ _ _ H1)) |].
  split; [exact H2 |].
  exact (Hmock _ _ _ _ H2).
Defined.

(** On the host whose pull exits with an error, [Update] ends after the pull:
    its result is the pull's, and the recreate command never ran. *)
Example update_on_failing_pull :
  let r := ComposeClient.Update Background "/srv/app" true
             (mkProc failing_pull_host [] 0%nat) in
  r.1 = (Some (ComposeResult.mk false "Command failed: exit status 1"), None)
  /\ sent r.2 = [ComposeOutput.mk "pull access denied" "stderr"]
  /\ Host.calls (world r.2) = [["pull"]].
Proof. vm_compute. repeat split. Qed.

(** With a context cancelled before the second service, the mock's [Update]
    ends in the pull: no recreate line is sent and no container changes. *)
Example mock_update_on_cancelled_pull :
  let r := MockComposeClient.Update cancelled_ctx "/projects/webapp" true
             (mkProc sample_mock [] 0%nat) in
  r.1 = (Some (ComposeResult.mk false "Operation cancelled"), Some "context canceled")
  /\ length (sent r.2) = 7%nat
  /\ world r.2 = sample_mock.
Proof. vm_compute. repeat split. Qed.

End CompositeUpdate.

(** ** The broker *)

Section BrokerFacts.

Import SSE.

Implicit Types (b : Broker) (c : Client) (e : Event) (h : gmap chan_ref (Chan Event)).

Lemma elem_of_range_clients b c :
  c ∈ range_clients b <-> exists id, clients b !! id = Some c.
Proof.
  unfold range_clients. rewrite list_elem_of_fmap. split.
  - intros [[id c'] [-> Hin]]. exists id. by apply elem_of_map_to_list in Hin.
  - intros [id Hid]. exists (id, c). split; [reflexivity |].
    by apply elem_of_map_to_list.
Qed.

Lemma mailboxes_ok_spec b :
  mailboxes_ok b = true ->
  Forall (fun c => mailbox_open (heap b) c = true) (range_clients b)
  /\ NoDup (Events <$> range_clients b).
Proof.
  unfold mailboxes_ok. intros H. apply andb_true_iff in H as [Hall Hnd].
  split.
  - apply Forall_forall. intros c Hc. rewrite forallb_forall in Hall.
    apply Hall. by apply list_elem_of_In.
  - by apply bool_decide_eq_true in Hnd.
Qed.

Lemma mailbox_open_spec h c :
  mailbox_open h c = true <-> exists ch, h !! Events c = Some ch /\ closed ch = false.
Proof.
  unfold mailbox_open. destruct (h !! Events c) as [ch |]; split.
  - intros H. exists ch. split; [reflexivity |]. by destruct (closed ch).
  - intros [ch' [[= <-] ->]]. reflexivity.
  - discriminate.
  - intros [ch' [[=] _]].
Qed.

Lemma mailbox_open_insert_ne h c r ch :
  Events c ≠ r -> mailbox_open (<[r := ch]> h) c = mailbox_open h c.
Proof. intros Hne. unfold mailbox_open. by rewrite lookup_insert_ne. Qed.

(** The fan-out over any list of clients with open, pairwise distinct
    mailboxes: it neither blocks nor panics, every mailbox of the list gets
    the event or is left full, and nothing else changes but the log. *)
Lemma fanout_spec e (l : list Client) : forall b,
  Forall (fun c => mailbox_open (heap b) c = true) l ->
  NoDup (Events <$> l) ->
  exists b',
    fanout e l b = Ok b'
    /\ clients b' = clients b /\ broadcast b' = broadcast b
    /\ ctx_done b' = ctx_done b /\ returned b' = returned b
    /\ (forall c ch, c ∈ l -> heap b !! Events c = Some ch ->
          heap b' !! Events c = Some (deliver e ch))
    /\ (forall r, r ∉ Events <$> l -> heap b' !! r = heap b !! r).
Proof.
  induction l as [| c l IH]; intros b Hopen Hnd.
  - exists b. simpl. repeat split; try reflexivity.
    intros c ch Hc. by apply elem_of_nil in Hc.
  - apply Forall_cons in Hopen as [Hc Hl].
    rewrite fmap_cons in Hnd. apply NoDup_cons in Hnd as [Hfresh Hnd].
    apply mailbox_open_spec in Hc as [ch0 [Hch0 Hopen0]].
    assert (Hstep : exists b1,
               offer e c b = Ok b1
               /\ clients b1 = clients b /\ broadcast b1 = broadcast b
               /\ ctx_done b1 = ctx_done b /\ returned b1 = returned b
               /\ heap b1 !! Events c = Some (deliver e ch0)
               /\ (forall r, r ≠ Events c -> heap b1 !! r = heap b !! r)).
    { unfold offer, heap_send, send, deliver. rewrite Hch0, Hopen0. simpl.
      destruct (length (buf ch0) <? cap ch0)%nat; simpl.
      - eexists. split; [reflexivity |]. simpl. repeat split; try reflexivity.
        + by rewrite lookup_insert_eq.
        + intros r Hr. by rewrite lookup_insert_ne.
      - eexists. split; [reflexivity |]. simpl. repeat split; try reflexivity.
        exact Hch0. }
    destruct Hstep as (b1 & Hoffer & Hcl1 & Hbr1 & Hcd1 & Hret1 & Hself & Hoth).
    destruct (IH b1) as (b' & Hfan & Hcl & Hbr & Hcd & Hret & Hin & Hout).
    { eapply Forall_impl; [| intros c' Hc'; exact Hc'].
      apply Forall_forall. intros c' Hc'.
      rewrite Forall_forall in Hl. specialize (Hl c' Hc').
      apply mailbox_open_spec in Hl as [ch' [Hch' Hop']].
      apply mailbox_open_spec. exists ch'. split; [| exact Hop'].
      rewrite Hoth; [exact Hch' |].
      intros Heq. apply Hfresh. rewrite <- Heq. apply list_elem_of_fmap. eauto. }
    { exact Hnd. }
    exists b'. simpl. rewrite Hoffer. simpl.
    split; [exact Hfan |].
    split; [congruence |]. split; [congruence |].
    split; [congruence |]. split; [congruence |].
    split.
    + intros c' ch' Hc' Hch'. apply elem_of_cons in Hc' as [-> | Hc'].
      * rewrite Hout; [| exact Hfresh]. rewrite Hself. congruence.
      * apply Hin; [exact Hc' |]. rewrite Hoth; [exact Hch' |].
        intros Heq. apply Hfresh. rewrite <- Heq. apply list_elem_of_fmap. eauto.
    + intros r Hr. rewrite ?fmap_cons in Hr. apply not_elem_of_cons in Hr as [Hne Hr].
      rewrite Hout; [| exact Hr]. by apply Hoth.
Qed.

(** The shutdown loop over any such list: every mailbox of the list is
    closed, once, and nothing else changes. *)
Lemma close_all_spec (l : list Client) : forall b,
  Forall (fun c => mailbox_open (heap b) c = true) l ->
  NoDup (Events <$> l) ->
  exists b',
    close_all l b = Ok b'
    /\ clients b' = clients b /\ broadcast b' = broadcast b
    /\ ctx_done b' = ctx_done b /\ returned b' = returned b
    /\ logged b' = logged b
    /\ (forall c ch, c ∈ l -> heap b !! Events c = Some ch ->
          heap b' !! Events c = Some (mkChan (buf ch) (cap ch) true))
    /\ (forall r, r ∉ Events <$> l -> heap b' !! r = heap b !! r).
Proof.
  induction l as [| c l IH]; intros b Hopen Hnd.
  - exists b. simpl. repeat split; try reflexivity.
    intros c ch Hc. by apply elem_of_nil in Hc.
  - apply Forall_cons in Hopen as [Hc Hl].
    rewrite fmap_cons in Hnd. apply NoDup_cons in Hnd as [Hfresh Hnd].
    apply mailbox_open_spec in Hc as [ch0 [Hch0 Hopen0]].
    simpl. unfold heap_close, close. rewrite Hch0, Hopen0. simpl.
    set (b1 := set_heap (<[Events c := mkChan (buf ch0) (cap ch0) true]> (heap b)) b).
    destruct (IH b1) as (b' & Hcls & Hcl & Hbr & Hcd & Hret & Hlog & Hin & Hout).
    { apply Forall_forall. intros c' Hc'.
      rewrite Forall_forall in Hl. specialize (Hl c' Hc').
      unfold b1. simpl. rewrite mailbox_open_insert_ne; [exact Hl |].
      intros Heq. apply Hfresh. rewrite <- Heq. apply list_elem_of_fmap. eauto. }
    { exact Hnd. }
    exists b'. split; [exact Hcls |].
    split; [exact Hcl |]. split; [exact Hbr |]. split; [exact Hcd |].
    split; [exact Hret |]. split; [exact Hlog |].
    split.
    + intros c' ch' Hc' Hch'. apply elem_of_cons in Hc' as [-> | Hc'].
      * rewrite Hout; [| exact Hfresh]. unfold b1. simpl.
        rewrite lookup_insert_eq. congruence.
      * apply Hin; [exact Hc' |]. unfold b1. simpl. rewrite lookup_insert_ne; [exact Hch' |].
        intros Heq. apply Hfresh. rewrite Heq. apply list_elem_of_fmap. eauto.
    + intros r Hr. rewrite ?fmap_cons in Hr. apply not_elem_of_cons in Hr as [Hne Hr].
      rewrite Hout; [| exact Hr]. unfold b1. simpl. by rewrite lookup_insert_ne.
Qed.

(** The order in which [range] visits the clients does not matter for the
    mailboxes: two orders of the same clients leave the same heap. *)
Lemma fanout_order_irrelevant e (l1 l2 : list Client) b :
  l1 ≡ₚ l2 ->
  Forall (fun c => mailbox_open (heap b) c = true) l1 ->
  NoDup (Events <$> l1) ->
  exists b1 b2,
    fanout e l1 b = Ok b1 /\ fanout e l2 b = Ok b2
    /\ heap b1 = heap b2 /\ clients b1 = clients b2 /\ broadcast b1 = broadcast b2.
Proof.
  intros Hperm Hopen Hnd.
  destruct (fanout_spec e l1 b Hopen Hnd) as (b1 & H1 & Hc1 & Hq1 & _ & _ & Hin1 & Hout1).
  destruct (fanout_spec e l2 b) as (b2 & H2 & Hc2 & Hq2 & _ & _ & Hin2 & Hout2).
  { by rewrite <- Hperm. }
  { by rewrite <- Hperm. }
  exists b1, b2. repeat (split; [congruence |]). split; [| split; congruence].
  apply map_eq. intros r.
  destruct (decide (r ∈ Events <$> l1)) as [Hr | Hr].
  - apply list_elem_of_fmap in Hr as [c [-> Hc]].
    rewrite Forall_forall in Hopen.
    destruct (proj1 (mailbox_open_spec _ _) (Hopen c Hc)) as [ch [Hch _]].
    rewrite (Hin1 c ch Hc Hch). symmetry. apply Hin2; [by rewrite <- Hperm | exact Hch].
  - rewrite Hout1 by exact Hr. symmetry. apply Hout2. by rewrite <- Hperm.
Qed.

Lemma close_all_order_irrelevant (l1 l2 : list Client) b :
  l1 ≡ₚ l2 ->
  Forall (fun c => mailbox_open (heap b) c = true) l1 ->
  NoDup (Events <$> l1) ->
  exists b1 b2,
    close_all l1 b = Ok b1 /\ close_all l2 b = Ok b2
    /\ heap b1 = heap b2 /\ clients b1 = clients b2 /\ logged b1 = logged b2.
Proof.
  intros Hperm Hopen Hnd.
  destruct (close_all_spec l1 b Hopen Hnd)
    as (b1 & H1 & Hc1 & _ & _ & _ & Hl1 & Hin1 & Hout1).
  destruct (close_all_spec l2 b) as (b2 & H2 & Hc2 & _ & _ & _ & Hl2 & Hin2 & Hout2).
  { by rewrite <- Hperm. }
  { by rewrite <- Hperm. }
  exists b1, b2. repeat (split; [congruence |]). split; [| split; congruence].
  apply map_eq. intros r.
  destruct (decide (r ∈ Events <$> l1)) as [Hr | Hr].
  - apply list_elem_of_fmap in Hr as [c [-> Hc]].
    rewrite Forall_forall in Hopen.
    destruct (proj1 (mailbox_open_spec _ _) (Hopen c Hc)) as [ch [Hch _]].
    rewrite (Hin1 c ch Hc Hch). symmetry. apply Hin2; [by rewrite <- Hperm | exact Hch].
  - rewrite Hout1 by exact Hr. symmetry. apply Hout2. by rewrite <- Hperm.
Qed.

(** The invariant holds at the start. *)
Lemma NewBroker_mailboxes_ok : mailboxes_ok NewBroker = true.
Proof. reflexivity. Qed.

(** The check [mailboxes_ok] says what it should: open mailboxes, and no
    mailbox shared between two entries of the table. *)
Lemma mailboxes_ok_iff (b : Broker) :
  mailboxes_ok b = true <->
  (forall id c, clients b !! id = Some c -> mailbox_open (heap b) c = true)
  /\ (forall id1 id2 c1 c2,
        clients b !! id1 = Some c1 -> clients b !! id2 = Some c2 ->
        Events c1 = Events c2 -> id1 = id2).
Proof.
  unfold mailboxes_ok, range_clients. rewrite andb_true_iff, bool_decide_eq_true.
  rewrite forallb_forall. rewrite <- list_fmap_compose.
  split.
  - intros [Hopen Hnd]. split.
    + intros id c Hc. apply Hopen. apply list_elem_of_In.
      apply list_elem_of_fmap. exists (id, c). split; [done |].
      by apply elem_of_map_to_list.
    + intros id1 id2 c1 c2 H1 H2 Heq.
      apply elem_of_map_to_list in H1, H2.
      apply list_elem_of_lookup in H1 as [i Hi], H2 as [j Hj].
      assert (i = j) as ->.
      { eapply NoDup_lookup; [exact Hnd | |].
        - rewrite list_lookup_fmap, Hi. reflexivity.
        - rewrite list_lookup_fmap, Hj. simpl. by rewrite Heq. }
      congruence.
  - intros [Hopen Hinj]. split.
    + intros c Hc. apply list_elem_of_In in Hc.
      apply list_elem_of_fmap in Hc as [[id c'] [-> Hin]].
      apply elem_of_map_to_list in Hin. by apply (Hopen id).
    + apply NoDup_fmap_2_strong; [| apply NoDup_map_to_list].
      intros [id1 c1] [id2 c2] H1 H2 Heq. simpl in Heq.
      apply elem_of_map_to_list in H1, H2.
      assert (id1 = id2) as -> by (by eapply Hinj).
      congruence.
Qed.

(** [ServeHTTP] registers a client whose mailbox is a channel of its own
    (a fresh reference): the client is in the table afterwards, and the
    invariant still holds, also when its ID replaces an entry. *)
Lemma serve_register_keeps_mailboxes_ok (clientID : string) (now : Z) (r : chan_ref) (b : Broker) :
  returned b = false ->
  mailboxes_ok b = true ->
  heap b !! r = None ->
  exists c b',
    serve_register clientID now r b = Ok (c, b')
    /\ clients b' !! clientID = Some c
    /\ mailboxes_ok b' = true.
Proof.
  intros Hrun Hok Hfresh. unfold serve_register, new_client, run. simpl. rewrite Hrun.
  simpl. eexists _, _. split; [reflexivity |]. simpl.
  split; [by rewrite lookup_insert_eq |].
  apply mailboxes_ok_iff in Hok as [Hopen Hinj]. apply mailboxes_ok_iff. simpl.
  assert (Hold : forall id c, clients b !! id = Some c -> Events c ≠ r).
  { intros id c Hc Heq. specialize (Hopen id c Hc).
    unfold mailbox_open in Hopen. by rewrite Heq, Hfresh in Hopen. }
  split.
  - intros id c Hc. apply lookup_insert_Some in Hc as [[<- <-] | [Hne Hc]].
    + unfold mailbox_open. simpl. by rewrite lookup_insert_eq.
    + rewrite mailbox_open_insert_ne; [by apply (Hopen id) | by apply (Hold id)].
  - intros id1 id2 c1 c2 H1 H2 Heq.
    apply lookup_insert_Some in H1 as [[<- <-] | [Hne1 H1]];
      apply lookup_insert_Some in H2 as [[<- <-] | [Hne2 H2]]; simpl in *.
    + reflexivity.
    + exfalso. by apply (Hold _ _ H2).
    + exfalso. by apply (Hold _ _ H1).
    + by eapply Hinj.
Qed.

End BrokerFacts.

Section BrokerClaims.

Import SSE.

Implicit Types (b : Broker) (c : Client) (e : Event).

(** C4.  When the loop takes an event from the intake, the send to each
    registered client's mailbox does not block: a mailbox with room receives
    the event at its end, a full mailbox is left as it is (the event is
    dropped for that client alone), and the step ends normally.  [Broadcast]
    itself never blocks and returns no error: it puts the event into the
    intake when the intake has room and otherwise drops it with a log line. *)
Theorem broadcast_drops_only_for_full_mailboxes b event rest :
  returned b = false ->
  buf (broadcast b) = event :: rest ->
  mailboxes_ok b = true ->
  closed (broadcast b) = false ->
  (exists b',
      run Intake b = Ok b'
      /\ clients b' = clients b
      /\ buf (broadcast b') = rest
      /\ (forall id c ch,
            clients b !! id = Some c -> heap b !! Events c = Some ch ->
            exists ch',
              heap b' !! Events c = Some ch'
              /\ cap ch' = cap ch /\ closed ch' = false
              /\ ((length (buf ch) < cap ch)%nat -> buf ch' = buf ch ++ [event])
              /\ ((cap ch <= length (buf ch))%nat -> buf ch' = buf ch)))
  /\ (forall eventType data,
        Broadcast eventType data b
        = Ok (if (length (buf (broadcast b)) <? cap (broadcast b))%nat
              then set_broadcast
                     (mkChan (buf (broadcast b) ++ [mkEvent eventType data])
                        (cap (broadcast b)) false) b
              else log_Printf ("Broadcast channel full, dropping event: " +:+ eventType) b)).
Proof.
  intros Hrun Hbuf Hok Hintake. split.
  - apply mailboxes_ok_spec in Hok as [Hopen Hnd].
    set (b1 := set_broadcast (mkChan rest (cap (broadcast b)) (closed (broadcast b))) b).
    destruct (fanout_spec event (range_clients b1) b1)
      as (b' & Hfan & Hcl & Hbr & _ & _ & Hin & _); [exact Hopen | exact Hnd |].
    exists b'. unfold run, recv. rewrite Hrun, Hbuf. simpl. fold b1.
    split; [exact Hfan |]. split; [exact Hcl |].
    split; [by rewrite Hbr |].
    intros id c ch Hc Hch.
    assert (Hmem : c ∈ range_clients b1).
    { apply elem_of_range_clients. exists id. exact Hc. }
    rewrite Forall_forall in Hopen. specialize (Hopen c Hmem).
    apply mailbox_open_spec in Hopen as [ch0 [Hch0 Hopen0]].
    assert (ch0 = ch) as -> by (simpl in Hch0; congruence).
    exists (deliver event ch). split; [by apply Hin |].
    unfold deliver. destruct (length (buf ch) <? cap ch)%nat eqn:Hroom; simpl.
    + apply Nat.ltb_lt in Hroom. repeat split; try done. intros Hfull. lia.
    + apply Nat.ltb_ge in Hroom. repeat split; try done. intros Hlt. lia.
  - intros eventType data. unfold Broadcast, send. rewrite Hintake.
    by destruct (length (buf (broadcast b)) <? cap (broadcast b))%nat.
Qed.

Lemma broadcast_drops_only_for_full_mailboxes_witness :
  exists b',
    run Intake two_clients = Ok b'
    /\ (exists ch', heap b' !! Events slow = Some ch' /\ buf ch' = [tick; tick])
    /\ (exists ch', heap b' !! Events fast = Some ch' /\ buf ch' = [tock]).
Proof.
  destruct (broadcast_drops_only_for_full_mailboxes two_clients tock [])
    as [(b' & Hrun & _ & _ & Hboxes) _].
  { reflexivity. }
  { reflexivity. }
  { vm_compute. reflexivity. }
  { reflexivity. }
  exists b'. split; [exact Hrun |]. split.
  - destruct (Hboxes (ID slow) slow (mkChan [tick; tick] 2 false))
      as (ch' & Hch' & _ & _ & _ & Hfull).
    { vm_compute. reflexivity. }
    { vm_compute. reflexivity. }
    exists ch'. split; [exact Hch' |]. apply Hfull. simpl. lia.
  - destruct (Hboxes (ID fast) fast (make_chan 64))
      as (ch' & Hch' & _ & _ & Hroom & _).
    { vm_compute. reflexivity. }
    { vm_compute. reflexivity. }
    exists ch'. split; [exact Hch' |]. apply Hroom. simpl. lia.
Defined.





Lemma acts_after_return (l : list Action) : forall b,
  returned b = true -> closed (broadcast b) = false ->
  exists b', acts l b = Ok b'
             /\ clients b' = clients b /\ heap b' = heap b /\ returned b' = true.
Proof.
  induction l as [| a l IH]; intros b Hret Hintake; simpl.
  - by exists b.
  - destruct a as [k | eventType data |]; simpl.
    + unfold run. rewrite Hret. by apply IH.
    + unfold Broadcast, send. rewrite Hintake.
      destruct (length (buf (broadcast b)) <? cap (broadcast b))%nat.
      * match goal with |- context [acts l ?b1] => destruct (IH b1) as (b' & ? & ? & ? & ?) end;
          [done | done |]. by exists b'.
      * match goal with |- context [acts l ?b1] => destruct (IH b1) as (b' & ? & ? & ? & ?) end;
          [done | done |]. by exists b'.
    + destruct (IH (Close b)) as (b' & ? & ? & ? & ?); [done | done |]. by exists b'.
Qed.

(** C9.  When the loop takes the shutdown case, it closes the mailbox of
    every registered client, empties the table and returns.  From then on no
    case of the loop fires: no register is accepted and no event is fanned
    out, so whatever is called afterwards (a [Broadcast] ends up in the intake
    or is dropped there), the table stays empty and no mailbox changes. *)
Theorem shutdown_closes_all_and_delivers_nothing b (later : list Action) :
  returned b = false ->
  ctx_done b = true ->
  mailboxes_ok b = true ->
  closed (broadcast b) = false ->
  exists b',
    run Done b = Ok b'
    /\ clients b' = ∅
    /\ returned b' = true
    /\ (forall id c ch,
          clients b !! id = Some c -> heap b !! Events c = Some ch ->
          heap b' !! Events c = Some (mkChan (buf ch) (cap ch) true))
    /\ (forall k, run k b' = Blocked)
    /\ exists b'',
         acts later b' = Ok b''
         /\ clients b'' = ∅ /\ heap b'' = heap b' /\ returned b'' = true.
Proof.
  intros Hrun Hdone Hok Hintake.
  apply mailboxes_ok_spec in Hok as [Hopen Hnd].
  destruct (close_all_spec (range_clients b) b)
    as (b1 & Hcls & Hcl & Hbr & Hcd & Hret & Hlog & Hin & Hout); [done | done |].
  exists (set_returned true (set_clients ∅ b1)).
  unfold run. rewrite Hrun, Hdone, Hcls. simpl.
  split; [reflexivity |]. split; [reflexivity |]. split; [reflexivity |].
  split.
  { intros id c ch Hc Hch. apply Hin; [| exact Hch].
    apply elem_of_range_clients. by exists id. }
  split; [reflexivity |].
  destruct (acts_after_return later (set_returned true (set_clients ∅ b1)))
    as (b'' & Hacts & Hcl'' & Hh'' & Hret''); [reflexivity | simpl; congruence |].
  exists b''. done.
Qed.

Lemma shutdown_closes_all_and_delivers_nothing_witness :
  exists b',
    run Done (Close two_clients) = Ok b'
    /\ clients b' = ∅
    /\ heap b' !! Events fast = Some (mkChan [] 64 true)
    /\ run (Register fast) b' = Blocked
    /\ exists b'',
         acts [CallBroadcast "project:status" (Data tick); Loop Intake;
               Loop (Register fast)] b' = Ok b''
         /\ clients b'' = ∅ /\ heap b'' = heap b'.
Proof.
  pose proof (shutdown_closes_all_and_delivers_nothing (Close two_clients)
                [CallBroadcast "project:status" (Data tick); Loop Intake;
                 Loop (Register fast)]) as H.
  destruct H
    as (b' & Hrun & Hcl & _ & Hboxes & Hblocked & b'' & Hacts & Hcl'' & Hh'' & _).
  { reflexivity. }
  { reflexivity. }
  { vm_compute. reflexivity. }
  { reflexivity. }
  exists b'. split; [exact Hrun |]. split; [exact Hcl |].
  split.
  { apply (Hboxes (ID fast) fast (make_chan 64)); vm_compute; reflexivity. }
  split; [apply Hblocked |].
  exists b''. split; [exact Hacts |]. split; [exact Hcl'' | exact Hh''].
Defined.

End BrokerClaims.

(** ** Status reconciliation *)

Section Reconciliation.
Context {W : Type} `{!DockerClient W}.

Implicit Types (s : Sys W) (proj : Project.t) (members : list ContainerInfo.t).

Lemma count_running_filter members :
  count_running members = Z.of_nat (length (filter is_running members)).
Proof.
  unfold count_running.
  assert (Hgen : forall a,
             foldl (fun running c =>
                      if String.eqb (ContainerInfo.State c) "running"
                      then running + 1 else running) a members
             = a + Z.of_nat (length (filter is_running members))).
  { induction members as [| c members IH]; intros a; simpl; [lia |].
    rewrite IH, filter_cons. unfold is_running at 2.
    destruct (String.eqb_spec (ContainerInfo.State c) "running") as [Heq | Hne].
    - rewrite decide_True by exact Heq. simpl. lia.
    - rewrite decide_False by exact Hne. reflexivity. }
  rewrite Hgen. lia.
Qed.

Lemma count_running_nonneg members : 0 <= count_running members.
Proof. rewrite count_running_filter. lia. Qed.

(** The watcher's way of writing the rule agrees with the handler's. *)
Lemma watcher_rule_is_status_rule (running total : Z) :
  0 <= running ->
  (if (0 <? running) && (running =? total) then "running"
   else if 0 <? running then "partial" else "stopped")
  = status_rule running total.
Proof.
  intros Hpos. unfold status_rule.
  destruct (Z.eqb_spec running 0) as [-> | Hne]; [reflexivity |].
  assert (Hlt : (0 <? running) = true) by (apply Z.ltb_lt; lia).
  rewrite Hlt. simpl. by destruct (running =? total).
Qed.

Lemma publish_ok eventType data s :
  closed (SSE.broadcast (broker s)) = false ->
  exists s',
    publish eventType data s = Ok s'
    /\ backend s' = backend s /\ scanner s' = scanner s /\ now s' = now s
    /\ published s' = published s ++ [SSE.mkEvent eventType data]
    /\ closed (SSE.broadcast (broker s')) = false
    /\ SSE.clients (broker s') = SSE.clients (broker s)
    /\ SSE.heap (broker s') = SSE.heap (broker s).
Proof.
  intros Hopen. unfold publish, SSE.BroadcastJSON, SSE.Broadcast, send. rewrite Hopen.
  destruct (length (buf (SSE.broadcast (broker s))) <? cap (SSE.broadcast (broker s)))%nat;
    simpl; eexists; (split; [reflexivity |]); simpl; repeat split; done.
Qed.

Lemma deref_UpdateProjectStatus (sc : Scanner.t) (id q : string) running status t stored :
  Scanner.deref sc q = Some stored ->
  exists stored',
    Scanner.deref (Scanner.UpdateProjectStatus id running status t sc) q = Some stored'
    /\ Project.Total stored' = Project.Total stored
    /\ Project.ID stored' = Project.ID stored
    /\ Project.Name stored' = Project.Name stored
    /\ (id = q -> Project.Running stored' = running /\ Project.Status stored' = status)
    /\ (id ≠ q -> stored' = stored).
Proof.
  intros Hq. unfold Scanner.UpdateProjectStatus, Scanner.deref in *.
  destruct (Scanner.projects sc !! id) as [old |] eqn:Hid; simpl.
  - destruct (decide (id = q)) as [-> | Hne].
    + rewrite lookup_alter_eq, Hq. simpl. eexists. split; [reflexivity |].
      simpl. do 3 (split; [reflexivity |]). split; [done | intros Hne; done].
    + rewrite lookup_alter_ne by exact Hne. exists stored.
      do 4 (split; [done |]). split; [intros Heq; done | done].
  - exists stored. do 4 (split; [done |]). split; [| done].
    intros Heq. subst q. congruence.
Qed.

(** C2, as the code has it.  When the member query succeeds, running is the
    number of members whose state is "running".  The total is not counted
    from the members: it stays the project's stored [Total], the number of
    services its compose file declares.  The status is stopped when running
    is 0, running when running equals that total, partial otherwise.  The
    handler writes this into the project; the watcher writes it into the
    project and publishes it. *)
Theorem reconcile_counts_running_against_stored_total s (p : Scanner.ptr) proj members :
  Scanner.deref (scanner s) p = Some proj ->
  ListContainers (backend s) (Project.Name proj) = Ok (members, None) ->
  closed (SSE.broadcast (broker s)) = false ->
  let running := Z.of_nat (length (filter is_running members)) in
  let status := status_rule running (Project.Total proj) in
  (exists s' proj',
      Handler.updateProjectStatus p s = Ok s'
      /\ Scanner.deref (scanner s') p = Some proj'
      /\ Project.Running proj' = running
      /\ Project.Total proj' = Project.Total proj
      /\ Project.Status proj' = status)
  /\ (Main.find_project (Project.Name proj) (scanner s) = Some proj ->
      exists s',
        Main.updateProjectStatus (Project.Name proj) s = Ok s'
        /\ published s'
           = published s
             ++ [SSE.mkEvent "project:status"
                   (SSE.ProjectStatusData
                      (ProjectStatusEvent.mk (Project.ID proj) (Project.Name proj)
                         status running (Project.Total proj)))]
        /\ (forall stored,
              Scanner.deref (scanner s) (Project.ID proj) = Some stored ->
              exists stored',
                Scanner.deref (scanner s') (Project.ID proj) = Some stored'
                /\ Project.Running stored' = running
                /\ Project.Total stored' = Project.Total stored
                /\ Project.Status stored' = status)).
Proof.
  intros Hp Hlist Hopen running status. split.
  - unfold Handler.updateProjectStatus. rewrite Hp, Hlist. simpl.
    fold (status_rule (count_running members) (Project.Total proj)).
    rewrite count_running_filter. fold running. fold status.
    set (sc2 := Scanner.assign p (Project.set_Status status)
                  (Scanner.assign p (Project.set_Running running) (scanner s))).
    assert (Hsc2 : Scanner.deref sc2 p
                   = Some (Project.set_Status status (Project.set_Running running proj))).
    { unfold sc2, Scanner.assign, Scanner.deref in *. simpl.
      by rewrite !lookup_alter_eq, Hp. }
    destruct (deref_UpdateProjectStatus sc2 (Project.ID proj) p running status (now s) _ Hsc2)
      as (stored' & Hst & Htot & _ & _ & Heq & Hne).
    eexists _, stored'. split; [reflexivity |]. simpl. split; [exact Hst |].
    destruct (decide (Project.ID proj = p)) as [Hid | Hid].
    + destruct (Heq Hid) as [-> ->]. by rewrite Htot.
    + rewrite (Hne Hid). done.
  - intros Hfind. unfold Main.updateProjectStatus. rewrite Hfind, Hlist. simpl.
    rewrite (watcher_rule_is_status_rule _ _ (count_running_nonneg members)).
    rewrite count_running_filter. fold running. fold status.
    match goal with
    | |- context [publish ?t ?d ?s1] =>
        destruct (publish_ok t d s1) as (s' & Hpub & _ & Hsc & _ & Hpubl & _);
        [exact Hopen |]
    end.
    exists s'. split; [exact Hpub |]. split; [exact Hpubl |].
    intros stored Hstored. rewrite Hsc. simpl.
    destruct (deref_UpdateProjectStatus (scanner s) (Project.ID proj) (Project.ID proj)
                running status (now s) _ Hstored)
      as (stored' & Hst & Htot & _ & _ & Heq & _).
    exists stored'. destruct (Heq eq_refl) as [-> ->]. by rewrite Htot.
Qed.

(** C3, as the code has it.  When the member query fails, the handler's
    [updateProjectStatus] sets the status to unknown and leaves running and
    total as they were, and the operation goroutine then publishes a
    [project:status] event with these values; the watcher's
    [updateProjectStatus] returns without changing or publishing anything. *)
Theorem failed_query_is_unknown_for_operations_and_silent_for_watcher
    s (id : string) proj members (e : error) :
  Scanner.deref (scanner s) id = Some proj ->
  ListContainers (backend s) (Project.Name proj) = Ok (members, Some e) ->
  closed (SSE.broadcast (broker s)) = false ->
  (exists s',
      Handler.updateProjectStatus id s = Ok s'
      /\ Scanner.deref (scanner s') id = Some (Project.set_Status "unknown" proj)
      /\ published s' = published s)
  /\ (exists s',
        Handler.reconcile_after id s = Ok s'
        /\ Scanner.deref (scanner s') id = Some (Project.set_Status "unknown" proj)
        /\ published s'
           = published s
             ++ [SSE.mkEvent "project:status"
                   (SSE.ProjectStatusData
                      (ProjectStatusEvent.mk (Project.ID proj) (Project.Name proj)
                         "unknown" (Project.Running proj) (Project.Total proj)))])
  /\ Main.updateProjectStatus (Project.Name proj) s = Ok s.
Proof.
  intros Hp Hlist Hopen.
  assert (Hupd : Handler.updateProjectStatus id s
                 = Ok (set_scanner
                         (Scanner.assign id (Project.set_Status "unknown") (scanner s)) s)).
  { unfold Handler.updateProjectStatus. by rewrite Hp, Hlist. }
  assert (Hderef : Scanner.deref
                     (Scanner.assign id (Project.set_Status "unknown") (scanner s)) id
                   = Some (Project.set_Status "unknown" proj)).
  { unfold Scanner.assign, Scanner.deref in *. simpl. by rewrite lookup_alter_eq, Hp. }
  split; [| split].
  - eexists. split; [exact Hupd |]. split; [exact Hderef | reflexivity].
  - unfold Handler.reconcile_after, Scanner.GetProject.
    unfold Scanner.deref in Hp. rewrite Hp. rewrite Hupd. simpl. rewrite Hderef.
    match goal with
    | |- context [publish ?t ?d ?s1] =>
        destruct (publish_ok t d s1) as (s' & Hpub & _ & Hsc & _ & Hpubl & _);
        [exact Hopen |]
    end.
    exists s'. split; [exact Hpub |]. split; [by rewrite Hsc | exact Hpubl].
  - unfold Main.updateProjectStatus.
    destruct (Main.find_project (Project.Name proj) (scanner s)); [| reflexivity].
    by rewrite Hlist.
Qed.

End Reconciliation.

Section ReconciliationCases.

Lemma reconcile_counts_running_against_stored_total_witness :
  (exists s' proj',
      Handler.updateProjectStatus "p1" (sample_sys five_members 5) = Ok s'
      /\ Scanner.deref (scanner s') "p1" = Some proj'
      /\ Project.Running proj' = 3
      /\ Project.Total proj' = 5
      /\ Project.Status proj' = "partial")
  /\ (exists s',
        Main.updateProjectStatus "webapp" (sample_sys five_members 5) = Ok s'
        /\ published s'
           = [SSE.mkEvent "project:status"
                (SSE.ProjectStatusData
                   (ProjectStatusEvent.mk "p1" "webapp" "partial" 3 5))]).
Proof.
  edestruct (reconcile_counts_running_against_stored_total
               (sample_sys five_members 5) "p1" (webapp 5))
    as [(s1 & proj1 & Hupd & Hderef & Hrun & Htot & Hstat) Hwatch].
  { reflexivity. }
  { vm_compute. reflexivity. }
  { reflexivity. }
  split.
  - exists s1, proj1. split; [exact Hupd |]. split; [exact Hderef |].
    split; [exact Hrun |]. split; [exact Htot | exact Hstat].
  - destruct Hwatch as (s2 & Hupd2 & Hpub & _); [vm_compute; reflexivity |].
    exists s2. split; [exact Hupd2 | exact Hpub].
Defined.

(** Against C2 as stated: with two listed members, one of them running, and
    a compose file that declares one service, the code stores running 1,
    total 1 and status running, where counting the members gives total 2 and
    status partial. *)
Lemma total_is_not_the_member_count :
  exists members s' proj',
    ListContainers (backend (sample_sys sample_mock 1)) "webapp" = Ok (members, None)
    /\ Handler.updateProjectStatus "p1" (sample_sys sample_mock 1) = Ok s'
    /\ Scanner.deref (scanner s') "p1" = Some proj'
    /\ (Project.Running proj', Project.Total proj', Project.Status proj')
       = (1, 1, "running")
    /\ spec_reconcile members = (1, 2, "partial").
Proof.
  eexists _, _, _.
  split; [vm_compute; reflexivity |].
  split; [vm_compute; reflexivity |].
  split; [vm_compute; reflexivity |].
  split; vm_compute; reflexivity.
Qed.

Lemma failed_query_is_unknown_for_operations_and_silent_for_watcher_witness :
  (exists s',
      Handler.reconcile_after "p1" (sample_sys unreachable_host 5) = Ok s'
      /\ Scanner.deref (scanner s') "p1" = Some (Project.set_Status "unknown" (webapp 5))
      /\ published s'
         = [SSE.mkEvent "project:status"
              (SSE.ProjectStatusData (ProjectStatusEvent.mk "p1" "webapp" "unknown" 0 5))])
  /\ Main.updateProjectStatus "webapp" (sample_sys unreachable_host 5)
     = Ok (sample_sys unreachable_host 5).
Proof.
  edestruct (failed_query_is_unknown_for_operations_and_silent_for_watcher
               (sample_sys unreachable_host 5) "p1" (webapp 5))
    as (_ & Hop & Hwatch).
  { reflexivity. }
  { vm_compute. reflexivity. }
  { reflexivity. }
  split; [exact Hop | exact Hwatch].
Defined.

(** Against C3 as stated: in the watcher's [updateProjectStatus] a failed
    member query changes nothing: the status stays what it was (here
    running, not unknown), and no event is published. *)
Lemma watcher_is_silent_when_query_fails :
  exists members e proj,
    ListContainers (backend (sample_sys unreachable_host 5)) "webapp"
    = Ok (members, Some e)
    /\ Main.updateProjectStatus "webapp" (sample_sys unreachable_host 5)
       = Ok (sample_sys unreachable_host 5)
    /\ Scanner.deref (scanner (sample_sys unreachable_host 5)) "p1" = Some proj
    /\ Project.Status proj = "running"
    /\ published (sample_sys unreachable_host 5) = [].
Proof.
  eexists _, _, _.
  split; [vm_compute; reflexivity |].
  split; [vm_compute; reflexivity |].
  split; [vm_compute; reflexivity |].
  split; reflexivity.
Qed.

End ReconciliationCases.

(** ** Compose operations *)

Section Operations.
Context {W : Type} `{!DockerClient W}.

Implicit Types (s : Sys W) (proj : Project.t).

Lemma handler_updateProjectStatus_total s (p : Scanner.ptr) proj :
  Scanner.deref (scanner s) p = Some proj ->
  (exists answer, ListContainers (backend s) (Project.Name proj) = Ok answer) ->
  exists s' proj',
    Handler.updateProjectStatus p s = Ok s'
    /\ Scanner.deref (scanner s') p = Some proj'
    /\ published s' = published s /\ broker s' = broker s /\ backend s' = backend s.
Proof.
  intros Hp [[members err] Hlist].
  unfold Handler.updateProjectStatus. rewrite Hp, Hlist. simpl.
  destruct err as [e |].
  - eexists _, _. split; [reflexivity |]. simpl.
    split; [| done].
    unfold Scanner.assign, Scanner.deref in *. simpl. by rewrite lookup_alter_eq, Hp.
  - match goal with
    | |- context [Scanner.UpdateProjectStatus ?i ?r ?st ?t ?sc] =>
        destruct (deref_UpdateProjectStatus sc i p r st t
                    (Project.set_Status st (Project.set_Running r proj)))
          as (stored' & Hst & _)
    end.
    { unfold Scanner.assign, Scanner.deref in *. simpl. by rewrite !lookup_alter_eq, Hp. }
    eexists _, stored'. split; [reflexivity |]. simpl. split; [exact Hst | done].
Qed.





End Operations.

Section OperationCases.


End OperationCases.

(** ** The watcher *)

Section Watching.
Context {W : Type} `{!DockerClient W}.

Implicit Types (s : Sys W) (w : @Main.Watcher W) (feed : list Main.Received).

Lemma main_updateProjectStatus_total (projectName : string) s :
  closed (SSE.broadcast (broker s)) = false ->
  (forall name, exists answer, ListContainers (backend s) name = Ok answer) ->
  exists s',
    Main.updateProjectStatus projectName s = Ok s'
    /\ backend s' = backend s
    /\ closed (SSE.broadcast (broker s')) = false.
Proof.
  intros Hopen Hanswers. unfold Main.updateProjectStatus.
  destruct (Main.find_project projectName (scanner s)) as [proj |]; [| by exists s].
  destruct (Hanswers projectName) as [[members err] Hlist]. rewrite Hlist. simpl.
  destruct err as [e |]; [by exists s |].
  match goal with
  | |- context [publish ?t ?d ?s1] =>
      destruct (publish_ok t d s1) as (s' & Hpub & Hback & _ & _ & _ & Hopen' & _);
      [exact Hopen |]
  end.
  exists s'. split; [exact Hpub |]. split; [exact Hback | exact Hopen'].
Qed.

(** One round of the [select] never ends the loop: it yields the next state
    of the watcher, with a reconnection exactly on a failure. *)
Lemma receive_continues (r : Main.Received) w :
  long_id r ->
  closed (SSE.broadcast (broker (Main.sys w))) = false ->
  (forall name, exists answer, ListContainers (backend (Main.sys w)) name = Ok answer) ->
  exists w1,
    Main.receive r w = Ok (is_failure r, w1)
    /\ Main.did (if is_failure r then Main.reconnect w1 else w1)
       = Main.did w ++ after_receive r
    /\ backend (Main.sys w1) = backend (Main.sys w)
    /\ closed (SSE.broadcast (broker (Main.sys w1))) = false.
Proof.
  intros Hid Hopen Hanswers. destruct r as [event | | [e |] |]; simpl in *.
  - unfold Main.containerStatusOf. rewrite (slice_to_ok _ _ Hid). simpl.
    match goal with
    | |- context [publish ?t ?d ?s1] =>
        destruct (publish_ok t d s1) as (s1' & Hpub & Hback & _ & _ & _ & Hopen1 & _);
        [exact Hopen |]
    end.
    rewrite Hpub. simpl.
    destruct (negb (String.eqb (ContainerEvent.Project event) "")); simpl.
    + destruct (main_updateProjectStatus_total (ContainerEvent.Project event) s1' Hopen1)
        as (s2 & Hupd & Hback2 & Hopen2).
      { intros name. rewrite Hback. apply Hanswers. }
      rewrite Hupd. simpl. eexists. split; [reflexivity |]. simpl.
      rewrite app_nil_r. repeat split; [congruence | exact Hopen2].
    + eexists. split; [reflexivity |]. simpl.
      rewrite app_nil_r. repeat split; [exact Hback | exact Hopen1].
  - exists w. repeat split; try done. unfold Main.reconnect, Main.does. simpl.
    by rewrite <- !app_assoc.
  - eexists. split; [reflexivity |]. unfold Main.reconnect, Main.does. simpl.
    repeat split; try done. by rewrite <- !app_assoc.
  - exists w. repeat split; try done. by rewrite app_nil_r.
  - exists w. repeat split; try done. unfold Main.reconnect, Main.does. simpl.
    by rewrite <- !app_assoc.
Qed.

Lemma consume_continues feed : forall w,
  Forall long_id feed ->
  closed (SSE.broadcast (broker (Main.sys w))) = false ->
  (forall name, exists answer, ListContainers (backend (Main.sys w)) name = Ok answer) ->
  exists w',
    Main.consume feed w = Ok w'
    /\ Main.did w' = Main.did w ++ flat_map after_receive feed.
Proof.
  induction feed as [| r feed IH]; intros w Hids Hopen Hanswers; simpl.
  - exists w. by rewrite app_nil_r.
  - apply Forall_cons in Hids as [Hid Hids].
    destruct (receive_continues r w Hid Hopen Hanswers)
      as (w1 & Hrecv & Hdid & Hback & Hopen1).
    rewrite Hrecv. simpl.
    destruct (IH (if is_failure r then Main.reconnect w1 else w1)) as (w' & Hrest & Hdid').
    { exact Hids. }
    { by destruct (is_failure r). }
    { intros name. destruct (is_failure r); simpl; rewrite Hback; apply Hanswers. }
    exists w'. split; [exact Hrest |]. by rewrite Hdid', Hdid, <- app_assoc.
Qed.

Lemma subscriptions_after_receive (r : Main.Received) :
  length (filter (fun e => e = Main.Subscribed) (after_receive r))
  = if is_failure r then 1%nat else 0%nat.
Proof. destruct r as [event | | [e |] |]; reflexivity. Qed.

Lemma subscriptions_of_feed feed :
  length (filter (fun e => e = Main.Subscribed) (flat_map after_receive feed))
  = length (filter (fun r => is_failure r = true) feed).
Proof.
  induction feed as [| r feed IH]; simpl; [reflexivity |].
  rewrite filter_app, length_app, IH, subscriptions_after_receive, filter_cons.
  destruct (is_failure r); simpl; reflexivity.
Qed.

(** In the effects of a feed, whatever comes right before a subscription is
    the sleep of five seconds. *)
Lemma sleep_before_subscription feed : forall before later,
  flat_map after_receive feed = before ++ Main.Subscribed :: later ->
  exists earlier, before = earlier ++ [Main.Slept (5 * Main.Second)].
Proof.
  induction feed as [| r feed IH]; intros before later Heq; simpl in Heq.
  - by destruct before.
  - destruct r as [event | | [e |] |]; simpl in Heq.
    + by apply (IH before later).
    + destruct before as [| x1 [| x2 [| x3 before]]]; simplify_eq/=.
      * by exists [Main.Logged "Docker events disconnected, reconnecting in 5s..."].
      * destruct (IH before later) as [earlier ->]; [done |].
        by exists (Main.Logged "Docker events disconnected, reconnecting in 5s..."
                   :: Main.Slept 5000000000 :: Main.Subscribed :: earlier).
    + destruct before as [| x1 [| x2 [| x3 [| x4 before]]]]; simplify_eq/=.
      * by exists [Main.Logged ("Docker events error: " +:+ e);
                   Main.Logged "Docker events disconnected, reconnecting in 5s..."].
      * destruct (IH before later) as [earlier ->]; [done |].
        by exists (Main.Logged ("Docker events error: " +:+ e)
                   :: Main.Logged "Docker events disconnected, reconnecting in 5s..."
                   :: Main.Slept 5000000000 :: Main.Subscribed :: earlier).
    + by apply (IH before later).
    + destruct before as [| x1 [| x2 [| x3 before]]]; simplify_eq/=.
      * by exists [Main.Logged "Docker events disconnected, reconnecting in 5s..."].
      * destruct (IH before later) as [earlier ->]; [done |].
        by exists (Main.Logged "Docker events disconnected, reconnecting in 5s..."
                   :: Main.Slept 5000000000 :: Main.Subscribed :: earlier).
Qed.

(** C8.  Whatever the feeds deliver (events with a well-formed ID, nil
    errors, closes, errors), the watcher loop does not end: after the whole
    feed it is still there, waiting in its [select].  It has subscribed once
    at the start and once more for every failure, however many there were;
    and every subscription after the first comes right after a sleep of the
    same five seconds. *)
Theorem watcher_resubscribes_after_fixed_delay feed s :
  Forall long_id feed ->
  closed (SSE.broadcast (broker s)) = false ->
  (forall name, exists answer, ListContainers (backend s) name = Ok answer) ->
  exists w,
    Main.watchDockerEvents feed s = Ok w
    /\ Main.did w = Main.Subscribed :: flat_map after_receive feed
    /\ length (filter (fun e => e = Main.Subscribed) (Main.did w))
       = S (length (filter (fun r => is_failure r = true) feed))
    /\ (forall before later,
          Main.did w = before ++ Main.Subscribed :: later ->
          before = [] \/ exists earlier, before = earlier ++ [Main.Slept 5000000000]).
Proof.
  intros Hids Hopen Hanswers. unfold Main.watchDockerEvents.
  destruct (consume_continues feed (Main.does Main.Subscribed (Main.mkWatcher s [])))
    as (w & Hrun & Hdid); [exact Hids | exact Hopen | exact Hanswers |].
  simpl in Hdid.
  exists w. split; [exact Hrun |]. split; [exact Hdid |]. split.
  - rewrite Hdid, filter_cons. rewrite decide_True by reflexivity. simpl.
    by rewrite subscriptions_of_feed.
  - intros before later Heq. rewrite Hdid in Heq.
    destruct before as [| x before]; [by left |]. right.
    simplify_eq/=.
    destruct (sleep_before_subscription feed before later) as [earlier ->]; [done |].
    by exists (Main.Subscribed :: earlier).
Qed.

End Watching.

Section WatchingCases.

Lemma watcher_resubscribes_after_fixed_delay_witness :
  exists w,
    Main.watchDockerEvents three_failures (sample_sys sample_mock 2) = Ok w
    /\ Main.did w
       = [Main.Subscribed;
          Main.Logged "Docker events disconnected, reconnecting in 5s...";
          Main.Slept 5000000000; Main.Subscribed;
          Main.Logged "Docker events error: unexpected EOF";
          Main.Logged "Docker events disconnected, reconnecting in 5s...";
          Main.Slept 5000000000; Main.Subscribed;
          Main.Logged "Docker events disconnected, reconnecting in 5s...";
          Main.Slept 5000000000; Main.Subscribed]
    /\ length (filter (fun e => e = Main.Subscribed) (Main.did w)) = 4%nat.
Proof.
  destruct (watcher_resubscribes_after_fixed_delay three_failures
              (sample_sys sample_mock 2))
    as (w & Hrun & Hdid & Hcount & _).
  { repeat constructor. }
  { reflexivity. }
  { intros name. eexists. reflexivity. }
  exists w. split; [exact Hrun |]. split; [exact Hdid | exact Hcount].
Defined.

End WatchingCases.

(** * Further properties of the code *)

(** ** The compose client on a host *)

Section ComposeOnHost.

Implicit Types (h : Host.t) (p : Proc Host.t).

(** [findComposeFile] returns the first of the four names, in the order of
    preference, that exists in the directory, joined to the directory; it
    fails, with the message naming the directory, exactly when none of them
    exists. *)
Theorem findComposeFile_takes_first_existing h (dir : string) :
  ((forall name, name ∈ compose_names ->
      Host.stat h (ComposeClient.Join dir name) = false) ->
   ComposeClient.findComposeFile h dir
   = ("", Some ("no compose file found in " +:+ dir)))
  /\ (forall (i : nat) name,
        compose_names !! i = Some name ->
        Host.stat h (ComposeClient.Join dir name) = true ->
        (forall (j : nat) other, (j < i)%nat -> compose_names !! j = Some other ->
           Host.stat h (ComposeClient.Join dir other) = false) ->
        ComposeClient.findComposeFile h dir = (ComposeClient.Join dir name, None)).
Proof.
  unfold ComposeClient.findComposeFile, compose_names. cbn [find]. split.
  - intros Hnone.
    rewrite (Hnone "compose.yaml"), (Hnone "compose.yml"),
      (Hnone "docker-compose.yaml"), (Hnone "docker-compose.yml") by set_solver.
    reflexivity.
  - intros i name Hi Hstat Hearlier.
    destruct i as [| [| [| [| i]]]]; simpl in Hi; simplify_eq.
    + by rewrite Hstat.
    + rewrite (Hearlier 0%nat "compose.yaml") by (done || lia). by rewrite Hstat.
    + rewrite (Hearlier 0%nat "compose.yaml") by (done || lia).
      rewrite (Hearlier 1%nat "compose.yml") by (done || lia). by rewrite Hstat.
    + rewrite (Hearlier 0%nat "compose.yaml") by (done || lia).
      rewrite (Hearlier 1%nat "compose.yml") by (done || lia).
      rewrite (Hearlier 2%nat "docker-compose.yaml") by (done || lia). by rewrite Hstat.
Qed.

Lemma findComposeFile_takes_first_existing_witness :
  ComposeClient.findComposeFile bare_host "/srv/app"
  = ("", Some "no compose file found in /srv/app")
  /\ ComposeClient.findComposeFile two_files_host "/srv/app"
     = ("/srv/app/compose.yml", None).
Proof.
  split.
  - apply (findComposeFile_takes_first_existing bare_host "/srv/app"). reflexivity.
  - apply (proj2 (findComposeFile_takes_first_existing two_files_host "/srv/app")
             1%nat "compose.yml"); [reflexivity | reflexivity |].
    intros j other Hj Hother. destruct j as [| j]; [| lia].
    simpl in Hother. by simplify_eq.
Defined.

Lemma streamOutput_sent (outputCh : OutputCh) (lines : list ComposeOutput.t) : forall p,
  sent (ComposeClient.streamOutput outputCh lines p)
  = sent p ++ (if outputCh then lines else [])
  /\ world (ComposeClient.streamOutput outputCh lines p) = world p
  /\ polls (ComposeClient.streamOutput outputCh lines p) = polls p.
Proof.
  unfold ComposeClient.streamOutput.
  induction lines as [| o lines IH]; intros p; simpl.
  - destruct outputCh; by rewrite ?app_nil_r.
  - destruct (IH (send_line outputCh (ComposeOutput.Line o) (ComposeOutput.Stream o) p))
      as (Hs & Hw & Hp).
    rewrite Hs, Hw, Hp. unfold send_line. destruct outputCh; simpl.
    + destruct o. simpl. by rewrite <- app_assoc.
    + done.
Qed.

Lemma runCompose_sent_extends
    (ctx : Context) (dir : string) (args : list string) (outputCh : OutputCh) p :
  exists more, sent (ComposeClient.runCompose ctx dir args outputCh p).2 = sent p ++ more.
Proof.
  unfold ComposeClient.runCompose. simpl.
  destruct (ComposeClient.findComposeFile (Host.record_call args (world p)) dir)
    as [file [e0 |]]; simpl.
  { exists []. by rewrite app_nil_r. }
  destruct (Host.command _ _ _ _) as [e0 | e0 | e0 | lines wait]; simpl;
    try (exists []; by rewrite app_nil_r).
  match goal with
  | |- context [ComposeClient.streamOutput outputCh lines ?q] =>
      destruct (streamOutput_sent outputCh lines q) as (Hs & _ & _)
  end.
  simpl in Hs. destruct wait; simpl; by eexists.
Qed.

(** [runCompose] reports a command that did not run (no compose file, a
    pipe or the start failed) through both values: the error, and a result
    with the same text and [Success = false]; no line was sent.  A command
    that ran is reported through the result alone, with a nil error, also
    when it exits with an error: [Success = false] and "Command failed: ..."
    then, [Success = true] otherwise; every line it wrote was sent before,
    in order, unless the channel is nil.  So the returned error is non-nil
    exactly when the command did not run. *)
Theorem runCompose_reports_exit_through_result
    (ctx : Context) (dir : string) (args : list string) (outputCh : OutputCh) p :
  let r := ComposeClient.runCompose ctx dir args outputCh p in
  match invocation dir args (world p) with
  | NotRun e =>
      r.1 = (ComposeResult.mk false e, Some e) /\ sent r.2 = sent p
  | Ran file lines wait =>
      r.1 = (match wait with
             | Some e => ComposeResult.mk false ("Command failed: " +:+ e)
             | None => ComposeResult.mk true "Operation completed successfully"
             end, None)
      /\ sent r.2 = sent p ++ (if outputCh then lines else [])
  end.
Proof.
  unfold invocation, ComposeClient.runCompose. simpl.
  destruct (ComposeClient.findComposeFile (Host.record_call args (world p)) dir)
    as [file [e0 |]] eqn:Hfind; simpl; [done |].
  destruct (Host.command _ _ _ _) as [e0 | e0 | e0 | lines wait] eqn:Hcmd; simpl;
    try done.
  match goal with
  | |- context [ComposeClient.streamOutput outputCh lines ?q] =>
      destruct (streamOutput_sent outputCh lines q) as (Hs & _ & _)
  end.
  simpl in Hs. by destruct wait.
Qed.

Lemma runCompose_reports_exit_through_result_witness :
  ((ComposeClient.runCompose Background "/srv/app" ["pull"] true
      (mkProc failing_pull_host [] 0%nat)).1
   = (ComposeResult.mk false "Command failed: exit status 1", None)
   /\ sent (ComposeClient.runCompose Background "/srv/app" ["pull"] true
              (mkProc failing_pull_host [] 0%nat)).2
      = [] ++ [ComposeOutput.mk "pull access denied" "stderr"])
  /\ (ComposeClient.runCompose Background "/srv/app" ["pull"] true
        (mkProc bare_host [] 0%nat)).1
     = (ComposeResult.mk false "no compose file found in /srv/app",
        Some "no compose file found in /srv/app").
Proof.
  split.
  - exact (runCompose_reports_exit_through_result Background "/srv/app" ["pull"] true
             (mkProc failing_pull_host [] 0%nat)).
  - exact (proj1 (runCompose_reports_exit_through_result Background "/srv/app" ["pull"] true
                    (mkProc bare_host [] 0%nat))).
Defined.

(** When the pull succeeds, [Update] is the pull followed by
    [up -d --remove-orphans --force-recreate]: it returns what that second
    command returns, after both were invoked in this order, and the channel
    has the lines of the pull and then those of the second command. *)
Theorem update_is_pull_then_recreate
    (ctx : Context) (dir : string) (outputCh : OutputCh) p (r : ComposeResult.t)
    (p1 : Proc Host.t) :
  ComposeClient.Pull ctx dir outputCh p = ((Some r, None), p1) ->
  ComposeResult.Success r = true ->
  let recreate := ["up"; "-d"; "--remove-orphans"; "--force-recreate"] in
  ComposeClient.Update ctx dir outputCh p
  = ComposeClient.ret (ComposeClient.runCompose ctx dir recreate outputCh p1)
  /\ Host.calls (world (ComposeClient.Update ctx dir outputCh p).2)
     = Host.calls (world p) ++ [["pull"]; recreate]
  /\ exists more,
       sent (ComposeClient.Update ctx dir outputCh p).2 = sent p1 ++ more.
Proof.
  intros Hpull Hsucc recreate.
  pose proof (runCompose_calls ctx dir ["pull"] outputCh p) as Hcalls.
  unfold ComposeClient.Pull, ComposeClient.ret in Hpull.
  assert (Hupd : ComposeClient.Update ctx dir outputCh p
                 = ComposeClient.ret (ComposeClient.runCompose ctx dir recreate outputCh p1)).
  { unfold ComposeClient.Update.
    destruct (ComposeClient.runCompose ctx dir ["pull"] outputCh p) as [[r0 e0] q].
    simpl in Hpull. injection Hpull as <- -> <-. by rewrite Hsucc. }
  split; [exact Hupd |]. rewrite Hupd. unfold ComposeClient.ret. simpl.
  split.
  - rewrite runCompose_calls.
    destruct (ComposeClient.runCompose ctx dir ["pull"] outputCh p) as [[r0 e0] q].
    simpl in *. injection Hpull as _ _ <-. rewrite Hcalls, <- app_assoc. reflexivity.
  - apply runCompose_sent_extends.
Qed.

Lemma update_is_pull_then_recreate_witness :
  (ComposeClient.Update Background "/srv/app" true (mkProc two_files_host [] 0%nat)).1
  = (Some (ComposeResult.mk true "Operation completed successfully"), None)
  /\ Host.calls
       (world (ComposeClient.Update Background "/srv/app" true
                 (mkProc two_files_host [] 0%nat)).2)
     = [["pull"]; ["up"; "-d"; "--remove-orphans"; "--force-recreate"]].
Proof.
  edestruct (update_is_pull_then_recreate Background "/srv/app" true
               (mkProc two_files_host [] 0%nat)) as (Hupd & Hcalls & _).
  { vm_compute. reflexivity. }
  { reflexivity. }
  split; [| exact Hcalls].
  rewrite Hupd. vm_compute. reflexivity.
Defined.

End ComposeOnHost.

(** ** The mock client and the mock compose client *)

Section MockFacts.

Implicit Types (m : MockClient.t) (p : Proc MockClient.t).

(** The mock's [ListContainers] always answers, and with the containers of
    the project (all of them for the empty name). *)
Lemma mock_ListContainers_ok m (projectName : string) :
  exists l, MockClient.ListContainers m projectName = Ok (l, None).
Proof. by eexists. Qed.

Lemma mock_listed m (projectName : string) (l : list ContainerInfo.t) (c : ContainerInfo.t) :
  MockClient.ListContainers m projectName = Ok (l, None) ->
  c ∈ l <->
  (projectName = "" \/ ContainerInfo.ProjectName c = projectName)
  /\ exists cid, MockClient.containers m !! cid = Some c.
Proof.
  intros [= <-]. rewrite list_elem_of_filter, list_elem_of_fmap.
  rewrite !String.eqb_eq. split.
  - intros [Hname [[cid c'] [-> Hin]]]. split; [exact Hname |].
    exists cid. by apply elem_of_map_to_list.
  - intros [Hname [cid Hc]]. split; [exact Hname |].
    exists (cid, c). split; [reflexivity |]. by apply elem_of_map_to_list.
Qed.

Lemma getProjectServices_nonempty m (projectName : string) :
  MockComposeClient.getProjectServices m projectName ≠ [].
Proof.
  unfold MockComposeClient.getProjectServices.
  destruct (mock_ListContainers_ok m projectName) as [l ->].
  by destruct (elements _).
Qed.

(** [getProjectServices] never returns an empty list and never a name twice.
    Its names are the non-empty service names of the project's containers;
    only when there is none does it return the default ["app"]. *)
Theorem getProjectServices_distinct_or_default m (projectName : string) :
  let services := MockComposeClient.getProjectServices m projectName in
  let named svc :=
    svc ≠ "" /\ exists cid c,
      MockClient.containers m !! cid = Some c
      /\ (projectName = "" \/ ContainerInfo.ProjectName c = projectName)
      /\ ContainerInfo.ServiceName c = svc in
  services ≠ [] /\ NoDup services
  /\ (forall svc, named svc -> svc ∈ services)
  /\ (forall svc, svc ∈ services ->
        named svc \/ (services = ["app"] /\ forall other, ~ named other)).
Proof.
  intros services named. subst services. unfold MockComposeClient.getProjectServices.
  destruct (mock_ListContainers_ok m projectName) as [l Hl]. rewrite Hl.
  set (S := list_to_set (filter (fun s => s ≠ "") (ContainerInfo.ServiceName <$> l))
            : gset string).
  assert (Hmem : forall svc, svc ∈ elements S <-> named svc).
  { intros svc. unfold S, named.
    rewrite elem_of_elements, elem_of_list_to_set, list_elem_of_filter, list_elem_of_fmap.
    split.
    - intros [Hne [c [-> Hc]]]. split; [exact Hne |].
      apply (mock_listed m projectName l c Hl) in Hc as [Hname [cid Hcid]].
      by exists cid, c.
    - intros [Hne (cid & c & Hcid & Hname & <-)]. split; [exact Hne |].
      exists c. split; [reflexivity |].
      apply (mock_listed m projectName l c Hl). split; [exact Hname | by exists cid]. }
  pose proof (NoDup_elements S) as Hnd.
  destruct (elements S) as [| svc0 rest] eqn:Hel.
  - split; [discriminate |]. split; [apply NoDup_singleton |]. split.
    + intros svc Hsvc. apply Hmem in Hsvc. by apply elem_of_nil in Hsvc.
    + intros svc Hsvc. right. split; [reflexivity |].
      intros other Hother. apply Hmem in Hother. by apply elem_of_nil in Hother.
  - split; [discriminate |]. split; [exact Hnd |]. split.
    + intros svc Hsvc. by apply Hmem.
    + intros svc Hsvc. left. by apply Hmem.
Qed.

Lemma getProjectServices_distinct_or_default_witness :
  MockComposeClient.getProjectServices sample_mock "webapp" ≠ []
  /\ NoDup (MockComposeClient.getProjectServices sample_mock "webapp")
  /\ "web" ∈ MockComposeClient.getProjectServices sample_mock "webapp".
Proof.
  pose proof (getProjectServices_distinct_or_default sample_mock "webapp")
    as (Hne & Hnd & Hin & _).
  split; [exact Hne |]. split; [exact Hnd |].
  apply Hin. split; [discriminate |].
  exists "abc123def456",
    (sample_container "abc123def456" "webapp-web-1" "webapp" "web" "running").
  split; [vm_compute; reflexivity |]. split; [by right | reflexivity].
Defined.

End MockFacts.

Section MockOperations.

Implicit Types (m : MockClient.t) (p : Proc MockClient.t).

Lemma sendOutput_keeps (outputCh : OutputCh) (line : string) p :
  world (MockComposeClient.sendOutput outputCh line p) = world p
  /\ polls (MockComposeClient.sendOutput outputCh line p) = polls p.
Proof. unfold MockComposeClient.sendOutput, send_line. by destruct outputCh. Qed.

Lemma each_service_cancelled (ctx : Context) body (i : nat) (services : list string) p :
  services ≠ [] ->
  done_at ctx (polls p) = true ->
  MockComposeClient.each_service ctx body i services p
  = (true, mkProc (world p) (sent p) (S (polls p))).
Proof.
  intros Hne Hdone. destruct services as [| svc rest]; [done |].
  simpl. by rewrite Hdone.
Qed.

(** With a context that is already done at the first poll, each of the five
    mock operations returns the failure "Operation cancelled" together with
    the context's error, and leaves the containers and the subscribers as
    they were. *)
Theorem mock_operations_stop_on_done_context
    (ctx : Context) (dir : string) (outputCh : OutputCh) p :
  done_at ctx (polls p) = true ->
  Forall (fun op : composeOp MockClient.t =>
            (op ctx dir outputCh p).1
            = (Some (ComposeResult.mk false "Operation cancelled"), Some (ctx_err ctx))
            /\ world (op ctx dir outputCh p).2 = world p)
         [MockComposeClient.Up; MockComposeClient.Down; MockComposeClient.Pull;
          MockComposeClient.Restart; MockComposeClient.Update].
Proof.
  intros Hdone.
  pose proof (getProjectServices_nonempty (world p)
                (MockComposeClient.projectNameFromDir dir)) as Hne.
  repeat apply Forall_cons_2; [| | | | | constructor].
  - unfold MockComposeClient.Up.
    match goal with
    | |- context [MockComposeClient.sendOutput outputCh ?line p] =>
        destruct (sendOutput_keeps outputCh line p) as [Hw Hp];
        set (q := MockComposeClient.sendOutput outputCh line p) in *
    end.
    rewrite each_service_cancelled by (done || by rewrite Hp). simpl. by rewrite Hw.
  - unfold MockComposeClient.Down.
    match goal with
    | |- context [MockComposeClient.sendOutput outputCh ?line p] =>
        destruct (sendOutput_keeps outputCh line p) as [Hw Hp];
        set (q := MockComposeClient.sendOutput outputCh line p) in *
    end.
    rewrite each_service_cancelled by (done || by rewrite Hp). simpl. by rewrite Hw.
  - unfold MockComposeClient.Pull, MockComposeClient.pull.
    rewrite each_service_cancelled by done. done.
  - unfold MockComposeClient.Restart.
    match goal with
    | |- context [MockComposeClient.sendOutput outputCh ?line p] =>
        destruct (sendOutput_keeps outputCh line p) as [Hw Hp];
        set (q := MockComposeClient.sendOutput outputCh line p) in *
    end.
    rewrite each_service_cancelled by (done || by rewrite Hp). simpl. by rewrite Hw.
  - unfold MockComposeClient.Update, MockComposeClient.pull.
    rewrite each_service_cancelled by done. done.
Qed.

Lemma mock_operations_stop_on_done_context_witness :
  (MockComposeClient.Down (mkContext (Some 0%nat) "context canceled") "/projects/webapp"
     true (mkProc sample_mock [] 0%nat)).1
  = (Some (ComposeResult.mk false "Operation cancelled"), Some "context canceled")
  /\ world (MockComposeClient.Down (mkContext (Some 0%nat) "context canceled")
              "/projects/webapp" true (mkProc sample_mock [] 0%nat)).2
     = sample_mock.
Proof.
  pose proof (mock_operations_stop_on_done_context
                (mkContext (Some 0%nat) "context canceled") "/projects/webapp" true
                (mkProc sample_mock [] 0%nat) eq_refl) as Hall.
  apply Forall_cons in Hall as [_ Hall]. apply Forall_cons in Hall as [Hdown _].
  exact Hdown.
Defined.

Lemma emitEvent_keeps (c : ContainerInfo.t) (action : string) m :
  MockClient.containers (MockClient.emitEvent c action m) = MockClient.containers m
  /\ length (MockClient.eventSubs (MockClient.emitEvent c action m))
     = length (MockClient.eventSubs m)
  /\ MockClient.clock (MockClient.emitEvent c action m) = MockClient.clock m.
Proof. unfold MockClient.emitEvent. simpl. by rewrite length_fmap. Qed.

Lemma set_all_fold (projectName state status : string)
    (l : list (string * ContainerInfo.t)) : forall m,
  NoDup l.*1 ->
  let m' :=
    foldl (fun m '(cid, c) =>
             if String.eqb (ContainerInfo.ProjectName c) projectName then
               let c' := ContainerInfo.with_state state status c in
               let action := if String.eqb state "exited" then "stop" else "start" in
               MockClient.emitEvent c' action
                 (MockClient.mk (<[cid := c']> (MockClient.containers m))
                    (MockClient.eventSubs m) (MockClient.clock m))
             else m) m l in
  (forall cid,
      MockClient.containers m' !! cid
      = match (list_to_map l : gmap string ContainerInfo.t) !! cid with
        | Some c =>
            if String.eqb (ContainerInfo.ProjectName c) projectName
            then Some (ContainerInfo.with_state state status c)
            else MockClient.containers m !! cid
        | None => MockClient.containers m !! cid
        end)
  /\ length (MockClient.eventSubs m') = length (MockClient.eventSubs m)
  /\ MockClient.clock m' = MockClient.clock m.
Proof.
  induction l as [| [cid0 c0] l IH]; intros m Hnd; simpl.
  - split; [| done]. intros cid. by rewrite lookup_empty.
  - rewrite fmap_cons in Hnd. apply NoDup_cons in Hnd as [Hfresh Hnd]. simpl in Hfresh.
    match goal with
    | |- context [foldl ?f ?m1 l] => destruct (IH m1 Hnd) as (Hlook & Hlen & Hclock)
    end.
    simpl in Hlook, Hlen, Hclock.
    split; [| split].
    + intros cid. rewrite Hlook.
      assert (Hnone : (list_to_map l : gmap string ContainerInfo.t) !! cid0 = None).
      { by apply not_elem_of_list_to_map_1. }
      destruct (decide (cid = cid0)) as [-> | Hne].
      * rewrite Hnone, lookup_insert_eq.
        destruct (String.eqb (ContainerInfo.ProjectName c0) projectName); simpl; [| done].
        by rewrite lookup_insert_eq.
      * rewrite lookup_insert_ne by done.
        destruct (String.eqb (ContainerInfo.ProjectName c0) projectName); simpl;
          [by rewrite lookup_insert_ne |done].
    + rewrite Hlen.
      destruct (String.eqb (ContainerInfo.ProjectName c0) projectName); simpl; [| done].
      by rewrite length_fmap.
    + rewrite Hclock.
      by destruct (String.eqb (ContainerInfo.ProjectName c0) projectName).
Qed.

Lemma set_all_containers (projectName state status : string) m :
  MockClient.containers (MockClient.SetAllContainersState projectName state status m)
  = set_in_project projectName state status <$> MockClient.containers m.
Proof.
  unfold MockClient.SetAllContainersState.
  destruct (set_all_fold projectName state status (map_to_list (MockClient.containers m)) m)
    as (Hlook & _ & _); [apply NoDup_fst_map_to_list |].
  apply map_eq. intros cid. rewrite Hlook, list_to_map_to_list, lookup_fmap.
  unfold set_in_project.
  destruct (MockClient.containers m !! cid) as [c |] eqn:Hc; simpl; [| done].
  by destruct (String.eqb (ContainerInfo.ProjectName c) projectName).
Qed.

(** [SetAllContainersState] gives every container of the project the state
    and the status and leaves the containers of other projects, the set of
    IDs and the number of subscribers as they are. *)
Theorem SetAllContainersState_sets_exactly_the_project
    (projectName state status : string) m :
  MockClient.containers (MockClient.SetAllContainersState projectName state status m)
  = set_in_project projectName state status <$> MockClient.containers m
  /\ length (MockClient.eventSubs
               (MockClient.SetAllContainersState projectName state status m))
     = length (MockClient.eventSubs m).
Proof.
  split; [apply set_all_containers |].
  unfold MockClient.SetAllContainersState.
  destruct (set_all_fold projectName state status (map_to_list (MockClient.containers m)) m)
    as (_ & Hlen & _); [apply NoDup_fst_map_to_list |].
  exact Hlen.
Qed.

End MockOperations.

Section MockEndToEnd.

Implicit Types (m : MockClient.t) (p : Proc MockClient.t).

Lemma each_service_background body
    (Hbody : forall i svc p, world (body i svc p) = world p)
    (services : list string) : forall (i : nat) p,
  (MockComposeClient.each_service Background body i services p).1 = false
  /\ world (MockComposeClient.each_service Background body i services p).2 = world p.
Proof.
  induction services as [| svc services IH]; intros i p; simpl; [done |].
  destruct (IH (S i) (body i svc (mkProc (world p) (sent p) (S (polls p))))) as [Hd Hw].
  split; [exact Hd |]. by rewrite Hw, Hbody.
Qed.

Lemma sendOutput_world (outputCh : OutputCh) (line : string) p :
  world (MockComposeClient.sendOutput outputCh line p) = world p.
Proof. apply sendOutput_keeps. Qed.

Lemma each_service_runs body (q : Proc MockClient.t) (services : list string) :
  (forall i svc q, world (body i svc q) = world q) ->
  exists q', MockComposeClient.each_service Background body 0 services q = (false, q')
             /\ world q' = world q.
Proof.
  intros Hbody.
  destruct (each_service_background body Hbody services 0%nat q) as [Hd Hw].
  destruct (MockComposeClient.each_service Background body 0 services q) as [d q'].
  simpl in *. subst d. by exists q'.
Qed.

Lemma mock_Up_runs (dir : string) (outputCh : OutputCh) p :
  (MockComposeClient.Up Background dir outputCh p).1
  = (Some (ComposeResult.mk true "Started successfully"), None)
  /\ world (MockComposeClient.Up Background dir outputCh p).2
     = MockClient.SetAllContainersState (MockComposeClient.projectNameFromDir dir)
         "running" "Up Less than a second" (world p).
Proof.
  unfold MockComposeClient.Up. simpl.
  match goal with
  | |- context [MockComposeClient.each_service Background ?body 0%nat ?svcs ?q] =>
      destruct (each_service_runs body q svcs) as (q' & -> & Hw);
      [intros; by rewrite !sendOutput_world |]
  end.
  split; [reflexivity |]. simpl. by rewrite Hw, sendOutput_world.
Qed.

Lemma mock_Down_runs (dir : string) (outputCh : OutputCh) p :
  (MockComposeClient.Down Background dir outputCh p).1
  = (Some (ComposeResult.mk true "Stopped successfully"), None)
  /\ world (MockComposeClient.Down Background dir outputCh p).2
     = MockClient.SetAllContainersState (MockComposeClient.projectNameFromDir dir)
         "exited" "Exited (0) Less than a second ago" (world p).
Proof.
  unfold MockComposeClient.Down. simpl.
  match goal with
  | |- context [MockComposeClient.each_service Background ?body 0%nat ?svcs ?q] =>
      destruct (each_service_runs body q svcs) as (q' & -> & Hw);
      [intros; by rewrite !sendOutput_world |]
  end.
  split; [reflexivity |]. simpl. by rewrite sendOutput_world, Hw, sendOutput_world.
Qed.

(** With a context that is never cancelled the mock operations run to their
    end: [Up], [Restart] and [Update] set the project's containers running,
    [Down] sets them exited, [Pull] changes nothing, and each reports
    success. *)
Theorem mock_operations_complete (dir : string) (outputCh : OutputCh) p :
  let name := MockComposeClient.projectNameFromDir dir in
  let set state status := MockClient.SetAllContainersState name state status (world p) in
  let ok (op : composeOp MockClient.t) message w :=
    (op Background dir outputCh p).1 = (Some (ComposeResult.mk true message), None)
    /\ world (op Background dir outputCh p).2 = w in
  ok MockComposeClient.Up "Started successfully" (set "running" "Up Less than a second")
  /\ ok MockComposeClient.Down "Stopped successfully"
       (set "exited" "Exited (0) Less than a second ago")
  /\ ok MockComposeClient.Pull "Pulled successfully" (world p)
  /\ ok MockComposeClient.Restart "Restarted successfully"
       (set "running" "Up Less than a second")
  /\ ok MockComposeClient.Update "Updated successfully"
       (set "running" "Up Less than a second").
Proof.
  intros name set ok. subst ok set name.
  split; [exact (mock_Up_runs dir outputCh p) |].
  split; [exact (mock_Down_runs dir outputCh p) |].
  simpl.
  assert (Hloop : forall body (q : Proc MockClient.t) services,
             (forall i svc q, world (body i svc q) = world q) ->
             exists q', MockComposeClient.each_service Background body 0 services q
                        = (false, q') /\ world q' = world q).
  { intros body q services Hbody. by apply each_service_runs. }
  assert (Hsend : forall line q, world (MockComposeClient.sendOutput outputCh line q) = world q).
  { intros line q. apply sendOutput_keeps. }
  assert (Hprog : forall svc q, world (MockComposeClient.pull_progress outputCh svc q) = world q).
  { intros svc q. unfold MockComposeClient.pull_progress. simpl. by rewrite !Hsend. }
  repeat split.
  - unfold MockComposeClient.Pull, MockComposeClient.pull.
    match goal with
    | |- context [MockComposeClient.each_service Background ?body 0%nat ?svcs ?q] =>
        destruct (Hloop body q svcs) as (q' & -> & Hw);
        [intros; by rewrite Hsend, Hprog, Hsend |]
    end. reflexivity.
  - unfold MockComposeClient.Pull, MockComposeClient.pull.
    match goal with
    | |- context [MockComposeClient.each_service Background ?body 0%nat ?svcs ?q] =>
        destruct (Hloop body q svcs) as (q' & -> & Hw);
        [intros; by rewrite Hsend, Hprog, Hsend |]
    end. exact Hw.
  - unfold MockComposeClient.Restart.
    match goal with
    | |- context [MockComposeClient.each_service Background ?body 0%nat ?svcs ?q] =>
        destruct (Hloop body q svcs) as (q' & -> & Hw);
        [intros; by rewrite !Hsend |]
    end. reflexivity.
  - unfold MockComposeClient.Restart.
    match goal with
    | |- context [MockComposeClient.each_service Background ?body 0%nat ?svcs ?q] =>
        destruct (Hloop body q svcs) as (q' & -> & Hw);
        [intros; by rewrite !Hsend |]
    end. simpl. by rewrite Hw, Hsend.
  - unfold MockComposeClient.Update, MockComposeClient.pull.
    match goal with
    | |- context [MockComposeClient.each_service Background ?body 0%nat ?svcs ?q] =>
        destruct (Hloop body q svcs) as (q' & -> & Hw);
        [intros; by rewrite Hsend, Hprog, Hsend |]
    end. simpl. unfold MockComposeClient.recreate.
    match goal with
    | |- context [MockComposeClient.each_service Background ?body 0%nat ?svcs ?q] =>
        destruct (Hloop body q svcs) as (q2 & -> & Hw2);
        [intros; by rewrite !Hsend |]
    end. reflexivity.
  - unfold MockComposeClient.Update, MockComposeClient.pull.
    match goal with
    | |- context [MockComposeClient.each_service Background ?body 0%nat ?svcs ?q] =>
        destruct (Hloop body q svcs) as (q' & -> & Hw);
        [intros; by rewrite Hsend, Hprog, Hsend |]
    end. simpl. unfold MockComposeClient.recreate.
    match goal with
    | |- context [MockComposeClient.each_service Background ?body 0%nat ?svcs ?q] =>
        destruct (Hloop body q svcs) as (q2 & -> & Hw2);
        [intros; by rewrite !Hsend |]
    end. simpl. by rewrite Hw2, !Hsend, Hw.
Qed.

End MockEndToEnd.

Section StatusAfterUpdate.
Context {W : Type} `{!DockerClient W}.

(** What [ProjectHandler.updateProjectStatus] stores after a successful
    query, in full. *)
Lemma handler_update_stores (s : Sys W) (p : Scanner.ptr) (proj : Project.t)
    (members : list ContainerInfo.t) :
  Scanner.deref (scanner s) p = Some proj ->
  ListContainers (backend s) (Project.Name proj) = Ok (members, None) ->
  let running := count_running members in
  let status := status_rule running (Project.Total proj) in
  exists s' proj',
    Handler.updateProjectStatus p s = Ok s'
    /\ Scanner.deref (scanner s') p = Some proj'
    /\ Project.Running proj' = running
    /\ Project.Status proj' = status
    /\ Project.Total proj' = Project.Total proj
    /\ backend s' = backend s /\ broker s' = broker s /\ published s' = published s.
Proof.
  intros Hp Hlist running status.
  unfold Handler.updateProjectStatus. rewrite Hp, Hlist. simpl.
  fold (status_rule (count_running members) (Project.Total proj)).
  fold running. fold status.
  set (sc2 := Scanner.assign p (Project.set_Status status)
                (Scanner.assign p (Project.set_Running running) (scanner s))).
  assert (Hsc2 : Scanner.deref sc2 p
                 = Some (Project.set_Status status (Project.set_Running running proj))).
  { unfold sc2, Scanner.assign, Scanner.deref in *. simpl.
    by rewrite !lookup_alter_eq, Hp. }
  destruct (deref_UpdateProjectStatus sc2 (Project.ID proj) p running status (now s) _ Hsc2)
    as (stored' & Hst & Htot & _ & _ & Heq & Hne).
  eexists _, stored'. split; [reflexivity |]. simpl. split; [exact Hst |].
  destruct (decide (Project.ID proj = p)) as [Hid | Hid].
  - destruct (Heq Hid) as [-> ->]. by rewrite Htot.
  - by rewrite (Hne Hid).
Qed.

End StatusAfterUpdate.

Section MockStatus.

Implicit Types (m : MockClient.t).

Lemma filter_fmap_preserved {A : Type} (P : A -> Prop) `{!forall x, Decision (P x)}
    (f : A -> A) (l : list A) :
  (forall x, P (f x) <-> P x) -> filter P (f <$> l) = f <$> filter P l.
Proof.
  intros Hf. induction l as [| x l IH]; [reflexivity |].
  rewrite fmap_cons, !filter_cons, IH.
  destruct (decide (P (f x))) as [H1 | H1], (decide (P x)) as [H2 | H2];
    try reflexivity; exfalso; [apply H2 | apply H1]; by apply Hf.
Qed.

(** After [SetAllContainersState] for a project, the mock lists for that
    project the containers it listed before, each with the new state and
    status. *)
Lemma listed_after_set_all (projectName state status : string) m
    (members : list ContainerInfo.t) :
  projectName ≠ "" ->
  MockClient.ListContainers m projectName = Ok (members, None) ->
  MockClient.ListContainers
    (MockClient.SetAllContainersState projectName state status m) projectName
  = Ok (ContainerInfo.with_state state status <$> members, None).
Proof.
  intros Hname [= <-].
  pose proof (set_all_containers projectName state status m) as Hcont.
  unfold MockClient.ListContainers. rewrite Hcont, map_to_list_fmap.
  do 2 f_equal.
  rewrite <- list_fmap_compose.
  assert (Hcompose : (snd ∘ prod_map id (set_in_project projectName state status)
                      : string * ContainerInfo.t -> ContainerInfo.t)
                     = set_in_project projectName state status ∘ snd).
  { reflexivity. }
  rewrite Hcompose, list_fmap_compose.
  rewrite filter_fmap_preserved.
  - apply list_fmap_ext.
    intros i c Hc. apply list_elem_of_lookup_2, list_elem_of_filter in Hc as [[Hc | Hc] _].
    + apply String.eqb_eq in Hc. congruence.
    + unfold set_in_project. by rewrite Hc.
  - intros c. unfold set_in_project.
    destruct (String.eqb (ContainerInfo.ProjectName c) projectName) eqn:Hc;
      simpl; by rewrite ?Hc.
Qed.

Lemma count_running_with_state (state status : string) (members : list ContainerInfo.t) :
  count_running (ContainerInfo.with_state state status <$> members)
  = if String.eqb state "running" then Z.of_nat (length members) else 0.
Proof.
  rewrite count_running_filter.
  destruct (String.eqb_spec state "running") as [-> | Hne].
  - induction members as [| c members IH]; [reflexivity |].
    rewrite fmap_cons, filter_cons. rewrite decide_True by reflexivity.
    simpl length. lia.
  - induction members as [| c members IH]; [reflexivity |].
    rewrite fmap_cons, filter_cons. rewrite decide_False by exact Hne. exact IH.
Qed.

(** The mock's operations show in the project status.  For a project whose
    name is the last element of its path: after a completed [Down] the
    status update stores running 0 and status stopped; after a completed
    [Up] it stores as running the number of the project's containers, and
    the status that number gives against the stored total. *)
Theorem mock_down_and_up_show_in_status
    (s : Sys MockClient.t) (p : Scanner.ptr) (proj : Project.t) (outputCh : OutputCh)
    (members : list ContainerInfo.t) :
  Scanner.deref (scanner s) p = Some proj ->
  Project.Name proj ≠ "" ->
  MockComposeClient.projectNameFromDir (Project.Path proj) = Project.Name proj ->
  MockClient.ListContainers (backend s) (Project.Name proj) = Ok (members, None) ->
  let after (op : composeOp MockClient.t) :=
    set_world (world (op Background (Project.Path proj) outputCh
                        (mkProc (backend s) [] 0%nat)).2) s in
  (exists s' proj',
      Handler.updateProjectStatus p (after MockComposeClient.Down) = Ok s'
      /\ Scanner.deref (scanner s') p = Some proj'
      /\ Project.Running proj' = 0
      /\ Project.Status proj' = "stopped")
  /\ (exists s' proj',
        Handler.updateProjectStatus p (after MockComposeClient.Up) = Ok s'
        /\ Scanner.deref (scanner s') p = Some proj'
        /\ Project.Running proj' = Z.of_nat (length members)
        /\ Project.Status proj'
           = status_rule (Z.of_nat (length members)) (Project.Total proj)).
Proof.
  intros Hp Hname Hdir Hlist after.
  pose proof (mock_Up_runs (Project.Path proj) outputCh (mkProc (backend s) [] 0%nat))
    as [_ Hup].
  pose proof (mock_Down_runs (Project.Path proj) outputCh (mkProc (backend s) [] 0%nat))
    as [_ Hdown].
  rewrite Hdir in Hup, Hdown.
  split.
  - destruct (handler_update_stores (after MockComposeClient.Down) p proj
                (ContainerInfo.with_state "exited" "Exited (0) Less than a second ago"
                   <$> members))
      as (s' & proj' & Hupd & Hderef & Hrun & Hstat & _); [exact Hp | |].
    { unfold after, set_world. cbn [backend]. rewrite Hdown.
      by apply listed_after_set_all. }
    rewrite count_running_with_state in Hrun, Hstat. simpl in Hrun, Hstat.
    by exists s', proj'.
  - destruct (handler_update_stores (after MockComposeClient.Up) p proj
                (ContainerInfo.with_state "running" "Up Less than a second" <$> members))
      as (s' & proj' & Hupd & Hderef & Hrun & Hstat & _); [exact Hp | |].
    { unfold after, set_world. cbn [backend]. rewrite Hup.
      by apply listed_after_set_all. }
    rewrite count_running_with_state in Hrun, Hstat. simpl in Hrun, Hstat.
    by exists s', proj'.
Qed.

Lemma mock_down_and_up_show_in_status_witness :
  (exists s' proj',
      Handler.updateProjectStatus "p1"
        (set_world (world (MockComposeClient.Down Background "/projects/webapp" true
                             (mkProc five_members [] 0%nat)).2)
           (sample_sys five_members 5)) = Ok s'
      /\ Scanner.deref (scanner s') "p1" = Some proj'
      /\ Project.Running proj' = 0
      /\ Project.Status proj' = "stopped")
  /\ (exists s' proj',
        Handler.updateProjectStatus "p1"
          (set_world (world (MockComposeClient.Up Background "/projects/webapp" true
                               (mkProc five_members [] 0%nat)).2)
             (sample_sys five_members 5)) = Ok s'
        /\ Scanner.deref (scanner s') "p1" = Some proj'
        /\ Project.Running proj' = 5
        /\ Project.Status proj' = "running").
Proof.
  edestruct (mock_down_and_up_show_in_status (sample_sys five_members 5) "p1" (webapp 5) true)
    as [Hdown Hup].
  { reflexivity. }
  { discriminate. }
  { vm_compute. reflexivity. }
  { vm_compute. reflexivity. }
  split; [exact Hdown | exact Hup].
Defined.

End MockStatus.

Section MockContainers.

Implicit Types (m : MockClient.t).

Lemma prefix_refl (s : string) : String.prefix s s = true.
Proof. induction s as [| a s IH]; simpl; [reflexivity |]. by destruct (ascii_dec a a). Qed.

Lemma matches_is_prefix (cid id : string) :
  String.eqb cid id || String.prefix id cid = String.prefix id cid.
Proof.
  destruct (String.eqb_spec cid id) as [-> | Hne]; simpl; [| reflexivity].
  by rewrite prefix_refl.
Qed.

Lemma findContainer_None m (id : string) :
  (forall cid, is_Some (MockClient.containers m !! cid) -> String.prefix id cid = false) ->
  MockClient.findContainer m id = None.
Proof.
  intros Hnone. unfold MockClient.findContainer.
  destruct (find _ _) as [[cid c] |] eqn:Hfind; [| reflexivity].
  apply find_some in Hfind as [Hin Hmatch].
  apply list_elem_of_In, elem_of_map_to_list in Hin.
  rewrite matches_is_prefix, (Hnone cid) in Hmatch by eauto. discriminate.
Qed.

Lemma findContainer_unique m (id cid : string) (c : ContainerInfo.t) :
  MockClient.containers m !! cid = Some c ->
  String.prefix id cid = true ->
  (forall other, is_Some (MockClient.containers m !! other) ->
     String.prefix id other = true -> other = cid) ->
  MockClient.findContainer m id = Some (cid, c).
Proof.
  intros Hc Hprefix Huniq. unfold MockClient.findContainer.
  destruct (find _ _) as [[cid' c'] |] eqn:Hfind.
  - apply find_some in Hfind as [Hin Hmatch].
    apply list_elem_of_In, elem_of_map_to_list in Hin.
    rewrite matches_is_prefix in Hmatch.
    assert (cid' = cid) as -> by (apply Huniq; eauto). congruence.
  - pose proof (find_none _ _ Hfind (cid, c)) as Hno. simpl in Hno.
    rewrite matches_is_prefix, Hprefix in Hno.
    exfalso. enough (true = false) by discriminate. apply Hno.
    by apply list_elem_of_In, elem_of_map_to_list.
Qed.

(** The mock's [StartContainer], [StopContainer] and [RestartContainer] fail
    with "container not found" and change nothing when no container ID
    starts with the given ID.  When exactly one does, that container alone
    changes: to running on a start or restart, to exited on a stop; and a
    start after a stop leaves it as a start alone would. *)
Theorem mock_container_changes_one_container m (id : string) (timeout : Z) :
  ((forall cid, is_Some (MockClient.containers m !! cid) -> String.prefix id cid = false) ->
   let failed := (m, Some ("container not found: " +:+ id)) in
   MockClient.StartContainer id m = failed
   /\ MockClient.StopContainer id timeout m = failed
   /\ MockClient.RestartContainer id timeout m = failed)
  /\ (forall cid c,
        MockClient.containers m !! cid = Some c ->
        String.prefix id cid = true ->
        (forall other, is_Some (MockClient.containers m !! other) ->
           String.prefix id other = true -> other = cid) ->
        let up := ContainerInfo.with_state "running" "Up Less than a second" c in
        let down := ContainerInfo.with_state "exited" "Exited (0) Less than a second ago" c in
        let stopped := (MockClient.StopContainer id timeout m).1 in
        (MockClient.StartContainer id m).2 = None
        /\ MockClient.containers (MockClient.StartContainer id m).1
           = <[cid := up]> (MockClient.containers m)
        /\ MockClient.containers (MockClient.RestartContainer id timeout m).1
           = <[cid := up]> (MockClient.containers m)
        /\ (MockClient.StopContainer id timeout m).2 = None
        /\ MockClient.containers stopped = <[cid := down]> (MockClient.containers m)
        /\ MockClient.containers (MockClient.StartContainer id stopped).1
           = <[cid := up]> (MockClient.containers m)).
Proof.
  split.
  - intros Hnone failed.
    unfold MockClient.StartContainer, MockClient.StopContainer,
      MockClient.RestartContainer, MockClient.change_state.
    by rewrite (findContainer_None m id Hnone).
  - intros cid c Hc Hprefix Huniq up down stopped. subst stopped.
    unfold MockClient.StartContainer, MockClient.StopContainer,
      MockClient.RestartContainer, MockClient.change_state.
    rewrite (findContainer_unique m id cid c Hc Hprefix Huniq). simpl.
    do 5 (split; [reflexivity |]).
    match goal with
    | |- context [MockClient.findContainer ?m1 id] =>
        rewrite (findContainer_unique m1 id cid down)
    end.
    + simpl. by rewrite insert_insert_eq.
    + simpl. by rewrite lookup_insert_eq.
    + exact Hprefix.
    + intros other Hother. apply Huniq. simpl in Hother.
      destruct (decide (cid = other)) as [<- | Hne]; [eauto |].
      by rewrite lookup_insert_ne in Hother.
Qed.

Lemma mock_container_changes_one_container_witness :
  MockClient.StopContainer "zzz" 30 sample_mock
  = (sample_mock, Some "container not found: zzz")
  /\ MockClient.containers (MockClient.StopContainer "abc" 30 sample_mock).1
     = <["abc123def456" :=
           ContainerInfo.with_state "exited" "Exited (0) Less than a second ago"
             (sample_container "abc123def456" "webapp-web-1" "webapp" "web" "running")]>
         (MockClient.containers sample_mock).
Proof.
  assert (Hkeys : forall cid, is_Some (MockClient.containers sample_mock !! cid) ->
                    cid = "abc123def456" \/ cid = "bcd234efg567").
  { intros cid [c Hc]. unfold sample_mock in Hc. simpl in Hc.
    apply lookup_insert_Some in Hc as [[<- _] | [_ Hc]]; [by left |].
    apply lookup_singleton_Some in Hc as [<- _]. by right. }
  split.
  - apply (proj1 (mock_container_changes_one_container sample_mock "zzz" 30)).
    intros cid Hcid. by destruct (Hkeys cid Hcid) as [-> | ->].
  - apply (proj2 (mock_container_changes_one_container sample_mock "abc" 30)
             "abc123def456"); [vm_compute; reflexivity | reflexivity |].
    intros other Hother Hprefix.
    destruct (Hkeys other Hother) as [-> | ->]; [reflexivity | discriminate].
Defined.

End MockContainers.

(** ** More on the broker *)

Section BrokerInvariant.

Import SSE.

Implicit Types (b : Broker) (c : Client) (e : Event).

Lemma fanout_keeps_mailboxes_ok e b b' :
  mailboxes_ok b = true ->
  fanout e (range_clients b) b = Ok b' ->
  mailboxes_ok b' = true.
Proof.
  intros Hok Hfan.
  pose proof (mailboxes_ok_spec b Hok) as [Hopen Hnd].
  destruct (fanout_spec e (range_clients b) b)
    as (b1 & Hfan1 & Hcl & _ & _ & _ & Hin & _); [exact Hopen | exact Hnd |].
  rewrite Hfan in Hfan1. injection Hfan1 as <-.
  apply mailboxes_ok_iff in Hok as [Hopens Hinj]. apply mailboxes_ok_iff.
  rewrite Hcl. split; [| exact Hinj].
  intros id c Hc. pose proof (Hopens id c Hc) as Hopc.
  apply mailbox_open_spec in Hopc as [ch [Hch Hopc]].
  apply mailbox_open_spec. exists (deliver e ch). split.
  - apply Hin; [| exact Hch]. apply elem_of_range_clients. by exists id.
  - unfold deliver. by destruct (length (buf ch) <? cap ch)%nat.
Qed.

(** The mailbox invariant is kept by every iteration of the [run] loop that
    ends normally, for messages sent the way [ServeHTTP] sends them: the
    mailboxes of the table stay open, and no two entries of the table share
    a mailbox.  This holds for every unregister message, also for the one of
    a client whose ID another client has taken. *)
Theorem run_keeps_mailboxes_ok (k : Case) b b' :
  mailboxes_ok b = true ->
  well_sent k b ->
  run k b = Ok b' ->
  mailboxes_ok b' = true.
Proof.
  intros Hok Hsent Hrun. unfold run in Hrun.
  destruct (returned b) eqn:Hret; [discriminate |].
  destruct k as [c | c | |].
  - (* Register *)
    injection Hrun as <-. destruct Hsent as [Hopen Hfresh].
    apply mailboxes_ok_iff in Hok as [Hopens Hinj]. apply mailboxes_ok_iff. simpl.
    split.
    + intros id c' Hc'. apply lookup_insert_Some in Hc' as [[<- <-] | [_ Hc']];
        [exact Hopen | by apply (Hopens id)].
    + intros id1 id2 c1 c2 H1 H2 Heq.
      apply lookup_insert_Some in H1 as [[<- <-] | [Hne1 H1]];
        apply lookup_insert_Some in H2 as [[<- <-] | [Hne2 H2]].
      * reflexivity.
      * symmetry. by apply (Hfresh id2 c2).
      * by apply (Hfresh id1 c1).
      * by eapply Hinj.
  - (* Unregister *)
    apply mailboxes_ok_iff in Hok as [Hopens Hinj].
    destruct (clients b !! ID c) as [held |] eqn:Hheld; simpl in Hrun.
    + unfold heap_close in Hrun.
      destruct (heap b !! Events c) as [ch |] eqn:Hch; [| discriminate].
      destruct (close ch) as [ch' | |]; try discriminate. simpl in Hrun.
      injection Hrun as <-. apply mailboxes_ok_iff. simpl. split.
      * intros id c' Hc'. apply lookup_delete_Some in Hc' as [Hne Hc'].
        rewrite mailbox_open_insert_ne; [by apply (Hopens id) |].
        intros Heq. apply Hne. symmetry. by apply (Hsent id c').
      * intros id1 id2 c1 c2 H1 H2.
        apply lookup_delete_Some in H1 as [_ H1], H2 as [_ H2]. by apply Hinj.
    + injection Hrun as <-. apply mailboxes_ok_iff. simpl. by split.
  - (* Intake *)
    unfold recv in Hrun.
    assert (Hfan : forall e q, fanout e (range_clients (set_broadcast q b)) (set_broadcast q b)
                               = Ok b' -> mailboxes_ok b' = true).
    { intros e q. by apply fanout_keeps_mailboxes_ok. }
    destruct (buf (broadcast b)) as [| e rest].
    + destruct (closed (broadcast b)); [| discriminate]. simpl in Hrun. by eapply Hfan.
    + simpl in Hrun. by eapply Hfan.
  - (* Done *)
    destruct (ctx_done b); [| discriminate].
    destruct (close_all (range_clients b) b) as [b1 | |]; try discriminate.
    simpl in Hrun. injection Hrun as <-. reflexivity.
Qed.

Lemma run_keeps_mailboxes_ok_witness :
  exists b',
    run (Unregister slow) collided = Ok b'
    /\ clients collided !! ID slow = Some twin
    /\ mailboxes_ok b' = true.
Proof.
  destruct (run (Unregister slow) collided) as [b' | |] eqn:Hrun.
  - exists b'. split; [reflexivity |]. split; [reflexivity |].
    apply (run_keeps_mailboxes_ok (Unregister slow) collided b').
    + vm_compute. reflexivity.
    + intros id other Hother Hevents.
      unfold collided in Hother. cbn [clients] in Hother.
      apply lookup_insert_Some in Hother as [[<- <-] | [_ Hother]]; [reflexivity |].
      apply lookup_singleton_Some in Hother as [_ <-]. discriminate.
    + exact Hrun.
  - vm_compute in Hrun. discriminate.
  - vm_compute in Hrun. discriminate.
Defined.

(** Two clients with one ID.  The IDs are timestamps, so two connections of
    the same nanosecond collide: the second registration replaces the first
    in the table; when the first client then unregisters, it is the second
    one's entry that goes, while the mailbox closed is the first one's.  The
    second client's mailbox is left open, out of the table, and its own
    unregister changes nothing any more. *)
Theorem same_ID_unregisters_the_other_client b (first second : Client)
    (ch1 ch2 : Chan Event) :
  returned b = false ->
  ID first = ID second ->
  Events first ≠ Events second ->
  heap b !! Events first = Some ch1 -> closed ch1 = false ->
  heap b !! Events second = Some ch2 -> closed ch2 = false ->
  exists b3 b4,
    acts [Loop (Register first); Loop (Register second); Loop (Unregister first)] b = Ok b3
    /\ clients b3 !! ID second = None
    /\ heap b3 !! Events first = Some (mkChan (buf ch1) (cap ch1) true)
    /\ heap b3 !! Events second = Some ch2
    /\ run (Unregister second) b3 = Ok b4
    /\ clients b4 = clients b3 /\ heap b4 = heap b3.
Proof.
  intros Hret Hid Hne H1 Hopen1 H2 Hopen2.
  simpl. unfold run at 1. rewrite Hret. simpl.
  unfold run at 1. simpl. rewrite Hret. simpl.
  unfold run at 1. simpl. rewrite Hret. simpl.
  rewrite Hid, lookup_insert_eq. simpl.
  unfold heap_close, close. simpl. rewrite H1, Hopen1. simpl.
  eexists _, _. split; [reflexivity |]. simpl.
  split; [by rewrite lookup_delete_eq |].
  split; [by rewrite lookup_insert_eq |].
  split; [by rewrite lookup_insert_ne |].
  unfold run. simpl. rewrite Hret, lookup_delete_eq. simpl.
  split; [reflexivity |]. split; reflexivity.
Qed.

Lemma same_ID_unregisters_the_other_client_witness :
  exists b3,
    acts [Loop (Register slow); Loop (Register twin); Loop (Unregister slow)]
      (set_heap (<[3%nat := make_chan 64]> (heap two_clients)) two_clients) = Ok b3
    /\ clients b3 !! ID twin = None
    /\ heap b3 !! Events twin = Some (make_chan 64).
Proof.
  destruct (same_ID_unregisters_the_other_client
              (set_heap (<[3%nat := make_chan 64]> (heap two_clients)) two_clients)
              slow twin (mkChan [tick; tick] 2 false) (make_chan 64))
    as (b3 & _ & Hacts & Hgone & _ & Hopen & _).
  { reflexivity. }
  { reflexivity. }
  { discriminate. }
  { vm_compute. reflexivity. }
  { reflexivity. }
  { vm_compute. reflexivity. }
  { reflexivity. }
  exists b3. split; [exact Hacts |]. split; [exact Hgone | exact Hopen].
Defined.

(** Registering a new client and unregistering it again brings the table
    back to what it was; in between the count is one higher, and afterwards
    the client's mailbox is closed. *)
Theorem register_then_unregister_restores_table
    (clientID : string) (now : Z) (r : chan_ref) b :
  returned b = false ->
  clients b !! clientID = None ->
  exists c b1 b2,
    serve_register clientID now r b = Ok (c, b1)
    /\ ClientCount b1 = S (ClientCount b)
    /\ run (Unregister c) b1 = Ok b2
    /\ clients b2 = clients b
    /\ ClientCount b2 = ClientCount b
    /\ heap b2 = <[r := mkChan [] 64 true]> (heap b).
Proof.
  intros Hret Hfresh.
  unfold serve_register, new_client, run. simpl. rewrite Hret. simpl.
  eexists _, _, _. split; [reflexivity |].
  split; [by apply map_size_insert_None |].
  simpl. rewrite Hret, lookup_insert_eq. simpl.
  unfold heap_close, close. simpl. rewrite lookup_insert_eq. simpl.
  split; [reflexivity |]. simpl.
  rewrite delete_insert_id by exact Hfresh.
  split; [reflexivity |]. split; [reflexivity |].
  by rewrite insert_insert_eq.
Qed.

Lemma register_then_unregister_restores_table_witness :
  exists c b1 b2,
    serve_register "1700000000000000009" 0 7%nat two_clients = Ok (c, b1)
    /\ ClientCount b1 = 3%nat
    /\ run (Unregister c) b1 = Ok b2
    /\ clients b2 = clients two_clients.
Proof.
  destruct (register_then_unregister_restores_table "1700000000000000009" 0 7%nat
              two_clients)
    as (c & b1 & b2 & Hreg & Hcount & Hunreg & Hcl & _).
  { reflexivity. }
  { vm_compute. reflexivity. }
  exists c, b1, b2. split; [exact Hreg |]. split; [| split; [exact Hunreg | exact Hcl]].
  rewrite Hcount. vm_compute. reflexivity.
Defined.

(** Events broadcast one after the other reach a registered client's
    mailbox in the order of the broadcasts, behind what the mailbox already
    holds, as long as the mailbox has room for them. *)
Theorem broadcasts_reach_mailbox_in_order (events : list Event) : forall b (id : string) c ch,
  returned b = false ->
  mailboxes_ok b = true ->
  buf (broadcast b) = [] -> closed (broadcast b) = false -> (0 < cap (broadcast b))%nat ->
  clients b !! id = Some c ->
  heap b !! Events c = Some ch ->
  (length (buf ch) + length events <= cap ch)%nat ->
  exists b',
    acts (deliveries events) b = Ok b'
    /\ heap b' !! Events c = Some (mkChan (buf ch ++ events) (cap ch) false)
    /\ clients b' = clients b
    /\ buf (broadcast b') = [].
Proof.
  induction events as [| e events IH]; intros b id c ch Hret Hok Hempty Hintake Hcap Hc Hch Hroom.
  - exists b. simpl. rewrite app_nil_r. split; [reflexivity |].
    split; [| done].
    apply mailboxes_ok_iff in Hok as [Hopens _].
    pose proof (Hopens id c Hc) as Hopen.
    apply mailbox_open_spec in Hopen as [ch' [Hch' Hopen]].
    assert (ch' = ch) as -> by (simpl in *; congruence). rewrite Hch. f_equal.
    destruct ch. simpl in *. by subst.
  - simpl in Hroom. change (deliveries (e :: events))
      with (CallBroadcast (Type_ e) (Data e) :: Loop Intake :: deliveries events).
    cbn [acts act]. unfold Broadcast, send. rewrite Hintake, Hempty. simpl.
    destruct (cap (broadcast b)) as [| n] eqn:Hn; [lia |]. simpl.
    unfold run. simpl. rewrite Hret. simpl.
    assert (He : mkEvent (Type_ e) (Data e) = e) by (by destruct e). rewrite He.
    set (b1 := set_broadcast (mkChan [] (S n) false)
                 (set_broadcast (mkChan [e] (S n) false) b)).
    pose proof (mailboxes_ok_spec b Hok) as [Hopen Hnd].
    destruct (fanout_spec e (range_clients b1) b1)
      as (b2 & Hfan & Hcl & Hbr & _ & Hret2 & Hin & _); [exact Hopen | exact Hnd |].
    rewrite Hfan.
    assert (Hok2 : mailboxes_ok b2 = true).
    { by apply (fanout_keeps_mailboxes_ok e b1 b2). }
    assert (Hopenc : closed ch = false).
    { apply mailboxes_ok_iff in Hok as [Hopens _].
      pose proof (Hopens id c Hc) as Ho.
      apply mailbox_open_spec in Ho as [ch' [Hch' Ho]]. simpl in *. congruence. }
    assert (Hch2 : heap b2 !! Events c
                   = Some (mkChan (buf ch ++ [e]) (cap ch) false)).
    { rewrite (Hin c ch); [| apply elem_of_range_clients; by exists id | exact Hch].
      unfold deliver.
      assert (Hlt : (length (buf ch) <? cap ch)%nat = true) by (apply Nat.ltb_lt; lia).
      by rewrite Hlt, Hopenc. }
    destruct (IH b2 id c (mkChan (buf ch ++ [e]) (cap ch) false))
      as (b' & Hacts & Hheap & Hcl' & Hbuf'); try done.
    + by rewrite Hret2.
    + by rewrite Hbr.
    + by rewrite Hbr.
    + rewrite Hbr. simpl. lia.
    + by rewrite Hcl.
    + simpl. rewrite length_app. simpl. lia.
    + exists b'. split; [exact Hacts |]. simpl in Hheap.
      rewrite <- app_assoc in Hheap. split; [exact Hheap |].
      split; [by rewrite Hcl', Hcl | exact Hbuf'].
Qed.

Lemma broadcasts_reach_mailbox_in_order_witness :
  exists b',
    acts (deliveries [tick; tock; tick])
      (set_broadcast (make_chan 256) two_clients) = Ok b'
    /\ heap b' !! Events fast = Some (mkChan [tick; tock; tick] 64 false).
Proof.
  destruct (broadcasts_reach_mailbox_in_order [tick; tock; tick]
              (set_broadcast (make_chan 256) two_clients) (ID fast) fast (make_chan 64))
    as (b' & Hacts & Hheap & _).
  { reflexivity. }
  { vm_compute. reflexivity. }
  { reflexivity. }
  { reflexivity. }
  { simpl. lia. }
  { vm_compute. reflexivity. }
  { vm_compute. reflexivity. }
  { simpl. lia. }
  exists b'. split; [exact Hacts | exact Hheap].
Defined.

End BrokerInvariant.

(** ** The scanner's listing *)

Section Listing.

Implicit Types (sc : Scanner.t) (p q : Scanner.ptr) (l : list Scanner.ptr).

Lemma insert_by_name_perm sc p l : Scanner.insert_by_name sc p l ≡ₚ p :: l.
Proof.
  induction l as [| q l IH]; simpl; [reflexivity |].
  destruct (Scanner.deref sc p), (Scanner.deref sc q); try reflexivity.
  destruct (String.leb _ _); [reflexivity |].
  rewrite IH. apply perm_swap.
Qed.

Lemma insert_by_name_sorted sc p l :
  is_Some (Scanner.deref sc p) ->
  Forall (fun q => is_Some (Scanner.deref sc q)) l ->
  Sorted (by_name sc) l ->
  Sorted (by_name sc) (Scanner.insert_by_name sc p l).
Proof.
  intros [pp Hp] Hall Hsorted.
  induction l as [| q l IH]; simpl.
  - repeat constructor.
  - apply Forall_cons in Hall as [[qq Hq] Hall].
    apply Sorted_inv in Hsorted as [Hsorted Hhd].
    rewrite Hp, Hq.
    destruct (String.leb (Project.Name pp) (Project.Name qq)) eqn:Hle.
    + constructor; [by constructor |]. constructor.
      unfold by_name, name_of. by rewrite Hp, Hq.
    + constructor; [by apply IH |].
      assert (Hqp : by_name sc q p).
      { unfold by_name, name_of. rewrite Hp, Hq. simpl.
        destruct (String.leb_total (Project.Name pp) (Project.Name qq)); congruence. }
      destruct l as [| r l]; simpl.
      * by constructor.
      * apply Forall_cons in Hall as [[rr Hr] _]. rewrite Hp, Hr.
        destruct (String.leb (Project.Name pp) (Project.Name rr)); constructor;
          [exact Hqp | by apply HdRel_inv in Hhd].
Qed.

Lemma ListProjects_perm sc :
  Scanner.ListProjects sc ≡ₚ (map_to_list (Scanner.projects sc)).*1.
Proof.
  unfold Scanner.ListProjects.
  induction (map_to_list (Scanner.projects sc)).*1 as [| k keys IH]; simpl; [reflexivity |].
  by rewrite insert_by_name_perm, IH.
Qed.

Lemma ListProjects_member sc p :
  p ∈ Scanner.ListProjects sc <-> is_Some (Scanner.deref sc p).
Proof.
  rewrite ListProjects_perm, list_elem_of_fmap. split.
  - intros [[p' proj] [-> Hin]]. apply elem_of_map_to_list in Hin. by exists proj.
  - intros [proj Hp]. exists (p, proj). split; [reflexivity |].
    by apply elem_of_map_to_list.
Qed.

(** [ListProjects] returns every project of the table exactly once, in
    ascending order of the names. *)
Theorem ListProjects_lists_all_sorted sc :
  Scanner.ListProjects sc ≡ₚ (map_to_list (Scanner.projects sc)).*1
  /\ NoDup (Scanner.ListProjects sc)
  /\ (forall p, p ∈ Scanner.ListProjects sc <-> is_Some (Scanner.deref sc p))
  /\ Sorted (by_name sc) (Scanner.ListProjects sc).
Proof.
  unfold Scanner.ListProjects.
  assert (Hkeys : Forall (fun q => is_Some (Scanner.deref sc q))
                    (map_to_list (Scanner.projects sc)).*1).
  { apply Forall_forall. intros q Hq.
    apply list_elem_of_fmap in Hq as [[q' proj] [-> Hin]].
    apply elem_of_map_to_list in Hin. by exists proj. }
  assert (Hperm : forall keys,
             foldr (Scanner.insert_by_name sc) [] keys ≡ₚ keys).
  { induction keys as [| k keys IH]; simpl; [reflexivity |].
    by rewrite insert_by_name_perm, IH. }
  split; [apply Hperm |].
  split; [rewrite Hperm; apply NoDup_fst_map_to_list |].
  split.
  - intros p. apply ListProjects_member.
  - induction (map_to_list (Scanner.projects sc)).*1 as [| k keys IH]; simpl.
    + constructor.
    + apply Forall_cons in Hkeys as [Hk Hkeys].
      apply insert_by_name_sorted; [exact Hk | | by apply IH].
      rewrite Hperm. exact Hkeys.
Qed.

(** The watcher's search finds a project exactly when the table has one of
    that name, and what it finds is a project of the table with that name. *)
Theorem find_project_finds_by_name (projectName : string) sc :
  (Main.find_project projectName sc = None <->
   forall id proj, Scanner.projects sc !! id = Some proj ->
     Project.Name proj ≠ projectName)
  /\ (forall proj, Main.find_project projectName sc = Some proj ->
        Project.Name proj = projectName
        /\ exists id, Scanner.projects sc !! id = Some proj).
Proof.
  pose proof (ListProjects_member sc) as Hmem.
  unfold Main.find_project.
  destruct (find _ (Scanner.ListProjects sc)) as [p |] eqn:Hfind; simpl.
  - apply find_some in Hfind as [Hin Hmatch].
    destruct (Scanner.deref sc p) as [proj |] eqn:Hp; [| discriminate].
    apply String.eqb_eq in Hmatch. split.
    + split; [discriminate |]. intros Hnone. exfalso. by apply (Hnone p proj).
    + intros proj' [= <-]. split; [exact Hmatch | by exists p].
  - split; [| discriminate]. split; [| reflexivity]. intros _ id proj Hid Hname.
    pose proof (find_none _ _ Hfind id) as Hno. simpl in Hno.
    unfold Scanner.deref in Hno. rewrite Hid in Hno.
    rewrite (proj2 (String.eqb_eq _ _) Hname) in Hno.
    enough (true = false) by discriminate. apply Hno.
    apply list_elem_of_In, Hmem. by exists proj.
Qed.

Lemma find_project_finds_by_name_witness :
  Main.find_project "nothing" (scanner (sample_sys sample_mock 2)) = None
  /\ Main.find_project "webapp" (scanner (sample_sys sample_mock 2)) = Some (webapp 2).
Proof.
  pose proof (find_project_finds_by_name "nothing" (scanner (sample_sys sample_mock 2)))
    as [Hnone _].
  pose proof (find_project_finds_by_name "webapp" (scanner (sample_sys sample_mock 2)))
    as [Hsome Hfound].
  split.
  - apply Hnone. intros id proj Hid. simpl in Hid.
    apply lookup_singleton_Some in Hid as [_ <-]. discriminate.
  - destruct (Main.find_project "webapp" (scanner (sample_sys sample_mock 2)))
      as [proj |] eqn:Hfind.
    + destruct (Hfound proj eq_refl) as [_ [id Hid]]. simpl in Hid.
      apply lookup_singleton_Some in Hid as [_ <-]. reflexivity.
    + exfalso. apply (proj1 Hsome eq_refl "p1" (webapp 2)); reflexivity.
Defined.

End Listing.

(** ** More on the status update and the operation runner *)

Section StatusUpdate.
Context {W : Type} `{!DockerClient W}.

Implicit Types (s : Sys W) (proj : Project.t).

Lemma alter_twice (f : Project.t -> Project.t) (p : string)
    (m : gmap string Project.t) :
  (forall x, f (f x) = f x) -> alter f p (alter f p m) = alter f p m.
Proof.
  intros Hf. apply map_eq. intros q.
  destruct (decide (p = q)) as [<- | Hne].
  - rewrite !lookup_alter_eq. destruct (m !! p); simpl; by rewrite ?Hf.
  - by rewrite !lookup_alter_ne.
Qed.

(** The handler's status update is idempotent: for a project stored under
    its ID, as the scanner stores them, a second update with the same answer
    of the Docker client and the same clock stores what the first stored. *)
Theorem handler_updateProjectStatus_is_idempotent s (p : Scanner.ptr) proj answer :
  Scanner.deref (scanner s) p = Some proj ->
  Project.ID proj = p ->
  ListContainers (backend s) (Project.Name proj) = Ok answer ->
  exists s1,
    Handler.updateProjectStatus p s = Ok s1
    /\ Handler.updateProjectStatus p s1 = Ok s1.
Proof.
  intros Hp Hid Hlist. destruct answer as [members [e |]].
  - assert (Hfirst : Handler.updateProjectStatus p s
                     = Ok (set_scanner
                             (Scanner.assign p (Project.set_Status "unknown") (scanner s)) s)).
    { unfold Handler.updateProjectStatus. by rewrite Hp, Hlist. }
    eexists. split; [exact Hfirst |].
    unfold Handler.updateProjectStatus. simpl.
    unfold Scanner.deref, Scanner.assign in *. simpl.
    rewrite lookup_alter_eq, Hp. simpl. rewrite Hlist. simpl.
    unfold set_scanner. simpl. by rewrite alter_twice.
  - set (running := count_running members).
    set (status := status_rule running (Project.Total proj)).
    set (f := fun q => Project.set_LastUpdated (now s)
                         (Project.set_Status status (Project.set_Running running q))).
    assert (Hfirst : Handler.updateProjectStatus p s
                     = Ok (set_scanner
                             (Scanner.mk (Scanner.baseDir (scanner s))
                                (alter f p (Scanner.projects (scanner s)))) s)).
    { unfold Handler.updateProjectStatus. rewrite Hp, Hlist. simpl.
      fold (status_rule (count_running members) (Project.Total proj)).
      fold running. fold status. rewrite Hid.
      unfold Scanner.UpdateProjectStatus, Scanner.assign, Scanner.deref in *. simpl.
      rewrite !lookup_alter_eq, Hp. simpl. do 3 f_equal.
      apply map_eq. intros q. destruct (decide (p = q)) as [<- | Hne].
      - rewrite !lookup_alter_eq, Hp. reflexivity.
      - by rewrite !lookup_alter_ne. }
    eexists. split; [exact Hfirst |].
    unfold Handler.updateProjectStatus. simpl.
    unfold Scanner.deref in *. simpl. rewrite lookup_alter_eq, Hp. simpl.
    rewrite Hlist. simpl.
    fold (status_rule (count_running members) (Project.Total proj)).
    fold running. fold status. rewrite Hid.
    unfold Scanner.UpdateProjectStatus, Scanner.assign. simpl.
    rewrite !lookup_alter_eq, Hp. simpl. unfold set_scanner. simpl. do 3 f_equal.
    apply map_eq. intros q. destruct (decide (p = q)) as [<- | Hne].
    + rewrite !lookup_alter_eq, Hp. reflexivity.
    + by rewrite !lookup_alter_ne.
Qed.

End StatusUpdate.

Section StatusUpdateCases.

Lemma handler_updateProjectStatus_is_idempotent_witness :
  exists s1,
    Handler.updateProjectStatus "p1" (sample_sys five_members 5) = Ok s1
    /\ Handler.updateProjectStatus "p1" s1 = Ok s1.
Proof.
  edestruct (handler_updateProjectStatus_is_idempotent (sample_sys five_members 5) "p1"
               (webapp 5)) as (s1 & Hfirst & Hsecond).
  { reflexivity. }
  { reflexivity. }
  { vm_compute. reflexivity. }
  by exists s1.
Defined.

End StatusUpdateCases.

Section OperationEvents.
Context {W : Type} `{!DockerClient W}.

Implicit Types (s : Sys W) (proj : Project.t).

(** A request for a project the scanner does not know is answered with 404
    "Project not found" by each of the five operation handlers; nothing is
    started, so nothing is run and nothing is published. *)
Theorem unknown_project_is_not_found `{!ComposeExecutor W} (id : string) s :
  Scanner.projects (scanner s) !! id = None ->
  Forall (fun handler : string -> Sys W -> Handler.Response * list Handler.Goroutine =>
            handler id s = (Handler.writeError 404 "Project not found", [])
            /\ Handler.go_all (handler id s).2 s = Ok s)
         [Handler.Up; Handler.Down; Handler.Pull; Handler.Restart; Handler.Update].
Proof.
  intros Hnone.
  repeat apply Forall_cons_2; [| | | | | constructor];
    unfold Handler.Up, Handler.Down, Handler.Pull, Handler.Restart, Handler.Update,
      Handler.runComposeOperation, Scanner.GetProject;
    by rewrite Hnone.
Qed.

End OperationEvents.

Section OperationEventCases.

Lemma unknown_project_is_not_found_witness :
  Handler.Down "nope" (sample_sys sample_mock 2)
  = (Handler.writeError 404 "Project not found", []).
Proof.
  pose proof (unknown_project_is_not_found "nope" (sample_sys sample_mock 2) eq_refl)
    as Hall.
  apply Forall_cons in Hall as [_ Hall]. apply Forall_cons in Hall as [[Hdown _] _].
  exact Hdown.
Defined.

End OperationEventCases.

(** ** The goroutines of an operation *)

Section Interleavings.
Context {W : Type} `{!DockerClient W}.

Variables (id operation : string) (s0 : Sys W) (proj0 : Project.t).
Variables (returned : option ComposeResult.t * option error) (after : W).
Variable lines : list ComposeOutput.t.

Hypothesis known : Scanner.deref (scanner s0) id = Some proj0.
Hypothesis answers : forall name, exists answer, ListContainers after name = Ok answer.

Implicit Types (r : Operation.t W) (turn : Operation.Turn).

Lemma filter_output_snoc (trace : list SSE.Event) (e : SSE.Event) :
  filter is_output (trace ++ [e])
  = filter is_output trace ++ (if decide (is_output e) then [e] else [])
  /\ filter (fun e => ~ is_output e) (trace ++ [e])
     = filter (fun e => ~ is_output e) trace ++ (if decide (is_output e) then [] else [e]).
Proof.
  rewrite !filter_app, !filter_cons, !filter_nil. split; [reflexivity |].
  destruct (decide (is_output e));
    [rewrite decide_False by tauto | rewrite decide_True by tauto]; reflexivity.
Qed.

Lemma reconcile_after_reports (s : Sys W) (proj : Project.t) :
  Scanner.deref (scanner s) id = Some proj ->
  closed (SSE.broadcast (broker s)) = false ->
  backend s = after ->
  exists s' proj',
    Handler.reconcile_after id s = Ok s'
    /\ Scanner.deref (scanner s') id = Some proj'
    /\ published s'
       = published s ++ [SSE.mkEvent "project:status" (Handler.status_of proj')]
    /\ closed (SSE.broadcast (broker s')) = false.
Proof.
  intros Hp Hopen Hback.
  unfold Handler.reconcile_after, Scanner.GetProject.
  pose proof Hp as Hp'. unfold Scanner.deref in Hp'. rewrite Hp'.
  destruct (handler_updateProjectStatus_total s id proj Hp)
    as (s2 & proj2 & Hupd & Hderef & Hpub2 & Hbr2 & _).
  { rewrite Hback. apply answers. }
  rewrite Hupd. simpl. rewrite Hderef.
  destruct (publish_ok "project:status" (Handler.status_of proj2) s2)
    as (s3 & Hpub3 & _ & Hsc3 & _ & Hpubl3 & Hopen3 & _); [by rewrite Hbr2 |].
  exists s3, proj2. split; [exact Hpub3 |]. split; [by rewrite Hsc3 |].
  split; [by rewrite Hpubl3, Hpub2 | exact Hopen3].
Qed.

(** One step: a goroutine that moves keeps the order of the events and what
    else holds on the way, and has fewer steps left; none panics. *)
Lemma step_keeps turn r :
  in_order id operation s0 lines r ->
  on_course s0 returned after r ->
  Operation.step id operation turn r = Blocked
  \/ exists r',
       Operation.step id operation turn r = Ok r'
       /\ in_order id operation s0 lines r'
       /\ on_course s0 returned after r'
       /\ (steps_left r' < steps_left r)%nat.
Proof.
  intros (trace & relayed & Hpub & Hlines & Hout & Hop)
         (Hopen & Hret & Hleft & Hcap & Hclosed & Hrelay & Hscan).
  destruct r as [s stage pending rets lvs ch hand rdone].
  unfold in_flight, steps_left in *. simpl in *. subst rets lvs.
  destruct turn; simpl.
  - (* the operation goroutine *)
    destruct stage; simpl in *.
    + (* op is running *)
      destruct pending as [| o rest].
      * (* op returns *)
        destruct (publish_ok "compose:complete"
                    (Operation.completion id operation returned) (set_world after s))
          as (s1 & Hpub1 & Hback1 & Hsc1 & _ & Hpubl1 & Hopen1 & _); [exact Hopen |].
        right. rewrite Hpub1. simpl. eexists. split; [reflexivity |].
        destruct (filter_output_snoc trace
                    (SSE.mkEvent "compose:complete"
                       (Operation.completion id operation returned))) as [Hf1 Hf2].
        rewrite decide_False in Hf1, Hf2 by (unfold is_output; simpl; discriminate).
        split; [| split].
        -- exists (trace ++ [SSE.mkEvent "compose:complete"
                               (Operation.completion id operation returned)]), relayed.
           unfold in_flight. simpl.
           split; [by rewrite Hpubl1, app_assoc; simpl; rewrite Hpub |].
           split; [exact Hlines |].
           split; [by rewrite Hf1, app_nil_r |].
           split; [reflexivity |]. by rewrite Hf2, Hop.
        -- unfold on_course. simpl.
           split; [exact Hopen1 |]. do 3 (split; [done |]). split; [done |].
           split; [intros ->; by destruct Hrelay |].
           split; [by rewrite Hsc1 | by rewrite Hback1].
        -- unfold steps_left. simpl. lia.
      * (* op sends a line *)
        unfold send. rewrite Hclosed.
        destruct (Nat.ltb_spec (length (buf ch)) (cap ch)) as [Hroom | Hfull];
          [right | by left].
        simpl. eexists. split; [reflexivity |]. split; [| split].
        -- exists trace, relayed. unfold in_flight. simpl.
           split; [exact Hpub |].
           split; [by rewrite <- (app_assoc (buf ch)) |]. by split.
        -- unfold on_course. simpl. do 4 (split; [done |]). split; [done |].
           split; [intros ->; by destruct Hrelay | exact Hscan].
        -- unfold steps_left. simpl. rewrite length_app. simpl. lia.
    + (* complete is published: the status update *)
      destruct Hop as [-> Hop]. destruct Hscan as [Hsc Hback].
      destruct (reconcile_after_reports s proj0) as (s1 & proj1 & Hrec & Hderef & Hpubl1 & Hopen1);
        [by rewrite Hsc | exact Hopen | exact Hback |].
      right. rewrite Hrec. simpl. eexists. split; [reflexivity |].
      destruct (filter_output_snoc trace
                  (SSE.mkEvent "project:status" (Handler.status_of proj1))) as [Hf1 Hf2].
      rewrite decide_False in Hf1, Hf2 by (unfold is_output; simpl; discriminate).
      split; [| split].
      * exists (trace ++ [SSE.mkEvent "project:status" (Handler.status_of proj1)]), relayed.
        unfold in_flight. simpl.
        split; [by rewrite Hpubl1, Hpub, app_assoc |].
        split; [exact Hlines |].
        split; [by rewrite Hf1, app_nil_r |].
        split; [reflexivity |]. exists proj1. split; [exact Hderef |].
        by rewrite Hf2, Hop.
      * unfold on_course. simpl. do 4 (split; [done |]). split; [done |].
        split; [intros ->; by destruct Hrelay | done].
      * unfold steps_left. simpl. lia.
    + (* status is published: the goroutine returns *)
      unfold close. rewrite Hclosed. simpl. right. eexists. split; [reflexivity |].
      split; [| split].
      * exists trace, relayed. unfold in_flight. simpl. by repeat (split; [done |]).
      * unfold on_course. simpl. do 4 (split; [done |]). split; [done |].
        split; [intros ->; by destruct Hrelay | done].
      * unfold steps_left. simpl. lia.
    + by left.
  - (* the relay *)
    destruct rdone; [by left |].
    destruct hand as [o |]; simpl in *.
    + (* it publishes the line in its hand *)
      destruct (publish_ok "compose:output" (Operation.output id operation o) s)
        as (s1 & Hpub1 & Hback1 & Hsc1 & _ & Hpubl1 & Hopen1 & _); [exact Hopen |].
      right. rewrite Hpub1. simpl. eexists. split; [reflexivity |].
      destruct (filter_output_snoc trace
                  (SSE.mkEvent "compose:output" (Operation.output id operation o)))
        as [Hf1 Hf2].
      rewrite decide_True in Hf1, Hf2 by reflexivity.
      split; [| split].
      * exists (trace ++ [SSE.mkEvent "compose:output" (Operation.output id operation o)]),
          (relayed ++ [o]).
        unfold in_flight. simpl.
        split; [by rewrite Hpubl1, Hpub, app_assoc |].
        split; [by rewrite <- app_assoc |].
        split; [by rewrite Hf1, Hout, fmap_app |].
        rewrite Hf2, app_nil_r. destruct stage; try done.
        -- destruct Hop as [Hpend (proj' & Hderef & Hop)]. split; [exact Hpend |].
           exists proj'. by rewrite Hsc1.
        -- destruct Hop as [Hpend (proj' & Hderef & Hop)]. split; [exact Hpend |].
           exists proj'. by rewrite Hsc1.
      * unfold on_course. simpl. split; [exact Hopen1 |]. do 3 (split; [done |]).
        split; [done |]. split; [done |].
        destruct stage; try done; [by rewrite Hsc1 |].
        destruct Hscan. by rewrite Hsc1, Hback1.
      * unfold steps_left. simpl. lia.
    + (* it receives *)
      unfold recv. destruct (buf ch) as [| o rest] eqn:Hbuf.
      * rewrite Hclosed. destruct stage; try by left.
        right. simpl. eexists. split; [reflexivity |]. split; [| split].
        -- exists trace, relayed. unfold in_flight. simpl. rewrite Hbuf.
           by repeat (split; [done |]).
        -- unfold on_course. simpl. by rewrite Hbuf.
        -- unfold steps_left. simpl. rewrite Hbuf. simpl. lia.
      * right. simpl. eexists. split; [reflexivity |]. split; [| split].
        -- exists trace, relayed. unfold in_flight. simpl.
           by repeat (split; [done |]).
        -- unfold on_course. simpl. by repeat (split; [done |]).
        -- unfold steps_left. simpl. lia.
Qed.

(** When neither goroutine can move, both have returned: the sender at a
    full channel leaves the relay a line to take, and the relay at the
    empty channel leaves the operation goroutine its next step. *)
Lemma both_blocked r :
  in_order id operation s0 lines r ->
  on_course s0 returned after r ->
  Operation.step id operation Operation.OperationTurn r = Blocked ->
  Operation.step id operation Operation.RelayTurn r = Blocked ->
  Operation.finished r = true.
Proof.
  intros (trace & relayed & Hpub & Hlines & Hout & Hop)
         (Hopen & Hret & Hleft & Hcap & Hclosed & Hrelay & Hscan) Hoper Hrel.
  destruct r as [s stage pending rets lvs ch hand rdone].
  unfold Operation.finished. simpl in *. subst rets lvs.
  assert (Hhand : forall o, hand = Some o -> rdone = false -> False).
  { intros o -> ->. simpl in Hrel.
    destruct (publish_ok "compose:output" (Operation.output id operation o) s)
      as (s1 & Hpub1 & _); [exact Hopen |].
    rewrite Hpub1 in Hrel. discriminate. }
  destruct stage; simpl in *.
  - exfalso. destruct pending as [| o rest].
    + destruct (publish_ok "compose:complete"
                  (Operation.completion id operation returned) (set_world after s))
        as (s1 & Hpub1 & _); [exact Hopen |].
      rewrite Hpub1 in Hoper. discriminate.
    + unfold send in Hoper. rewrite Hclosed in Hoper.
      destruct (Nat.ltb_spec (length (buf ch)) (cap ch)) as [Hroom | Hfull];
        [discriminate |].
      destruct rdone; [by destruct Hrelay |].
      destruct hand as [o' |]; [by eapply Hhand |].
      unfold recv in Hrel. destruct (buf ch) as [| o' rest'];
        [simpl in Hfull; lia | discriminate].
  - exfalso. destruct Hscan as [Hsc Hback].
    destruct (reconcile_after_reports s proj0) as (s1 & proj1 & Hrec & _);
      [by rewrite Hsc | exact Hopen | exact Hback |].
    rewrite Hrec in Hoper. discriminate.
  - exfalso. unfold close in Hoper. rewrite Hclosed in Hoper. discriminate.
  - destruct rdone; [reflexivity |]. exfalso.
    destruct hand as [o' |]; [by eapply Hhand |].
    unfold recv in Hrel. rewrite Hclosed in Hrel.
    destruct (buf ch); discriminate.
Qed.

Lemma finished_nothing_left r :
  in_order id operation s0 lines r ->
  on_course s0 returned after r ->
  Operation.finished r = true ->
  in_flight r = [] /\ steps_left r = 0%nat.
Proof.
  intros (trace & relayed & _ & _ & _ & Hop) (_ & _ & _ & _ & _ & Hrelay & _) Hfin.
  unfold Operation.finished in Hfin. unfold in_flight, steps_left.
  destruct (Operation.stage r) eqn:Hstage; try discriminate.
  destruct (Hrelay Hfin) as (_ & -> & ->). destruct Hop as [-> _].
  by rewrite Hfin.
Qed.

(** Any schedule: the run does not panic, and the order is kept. *)
Lemma exec_keeps (turns : list Operation.Turn) : forall r,
  in_order id operation s0 lines r ->
  on_course s0 returned after r ->
  exists r',
    Operation.exec id operation turns r = Ok r'
    /\ in_order id operation s0 lines r'
    /\ on_course s0 returned after r'.
Proof.
  induction turns as [| turn turns IH]; intros r Hord Hon; simpl.
  - by exists r.
  - destruct (step_keeps turn r Hord Hon) as [-> | (r1 & -> & Hord1 & Hon1 & _)].
    + by apply IH.
    + by apply IH.
Qed.

(** The schedule on which the goroutines take turns brings both to their
    end. *)
Lemma alternate_finishes (n : nat) : forall r,
  in_order id operation s0 lines r ->
  on_course s0 returned after r ->
  (steps_left r <= n)%nat ->
  exists r',
    Operation.exec id operation (alternate n) r = Ok r'
    /\ Operation.finished r' = true.
Proof.
  induction n as [| n IH]; intros r Hord Hon Hleft.
  - exists r. split; [reflexivity |].
    destruct (Operation.finished r) eqn:Hfin; [reflexivity |].
    unfold steps_left in Hleft. unfold Operation.finished in Hfin.
    destruct (Operation.stage r); try lia.
    rewrite Hfin in Hleft. lia.
  - change (alternate (S n))
      with (Operation.OperationTurn :: Operation.RelayTurn :: alternate n).
    cbn [Operation.exec].
    destruct (step_keeps Operation.OperationTurn r Hord Hon)
      as [Hoper | (r1 & Hoper & Hord1 & Hon1 & Hless1)]; rewrite Hoper.
    + destruct (step_keeps Operation.RelayTurn r Hord Hon)
        as [Hrel | (r2 & Hrel & Hord2 & Hon2 & Hless2)]; rewrite Hrel.
      * apply IH; [exact Hord | exact Hon |].
        pose proof (both_blocked r Hord Hon Hoper Hrel) as Hfin.
        destruct (finished_nothing_left r Hord Hon Hfin) as [_ ->]. lia.
      * apply IH; [exact Hord2 | exact Hon2 | lia].
    + destruct (step_keeps Operation.RelayTurn r1 Hord1 Hon1)
        as [Hrel | (r2 & Hrel & Hord2 & Hon2 & Hless2)]; rewrite Hrel.
      * apply IH; [exact Hord1 | exact Hon1 | lia].
      * apply IH; [exact Hord2 | exact Hon2 | lia].
Qed.

End Interleavings.

Section OperationOrder.
Context {W : Type} `{!DockerClient W}.

Lemma exec_app (id operation : string) (turns more : list Operation.Turn) :
  forall (r r' : Operation.t W),
  Operation.exec id operation turns r = Ok r' ->
  Operation.exec id operation (turns ++ more) r = Operation.exec id operation more r'.
Proof.
  induction turns as [| turn turns IH]; intros r r' Hexec; simpl in *.
  - by injection Hexec as ->.
  - destruct (Operation.step id operation turn r) as [r1 | |]; [| | discriminate];
      by apply IH.
Qed.

(** The events of an operation, on every schedule of its two goroutines.
    No schedule makes a goroutine panic.  At every point of every schedule
    the [compose:output] events published are those of the first lines of
    the operation, one for each and in the order the operation sent them;
    [compose:complete] is published only when the operation has sent all
    its lines, and [project:status] behind it, with the project as the
    status update has just stored it.  Every schedule can be continued until
    both goroutines have returned, and then every line has its event. *)
Theorem operation_events_in_order
    (id operation : string) (op : composeOp W) (s : Sys W) (proj : Project.t) :
  Scanner.deref (scanner s) id = Some proj ->
  closed (SSE.broadcast (broker s)) = false ->
  let ran := op Background (Project.Path proj) true (mkProc (backend s) [] 0%nat) in
  (forall name, exists answer, ListContainers (world ran.2) name = Ok answer) ->
  exists r0,
    Operation.start op id s = Ok r0
    /\ forall turns,
         exists r,
           Operation.exec id operation turns r0 = Ok r
           /\ in_order id operation s (sent ran.2) r
           /\ (Operation.finished r = true -> in_flight r = [])
           /\ exists more r',
                Operation.exec id operation (turns ++ more) r0 = Ok r'
                /\ Operation.finished r' = true.
Proof.
  intros Hp Hopen ran Hanswers. subst ran.
  unfold Operation.start. rewrite Hp.
  destruct (op Background (Project.Path proj) true (mkProc (backend s) [] 0%nat))
    as [returned proc] eqn:Hop.
  simpl in Hanswers. eexists. split; [reflexivity |].
  set (r0 := Operation.mk s Operation.Running (sent proc) returned (world proc)
               (make_chan 100) None false).
  assert (Hord0 : in_order id operation s (sent proc) r0).
  { exists [], []. unfold in_flight. simpl. by rewrite app_nil_r. }
  assert (Hon0 : on_course s returned (world proc) r0).
  { unfold on_course. simpl. by repeat (split; [done |]). }
  intros turns.
  destruct (exec_keeps id operation s proj returned (world proc) (sent proc) Hp Hanswers
              turns r0 Hord0 Hon0) as (r & Hexec & Hord & Hon).
  exists r. split; [exact Hexec |]. split; [exact Hord |]. split.
  - intros Hfin.
    by destruct (finished_nothing_left id operation s returned (world proc) (sent proc)
                   r Hord Hon Hfin).
  - destruct (alternate_finishes id operation s proj returned (world proc) (sent proc)
                Hp Hanswers (steps_left r) r Hord Hon) as (r' & Hmore & Hfin); [lia |].
    exists (alternate (steps_left r)), r'. split; [| exact Hfin].
    by rewrite (exec_app id operation turns _ r0 r Hexec).
Qed.

End OperationOrder.

Section OperationOrderCases.

Lemma operation_events_in_order_witness :
  exists r0,
    Operation.start MockComposeClient.Down "p1" (sample_sys five_members 5) = Ok r0
    /\ forall turns,
         exists r,
           Operation.exec "p1" "down" turns r0 = Ok r
           /\ in_order "p1" "down" (sample_sys five_members 5)
                (sent (MockComposeClient.Down Background
                         (Project.Path (webapp 5)) true
                         (mkProc (backend (sample_sys five_members 5)) [] 0%nat)).2) r
           /\ (Operation.finished r = true -> in_flight r = [])
           /\ exists more r',
                Operation.exec "p1" "down" (turns ++ more) r0 = Ok r'
                /\ Operation.finished r' = true.
Proof.
  apply (operation_events_in_order "p1" "down" MockComposeClient.Down
           (sample_sys five_members 5) (webapp 5)).
  - reflexivity.
  - reflexivity.
  - intros name. eexists. reflexivity.
Defined.

End OperationOrderCases.

(** ** The page handler's status update *)

Section PageStatus.
Context {W : Type} `{!DockerClient W}.

Implicit Types (s : Sys W) (proj : Project.t).

Lemma same_but_status_fields (a b : Project.t) :
  same_but_status a b ->
  Project.ID a = Project.ID b /\ Project.Name a = Project.Name b
  /\ Project.Total a = Project.Total b
  /\ Project.LastUpdated a = Project.LastUpdated b.
Proof.
  unfold same_but_status, Project.set_Status, Project.set_Running. simpl.
  intros Heq. by injection Heq.
Qed.

Lemma page_update_one s (p : Scanner.ptr) proj (members : list ContainerInfo.t)
    (err : option error) :
  Scanner.deref (scanner s) p = Some proj ->
  ListContainers (backend s) (Project.Name proj) = Ok (members, err) ->
  let running := count_running members in
  let status := status_rule running (Project.Total proj) in
  exists s1,
    PageHandler.update_one p s = Ok s1
    /\ backend s1 = backend s /\ broker s1 = broker s /\ published s1 = published s
    /\ forall q,
         Scanner.deref (scanner s1) q
         = if decide (q = p /\ err = None)
           then Some (Project.set_Status status (Project.set_Running running proj))
           else Scanner.deref (scanner s) q.
Proof.
  intros Hp Hlist running status. unfold PageHandler.update_one. rewrite Hp, Hlist. simpl.
  destruct err as [e |].
  - exists s. repeat (split; [reflexivity |]). intros q.
    rewrite decide_False; [reflexivity | by intros [_ ?]].
  - fold (status_rule (count_running members) (Project.Total proj)).
    fold running. fold status.
    eexists. split; [reflexivity |]. simpl. repeat (split; [reflexivity |]).
    intros q. unfold Scanner.deref, Scanner.assign in *. simpl.
    destruct (decide (q = p)) as [-> | Hne].
    + rewrite decide_True by done. by rewrite !lookup_alter_eq, Hp.
    + rewrite decide_False by (by intros [? _]). by rewrite !lookup_alter_ne.
Qed.

(** The page handler's update never publishes and never stores "unknown":
    a project whose query fails, or that is not in the list, stays exactly
    as it was.  A project of the list whose query succeeds gets the running
    count and the status by the same rule as in the handler's update, and
    nothing else of it changes, not even [LastUpdated]. *)
Theorem page_update_skips_failed_queries (projects : list Scanner.ptr) : forall s,
  (forall p, p ∈ projects -> is_Some (Scanner.deref (scanner s) p)) ->
  (forall name, exists answer, ListContainers (backend s) name = Ok answer) ->
  exists s',
    PageHandler.updateProjectStatuses projects s = Ok s'
    /\ backend s' = backend s /\ broker s' = broker s /\ published s' = published s
    /\ forall q proj,
         Scanner.deref (scanner s) q = Some proj ->
         exists proj',
           Scanner.deref (scanner s') q = Some proj'
           /\ same_but_status proj proj'
           /\ (forall members,
                 q ∈ projects ->
                 ListContainers (backend s) (Project.Name proj) = Ok (members, None) ->
                 Project.Running proj' = count_running members
                 /\ Project.Status proj'
                    = status_rule (count_running members) (Project.Total proj))
           /\ (q ∉ projects
               \/ (exists members e,
                     ListContainers (backend s) (Project.Name proj) = Ok (members, Some e)) ->
               proj' = proj).
Proof.
  induction projects as [| p rest IH]; intros s Hknown Hanswers.
  - exists s. simpl. repeat (split; [reflexivity |]).
    intros q proj Hq. exists proj. split; [exact Hq |]. split; [reflexivity |].
    split; [| done]. intros members Hin. by apply elem_of_nil in Hin.
  - destruct (Hknown p) as [pproj Hp]; [by left |].
    destruct (Hanswers (Project.Name pproj)) as [[pmembers perr] Hplist].
    destruct (page_update_one s p pproj pmembers perr Hp Hplist)
      as (s1 & Hone & Hb1 & Hbr1 & Hpub1 & Hsc1).
    destruct (IH s1) as (s' & Hrest & Hb' & Hbr' & Hpub' & Hsc').
    { intros q Hq. rewrite Hsc1. destruct (decide _); [done |].
      apply Hknown. by right. }
    { intros name. rewrite Hb1. apply Hanswers. }
    exists s'. simpl. rewrite Hone. simpl.
    split; [exact Hrest |]. split; [congruence |]. split; [congruence |].
    split; [congruence |].
    intros q proj Hq.
    set (proj1 := if decide (q = p /\ perr = None)
                  then Project.set_Status
                         (status_rule (count_running pmembers) (Project.Total pproj))
                         (Project.set_Running (count_running pmembers) pproj)
                  else proj).
    assert (Hq1 : Scanner.deref (scanner s1) q = Some proj1).
    { rewrite Hsc1. unfold proj1. by destruct (decide _). }
    assert (Hsame1 : same_but_status proj proj1).
    { unfold proj1. destruct (decide _) as [[-> _] |]; [| reflexivity].
      assert (pproj = proj) as -> by congruence. reflexivity. }
    destruct (same_but_status_fields _ _ Hsame1) as (_ & Hname1 & Htot1 & _).
    destruct (Hsc' q proj1 Hq1) as (proj' & Hq' & Hsame' & Hok' & Hkeep').
    exists proj'. split; [exact Hq' |].
    split; [unfold same_but_status in *; congruence |].
    rewrite Hb1, <- Hname1 in Hok', Hkeep'. rewrite <- Htot1 in Hok'.
    split.
    + intros members Hin Hlist.
      destruct (decide (q ∈ rest)) as [Hrest_in | Hrest_out]; [by apply Hok' |].
      apply elem_of_cons in Hin as [-> | Hin]; [| done].
      assert (pproj = proj) as -> by congruence.
      assert (pmembers = members /\ perr = None) as [-> ->] by (split; congruence).
      rewrite (Hkeep' (or_introl Hrest_out)). unfold proj1.
      rewrite decide_True by done. done.
    + intros Hcase.
      assert (Hp1 : proj1 = proj).
      { unfold proj1. destruct (decide _) as [[-> ->] |]; [| reflexivity].
        assert (pproj = proj) as -> by congruence.
        destruct Hcase as [Hout | (members & e & Hfail)].
        - exfalso. apply Hout. by left.
        - congruence. }
      transitivity proj1; [| exact Hp1]. apply Hkeep'.
      destruct Hcase as [Hout | Hfail]; [| by right].
      left. intros Hin. apply Hout. by right.
Qed.

End PageStatus.

Section PageStatusCases.

Lemma page_update_skips_failed_queries_witness :
  PageHandler.updateProjectStatuses ["p1"] (sample_sys unreachable_host 5)
  = Ok (sample_sys unreachable_host 5)
  /\ exists s' proj',
       PageHandler.updateProjectStatuses ["p1"] (sample_sys five_members 5) = Ok s'
       /\ Scanner.deref (scanner s') "p1" = Some proj'
       /\ Project.Running proj' = 3 /\ Project.Status proj' = "partial"
       /\ Project.LastUpdated proj' = 0.
Proof.
  split.
  - destruct (page_update_skips_failed_queries ["p1"] (sample_sys unreachable_host 5))
      as (s' & Hrun & _).
    { intros p Hp. apply list_elem_of_singleton in Hp as ->. by eexists. }
    { intros name. eexists. vm_compute. reflexivity. }
    rewrite Hrun. vm_compute in Hrun. by injection Hrun as <-.
  - destruct (page_update_skips_failed_queries ["p1"] (sample_sys five_members 5))
      as (s' & Hrun & _ & _ & _ & Hsc).
    { intros p Hp. apply list_elem_of_singleton in Hp as ->. by eexists. }
    { intros name. eexists. reflexivity. }
    destruct (Hsc "p1" (webapp 5) eq_refl) as (proj' & Hq & Hsame & Hok & _).
    exists s', proj'. split; [exact Hrun |]. split; [exact Hq |].
    edestruct Hok as [Hrunning Hstatus]; [by left | vm_compute; reflexivity |].
    destruct (same_but_status_fields _ _ Hsame) as (_ & _ & _ & Hlast).
    split; [exact Hrunning |]. split; [exact Hstatus | by rewrite <- Hlast].
Defined.

End PageStatusCases.

(** ** The watcher on single events *)

Section WatchEvent.
Context {W : Type} `{!DockerClient W}.

(** An event of a container without a project, or of a project the scanner
    does not know, makes the watcher publish exactly one [container:status]
    event: the first 12 bytes of the ID, the action as status, the
    normalised action as state.  It asks the Docker client nothing, changes
    no project, and stays subscribed. *)
Theorem event_outside_known_projects_only_publishes
    (event : ContainerEvent.t) (w : @Main.Watcher W) :
  (12 <= String.length (ContainerEvent.ID event))%nat ->
  closed (SSE.broadcast (broker (Main.sys w))) = false ->
  ContainerEvent.Project event = ""
  \/ Main.find_project (ContainerEvent.Project event) (scanner (Main.sys w)) = None ->
  exists w' short rest,
    Main.receive (Main.GotEvent event) w = Ok (false, w')
    /\ Main.did w' = Main.did w
    /\ scanner (Main.sys w') = scanner (Main.sys w)
    /\ ContainerEvent.ID event = short +:+ rest /\ String.length short = 12%nat
    /\ published (Main.sys w')
       = published (Main.sys w)
         ++ [SSE.mkEvent "container:status"
               (SSE.ContainerStatusData
                  (ContainerStatusEvent.mk short (ContainerEvent.Name event)
                     (ContainerEvent.Action event)
                     (Main.mapActionToState (ContainerEvent.Action event)) ""
                     (ContainerEvent.Project event) (ContainerEvent.Service event)))].
Proof.
  intros Hlen Hopen Hcase.
  destruct (substring_prefix 12 _ Hlen) as [rest [Heq Hl]].
  unfold Main.receive, Main.containerStatusOf. rewrite (slice_to_ok _ _ Hlen). simpl.
  match goal with
  | |- context [publish ?t ?d ?s1] =>
      destruct (publish_ok t d s1) as (s1' & Hpub & _ & Hsc & _ & Hpubl & _);
      [exact Hopen |]
  end.
  rewrite Hpub. simpl.
  assert (Hskip : (if negb (String.eqb (ContainerEvent.Project event) "")
                   then Main.updateProjectStatus (ContainerEvent.Project event) s1'
                   else Ok s1') = Ok s1').
  { destruct Hcase as [-> | Hnone]; [reflexivity |].
    destruct (negb _); [| reflexivity].
    unfold Main.updateProjectStatus. by rewrite Hsc, Hnone. }
  rewrite Hskip. simpl.
  eexists _, _, rest. split; [reflexivity |]. simpl.
  split; [reflexivity |]. split; [exact Hsc |]. split; [exact Heq |].
  split; [exact Hl | exact Hpubl].
Qed.

End WatchEvent.

Section WatchEventCases.

Lemma event_outside_known_projects_only_publishes_witness :
  exists w' short rest,
    Main.receive (Main.GotEvent stray_event)
      (Main.mkWatcher (sample_sys unreachable_host 5) [Main.Subscribed]) = Ok (false, w')
    /\ Main.did w' = [Main.Subscribed]
    /\ scanner (Main.sys w') = scanner (sample_sys unreachable_host 5)
    /\ ContainerEvent.ID stray_event = short +:+ rest /\ String.length short = 12%nat
    /\ published (Main.sys w')
       = [] ++ [SSE.mkEvent "container:status"
                 (SSE.ContainerStatusData
                    (ContainerStatusEvent.mk short "tools-shell-1" "die"
                       (Main.mapActionToState "die") "" "tools" "shell"))].
Proof.
  apply (event_outside_known_projects_only_publishes stray_event
           (Main.mkWatcher (sample_sys unreachable_host 5) [Main.Subscribed])).
  - simpl. lia.
  - reflexivity.
  - right. vm_compute. reflexivity.
Defined.

End WatchEventCases.

(** ** Events of the mock client *)

Section MockEvents.

Implicit Types (m : MockClient.t) (ch : Chan ContainerEvent.t).

Lemma offer_all_open (events : list ContainerEvent.t) : forall ch,
  closed ch = false ->
  offer_all events ch
  = mkChan (buf ch ++ take (cap ch - length (buf ch)) events) (cap ch) false.
Proof.
  unfold offer_all.
  induction events as [| e events IH]; intros ch Hopen; simpl.
  - rewrite take_nil, app_nil_r. destruct ch. simpl in *. by subst.
  - unfold MockClient.offer at 2. unfold send. rewrite Hopen.
    destruct (Nat.ltb_spec (length (buf ch)) (cap ch)) as [Hlt | Hge].
    + rewrite IH by reflexivity. simpl. rewrite length_app. simpl.
      replace (cap ch - length (buf ch))%nat
        with (S (cap ch - (length (buf ch) + 1)))%nat by lia.
      simpl. by rewrite <- app_assoc.
    + rewrite IH by exact Hopen.
      replace (cap ch - length (buf ch))%nat with 0%nat by lia. reflexivity.
Qed.

Lemma set_all_subscribers (projectName state status : string)
    (l : list (string * ContainerInfo.t)) : forall m,
  let action := if String.eqb state "exited" then "stop" else "start" in
  let m' :=
    foldl (fun m '(cid, c) =>
             if String.eqb (ContainerInfo.ProjectName c) projectName then
               let c' := ContainerInfo.with_state state status c in
               let action := if String.eqb state "exited" then "stop" else "start" in
               MockClient.emitEvent c' action
                 (MockClient.mk (<[cid := c']> (MockClient.containers m))
                    (MockClient.eventSubs m) (MockClient.clock m))
             else m) m l in
  MockClient.eventSubs m'
  = offer_all
      (event_of action (MockClient.clock m) <$>
         (ContainerInfo.with_state state status <$>
            filter (fun c => ContainerInfo.ProjectName c = projectName) l.*2))
    <$> MockClient.eventSubs m.
Proof.
  induction l as [| [cid0 c0] l IH]; intros m; simpl.
  - unfold offer_all. simpl. by rewrite list_fmap_id.
  - rewrite IH. clear IH.
    rewrite filter_cons. simpl.
    destruct (String.eqb_spec (ContainerInfo.ProjectName c0) projectName) as [Heq | Hne].
    + rewrite decide_True by exact Heq. simpl.
      rewrite <- list_fmap_compose. reflexivity.
    + rewrite decide_False by exact Hne. reflexivity.
Qed.

(** [SetAllContainersState] emits one event for each container of the
    project, a stop when the new state is exited and a start otherwise, with
    the container's ID, name, image, project and service.  Every subscriber
    is offered these events in the same order and keeps as many of the first
    as its channel has room for; the others are lost to it. *)
Theorem mock_project_change_notifies_subscribers
    (projectName state status : string) m :
  let action := if String.eqb state "exited" then "stop" else "start" in
  let members :=
    filter (fun c => ContainerInfo.ProjectName c = projectName)
           (map_to_list (MockClient.containers m)).*2 in
  exists events,
    events ≡ₚ event_of action (MockClient.clock m) <$> members
    /\ forall (i : nat) ch,
         MockClient.eventSubs m !! i = Some ch ->
         closed ch = false ->
         MockClient.eventSubs (MockClient.SetAllContainersState projectName state status m)
           !! i
         = Some (mkChan (buf ch ++ take (cap ch - length (buf ch)) events) (cap ch) false).
Proof.
  intros action members.
  exists (event_of action (MockClient.clock m) <$>
            (ContainerInfo.with_state state status <$> members)).
  split.
  - rewrite <- list_fmap_compose. reflexivity.
  - intros i ch Hi Hopen. unfold MockClient.SetAllContainersState.
    rewrite set_all_subscribers, list_lookup_fmap, Hi. simpl.
    by rewrite offer_all_open.
Qed.

End MockEvents.

Section MockEventCases.

Lemma mock_project_change_notifies_subscribers_witness :
  exists events,
    events ≡ₚ event_of "stop" (MockClient.clock (MockClient.WatchEvents five_members)) <$>
               filter (fun c => ContainerInfo.ProjectName c = "webapp")
                 (map_to_list (MockClient.containers (MockClient.WatchEvents five_members))).*2
    /\ MockClient.eventSubs
         (MockClient.SetAllContainersState "webapp" "exited" "Exited (0)"
            (MockClient.WatchEvents five_members)) !! 0%nat
       = Some (mkChan ([] ++ take (10 - 0) events) 10 false).
Proof.
  destruct (mock_project_change_notifies_subscribers "webapp" "exited" "Exited (0)"
              (MockClient.WatchEvents five_members)) as (events & Hperm & Hsubs).
  exists events. split; [exact Hperm |].
  apply (Hsubs 0%nat (make_chan 10)); reflexivity.
Defined.

End MockEventCases.

(** ** Bursts of broadcasts *)

Section Bursts.

Import SSE.
Implicit Types (b : Broker) (e : Event).

(** [Broadcast] never blocks its caller.  While the loop does not take from
    the intake, the events broadcast are queued in order as long as the
    intake has room; each further event is dropped with a line in the log.
    Clients and mailboxes are not touched. *)
Theorem burst_fills_intake_then_drops (events : list Event) : forall b,
  closed (broadcast b) = false ->
  let room := (cap (broadcast b) - length (buf (broadcast b)))%nat in
  exists b',
    acts (burst events) b = Ok b'
    /\ broadcast b'
       = mkChan (buf (broadcast b) ++ take room events) (cap (broadcast b)) false
    /\ logged b' = logged b ++ (drop_line <$> drop room events)
    /\ clients b' = clients b /\ heap b' = heap b
    /\ ctx_done b' = ctx_done b /\ returned b' = returned b.
Proof.
  induction events as [| e events IH]; intros b Hopen room; subst room.
  - exists b. simpl. rewrite take_nil, drop_nil, !app_nil_r. simpl.
    split; [reflexivity |]. split; [| done].
    destruct (broadcast b). simpl in *. by subst.
  - destruct e as [t d]. simpl. unfold Broadcast, send. rewrite Hopen.
    destruct (Nat.ltb_spec (length (buf (broadcast b))) (cap (broadcast b))) as [Hlt | Hge].
    + match goal with
      | |- context [acts (burst events) ?b1] =>
          destruct (IH b1) as (b' & Hacts & Hq & Hlog & Hcl & Hheap & Hctx & Hret);
          [reflexivity |]
      end.
      exists b'. simpl in *. rewrite length_app in Hq, Hlog. simpl in Hq, Hlog.
      replace (cap (broadcast b) - length (buf (broadcast b)))%nat
        with (S (cap (broadcast b) - (length (buf (broadcast b)) + 1)))%nat by lia.
      simpl. rewrite <- app_assoc in Hq. done.
    + match goal with
      | |- context [acts (burst events) ?b1] =>
          destruct (IH b1) as (b' & Hacts & Hq & Hlog & Hcl & Hheap & Hctx & Hret);
          [exact Hopen |]
      end.
      exists b'. simpl in *.
      replace (cap (broadcast b) - length (buf (broadcast b)))%nat with 0%nat in * by lia.
      simpl in *. rewrite <- app_assoc in Hlog. done.
Qed.

End Bursts.

Section BurstCases.

Lemma burst_fills_intake_then_drops_witness :
  exists b',
    SSE.acts (burst [tick; tock]) SSE.NewBroker = Ok b'
    /\ SSE.broadcast b'
       = mkChan (buf (SSE.broadcast SSE.NewBroker)
                 ++ take (cap (SSE.broadcast SSE.NewBroker)
                          - length (buf (SSE.broadcast SSE.NewBroker))) [tick; tock])
           (cap (SSE.broadcast SSE.NewBroker)) false
    /\ SSE.logged b'
       = SSE.logged SSE.NewBroker
         ++ (drop_line <$> drop (cap (SSE.broadcast SSE.NewBroker)
                                 - length (buf (SSE.broadcast SSE.NewBroker)))
                             [tick; tock])
    /\ SSE.clients b' = SSE.clients SSE.NewBroker /\ SSE.heap b' = SSE.heap SSE.NewBroker
    /\ SSE.ctx_done b' = SSE.ctx_done SSE.NewBroker
    /\ SSE.returned b' = SSE.returned SSE.NewBroker.
Proof.
  apply (burst_fills_intake_then_drops [tick; tock] SSE.NewBroker). reflexivity.
Defined.

End BurstCases.

(** ** Fields of a compose file *)

Section ComposeFileFields.

Import ProjectFile.
Variable Sprint_v : Yaml.value -> string.

Lemma cut_without (s : string) : has_equals s = false -> cut "=" s = None.
Proof.
  unfold has_equals. induction s as [| c s IH]; simpl; [done |].
  destruct (Ascii.eqb c "="); simpl; [done |].
  intros Hs. by rewrite IH.
Qed.

Lemma cut_at_first (k v : string) :
  has_equals k = false -> cut "=" (k +:+ "=" +:+ v) = Some (k, v).
Proof.
  unfold has_equals. induction k as [| c k IH]; simpl; [done |].
  destruct (Ascii.eqb c "="); simpl; [done |].
  intros Hk. by rewrite IH.
Qed.

Lemma add_assignment (result : gmap string string) (kv : string * option string) :
  has_equals kv.1 = false ->
  add_item result (assignment kv) = <[kv.1 := default "" kv.2]> result.
Proof.
  destruct kv as [k [v |]]; simpl; intros Hk; unfold SplitN2.
  - by rewrite cut_at_first.
  - by rewrite cut_without.
Qed.

Lemma add_item_skips (items : list Yaml.value) : forall result : gmap string string,
  foldl add_item result items = foldl add_item result (strings_of items).
Proof.
  induction items as [| item items IH]; intros result; [reflexivity |].
  destruct item; simpl; apply IH.
Qed.

(** A list of [KEY=VALUE] and [KEY] entries is read back as written: each
    key gets the text behind its first [=], which may itself contain [=],
    or the empty string when the entry has no [=]; of two entries with the
    same key the later one wins.  Entries that are not strings (nil, numbers
    and booleans, lists, maps) are skipped wherever they stand, and labels
    are read the same way. *)
Theorem environment_list_is_read_back
    (kvs : list (string * option string)) (items : list Yaml.value) :
  Forall (fun kv => has_equals kv.1 = false) kvs ->
  strings_of items = assignment <$> kvs ->
  parseEnvironment Sprint_v (Yaml.Seq items)
  = default "" <$> (list_to_map (reverse kvs) : gmap string (option string))
  /\ parseLabels Sprint_v (Yaml.Seq items) = parseEnvironment Sprint_v (Yaml.Seq items).
Proof.
  intros Hkeys Hitems. split; [| reflexivity].
  unfold parseEnvironment. rewrite add_item_skips, Hitems. clear Hitems items.
  induction kvs as [| kv kvs IH] using rev_ind.
  - simpl. by rewrite fmap_empty.
  - apply Forall_app in Hkeys as [Hkeys Hkv]. apply Forall_cons in Hkv as [Hkv _].
    rewrite fmap_app, foldl_app.
    change (assignment <$> [kv]) with [assignment kv]. cbn [foldl].
    rewrite add_assignment by exact Hkv. rewrite IH by exact Hkeys.
    rewrite reverse_app. simpl. by rewrite fmap_insert.
Qed.

End ComposeFileFields.

Section ComposeFileFieldCases.

Lemma environment_list_is_read_back_witness :
  ProjectFile.parseEnvironment (fun _ => "")
    (Yaml.Seq [Yaml.Str "A=1"; Yaml.Nil; Yaml.Scalar "3"; Yaml.Str "B";
               Yaml.Seq [Yaml.Str "C=2"]; Yaml.Map {[ "D" := Yaml.Str "4" ]};
               Yaml.Str "A=x=y"])
  = default "" <$> (list_to_map (reverse [("A", Some "1"); ("B", None); ("A", Some "x=y")])
                    : gmap string (option string))
  /\ (default "" <$> (list_to_map (reverse [("A", Some "1"); ("B", None); ("A", Some "x=y")])
                      : gmap string (option string)))
     = <["A" := "x=y"]> {[ "B" := "" ]}.
Proof.
  split.
  - apply (environment_list_is_read_back (fun _ => "")
             [("A", Some "1"); ("B", None); ("A", Some "x=y")]).
    + repeat constructor.
    + reflexivity.
  - vm_compute. reflexivity.
Defined.

End ComposeFileFieldCases.

(** ** The names of compose files *)

Section ComposeFileNames.

(** The scanner and the compose client know the same file names: when a
    directory has a file that [isComposeFile] accepts, [findComposeFile]
    finds a compose file in it, and what [findComposeFile] finds is an
    existing file of the directory with a name [isComposeFile] accepts. *)
Theorem scanner_and_compose_client_agree_on_names (h : Host.t) (dir : string) :
  (forall name,
      ProjectFile.isComposeFile name = true ->
      Host.stat h (ComposeClient.Join dir name) = true ->
      exists file, ComposeClient.findComposeFile h dir = (file, None))
  /\ (forall file,
        ComposeClient.findComposeFile h dir = (file, None) ->
        exists name,
          ProjectFile.isComposeFile name = true
          /\ file = ComposeClient.Join dir name
          /\ Host.stat h file = true).
Proof.
  unfold ComposeClient.findComposeFile. split.
  - intros name Hname Hstat.
    destruct (find _ _) as [found |] eqn:Hfind; [by eexists |].
    exfalso. unfold ProjectFile.isComposeFile in Hname.
    apply existsb_exists in Hname as (cn & Hin & Heq).
    apply String.eqb_eq in Heq as <-.
    pose proof (find_none _ _ Hfind name Hin) as Hno. simpl in Hno. congruence.
  - intros file Hfile.
    destruct (find _ _) as [found |] eqn:Hfind; [| discriminate].
    injection Hfile as <-. apply find_some in Hfind as [Hin Hstat].
    exists found. split; [| split; [reflexivity | exact Hstat]].
    unfold ProjectFile.isComposeFile. apply existsb_exists. exists found.
    split; [exact Hin | apply String.eqb_refl].
Qed.

End ComposeFileNames.

Section ComposeFileNameCases.

Lemma scanner_and_compose_client_agree_on_names_witness :
  exists file, ComposeClient.findComposeFile two_files_host "/srv/app" = (file, None).
Proof.
  destruct (scanner_and_compose_client_agree_on_names two_files_host "/srv/app")
    as [Hfound _].
  apply (Hfound "docker-compose.yml"); vm_compute; reflexivity.
Defined.

End ComposeFileNameCases.

(** ** Listing the containers of a host *)

Section HostListing.

Lemma containerToInfo_cases (ctr : SDKContainer.t) :
  ((12 <= String.length (SDKContainer.ID ctr))%nat ->
   exists info, Docker.containerToInfo ctr = Ok info)
  /\ ((String.length (SDKContainer.ID ctr) < 12)%nat ->
      Docker.containerToInfo ctr = Panic).
Proof.
  unfold Docker.containerToInfo. split; intros Hlen.
  - rewrite (slice_to_ok _ _ Hlen). simpl. by eexists.
  - by rewrite (slice_to_panic _ _ Hlen).
Qed.

Lemma containerToInfo_never_blocks (ctr : SDKContainer.t) :
  Docker.containerToInfo ctr ≠ Blocked.
Proof.
  destruct (Nat.le_gt_cases 12 (String.length (SDKContainer.ID ctr))) as [Hlen | Hlen].
  - destruct (proj1 (containerToInfo_cases ctr) Hlen) as [info ->]. discriminate.
  - rewrite (proj2 (containerToInfo_cases ctr) Hlen). discriminate.
Qed.

(** [Client.ListContainers] is all or nothing.  When the daemon's answer
    has only IDs of 12 bytes or more, it returns one [ContainerInfo] for
    each container of the answer, in the order of the answer; a single
    shorter ID anywhere in the answer makes the whole call panic. *)
Theorem host_listing_is_all_or_nothing
    (h : Host.t) (projectName : string) (containers : list SDKContainer.t) :
  Host.containerList h projectName = (containers, None) ->
  (Forall (fun ctr => (12 <= String.length (SDKContainer.ID ctr))%nat) containers ->
   exists infos,
     Client.ListContainers h projectName = Ok (infos, None)
     /\ Forall2 (fun ctr info => Docker.containerToInfo ctr = Ok info) containers infos)
  /\ (Exists (fun ctr => (String.length (SDKContainer.ID ctr) < 12)%nat) containers ->
      Client.ListContainers h projectName = Panic).
Proof.
  intros Hlist. unfold Client.ListContainers. rewrite Hlist. clear Hlist. split.
  - intros Hall.
    enough (exists infos, Client.convert containers = Ok infos
                          /\ Forall2 (fun ctr info => Docker.containerToInfo ctr = Ok info)
                               containers infos) as (infos & -> & H2).
    { by exists infos. }
    induction containers as [| ctr containers IH]; simpl.
    + exists []. split; [reflexivity | constructor].
    + apply Forall_cons in Hall as [Hctr Hall].
      destruct (proj1 (containerToInfo_cases ctr) Hctr) as [info Hinfo].
      destruct (IH Hall) as (infos & Hconv & H2).
      rewrite Hinfo, Hconv. simpl. exists (info :: infos).
      split; [reflexivity | by constructor].
  - intros Hshort.
    enough (Client.convert containers = Panic) as -> by reflexivity.
    induction Hshort as [ctr containers Hctr | ctr containers Hshort IH]; simpl.
    + by rewrite (proj2 (containerToInfo_cases ctr) Hctr).
    + rewrite IH.
      destruct (Docker.containerToInfo ctr) as [info | |] eqn:Hinfo; simpl; try reflexivity.
      by apply containerToInfo_never_blocks in Hinfo.
Qed.

End HostListing.

Section HostListingCases.

Lemma host_listing_is_all_or_nothing_witness :
  (exists infos,
      Client.ListContainers (listing_host [long_container; long_container]) "webapp"
      = Ok (infos, None)
      /\ Forall2 (fun ctr info => Docker.containerToInfo ctr = Ok info)
           [long_container; long_container] infos)
  /\ Client.ListContainers (listing_host [long_container; short_container]) "webapp"
     = Panic.
Proof.
  split.
  - apply (host_listing_is_all_or_nothing
             (listing_host [long_container; long_container]) "webapp"
             [long_container; long_container]); [reflexivity |].
    repeat constructor; simpl; lia.
  - apply (host_listing_is_all_or_nothing
             (listing_host [long_container; short_container]) "webapp"
             [long_container; short_container]); [reflexivity |].
    apply Exists_cons_tl, Exists_cons_hd. simpl. lia.
Defined.

End HostListingCases.

Section FurtherCases.

Lemma SetAllContainersState_sets_exactly_the_project_witness :
  MockClient.containers
    (MockClient.SetAllContainersState "webapp" "exited" "Exited (0)" five_members)
  = set_in_project "webapp" "exited" "Exited (0)" <$> MockClient.containers five_members
  /\ length (MockClient.eventSubs
               (MockClient.SetAllContainersState "webapp" "exited" "Exited (0)" five_members))
     = length (MockClient.eventSubs five_members).
Proof.
  exact (SetAllContainersState_sets_exactly_the_project "webapp" "exited" "Exited (0)"
           five_members).
Defined.

Lemma mock_operations_complete_witness :
  (MockComposeClient.Down Background "/projects/webapp" true (mkProc five_members [] 0%nat)).1
  = (Some (ComposeResult.mk true "Stopped successfully"), None)
  /\ world (MockComposeClient.Pull Background "/projects/webapp" true
              (mkProc five_members [] 0%nat)).2
     = five_members.
Proof.
  pose proof (mock_operations_complete "/projects/webapp" true (mkProc five_members [] 0%nat))
    as (_ & (Hdown & _) & (_ & Hpull) & _).
  split; [exact Hdown | exact Hpull].
Defined.

Lemma ListProjects_lists_all_sorted_witness :
  NoDup (Scanner.ListProjects (scanner (sample_sys sample_mock 2)))
  /\ "p1" ∈ Scanner.ListProjects (scanner (sample_sys sample_mock 2))
  /\ Sorted (by_name (scanner (sample_sys sample_mock 2)))
       (Scanner.ListProjects (scanner (sample_sys sample_mock 2))).
Proof.
  pose proof (ListProjects_lists_all_sorted (scanner (sample_sys sample_mock 2)))
    as (_ & Hnd & Hmem & Hsorted).
  split; [exact Hnd |]. split; [| exact Hsorted].
  apply Hmem. by eexists.
Defined.

End FurtherCases.
